(** * OddsExtractor: the flexible Turkish parser and the sheet manager

    A shallow embedding of [turkish_parser1.py] (class
    [FlexibleTurkishParser], the sink wrapper [FlexibleSheetsManager] and
    the processing step of [main]) and of [sheets1.py] (class
    [GoogleSheetsManager]), followed by the properties of the
    classification-and-assembly core.

    Modelling conventions.
    - A Python [str] is the list of its characters, a character is its
      Unicode code point.  [len], [isalpha], [isspace], [upper], [strip],
      [split] and the regular-expression classes [\d] and [\s] are
      Python's, over all of Unicode: the tables of CPython 3.11
      (Unicode 14.0) are part of the development.  A string literal of
      this file stands for the characters that its UTF-8 bytes encode, so
      the literals of the source are copied as the source file has them.
    - Regular expressions are values of a small pattern type (a sequence
      of character classes, each with a repetition range, and the two
      anchors), run by a greedy backtracking matcher as [re] does;
      [re.IGNORECASE] compares simple lower-case mappings and the extra
      case equivalences of [re].
    - The [data] dictionary of the parser is a finite map from key names
      to Python values, so that a lookup of an absent key raises
      [KeyError] as in the source.
    - [datetime.now()] is an input: the three formatted clock readings
      that a processing step uses are passed in a record.
    - [float] comparisons of a two-decimal string against [1.01] and
      [100.0], and of an integer count against [n * 0.7] or [n * 0.6],
      are written over integers (hundredths, resp. tenths); see the
      comments at [is_odds_value] and [is_team_match]. *)

From Stdlib Require Import Ascii String List NArith Lia Bool DecimalString.
From stdpp Require Import gmap strings list fin_maps.

Local Open Scope string_scope.
Local Open Scope list_scope.
Local Open Scope nat_scope.

(** ** Unicode tables

    The character tables of CPython 3.11 (Unicode 14.0), each sorted by
    code point:
    the whitespace of [str.isspace], [str.strip], [str.split] and [\s];
    the zero of each run of decimal digits ([\d], [float]); the letters
    of [str.isalpha]; the full upper-case mapping of [str.upper]; the
    simple lower-case mapping and the extra case equivalences that [re]
    uses under [re.IGNORECASE]. *)

Module Unicode.

Definition space_ranges : list (N * N) :=
  [(9, 13); (28, 32); (133, 133); (160, 160); (5760, 5760); (8192, 8202);
    (8232, 8233); (8239, 8239); (8287, 8287); (12288, 12288)]%N.

Definition decimal_zeros : list N :=
  [48; 1632; 1776; 1984; 2406; 2534; 2662; 2790; 2918; 3046; 3174; 3302;
    3430; 3558; 3664; 3792; 3872; 4160; 4240; 6112; 6160; 6470; 6608; 6784;
    6800; 6992; 7088; 7232; 7248; 42528; 43216; 43264; 43472; 43504; 43600;
    44016; 65296; 66720; 68912; 69734; 69872; 69942; 70096; 70384; 70736;
    70864; 71248; 71360; 71472; 71904; 72016; 72784; 73040; 73120; 92768;
    92864; 93008; 120782; 120792; 120802; 120812; 120822; 123200; 123632;
    125264; 130032]%N.

Definition alpha_ranges : list (N * N) :=
  [(65, 90); (97, 122); (170, 170); (181, 181); (186, 186); (192, 214);
    (216, 246); (248, 705); (710, 721); (736, 740); (748, 748); (750, 750);
    (880, 884); (886, 887); (890, 893); (895, 895); (902, 902); (904, 906);
    (908, 908); (910, 929); (931, 1013); (1015, 1153); (1162, 1327); (1329,
    1366); (1369, 1369); (1376, 1416); (1488, 1514); (1519, 1522); (1568,
    1610); (1646, 1647); (1649, 1747); (1749, 1749); (1765, 1766); (1774,
    1775); (1786, 1788); (1791, 1791); (1808, 1808); (1810, 1839); (1869,
    1957); (1969, 1969); (1994, 2026); (2036, 2037); (2042, 2042); (2048,
    2069); (2074, 2074); (2084, 2084); (2088, 2088); (2112, 2136); (2144,
    2154); (2160, 2183); (2185, 2190); (2208, 2249); (2308, 2361); (2365,
    2365); (2384, 2384); (2392, 2401); (2417, 2432); (2437, 2444); (2447,
    2448); (2451, 2472); (2474, 2480); (2482, 2482); (2486, 2489); (2493,
    2493); (2510, 2510); (2524, 2525); (2527, 2529); (2544, 2545); (2556,
    2556); (2565, 2570); (2575, 2576); (2579, 2600); (2602, 2608); (2610,
    2611); (2613, 2614); (2616, 2617); (2649, 2652); (2654, 2654); (2674,
    2676); (2693, 2701); (2703, 2705); (2707, 2728); (2730, 2736); (2738,
    2739); (2741, 2745); (2749, 2749); (2768, 2768); (2784, 2785); (2809,
    2809); (2821, 2828); (2831, 2832); (2835, 2856); (2858, 2864); (2866,
    2867); (2869, 2873); (2877, 2877); (2908, 2909); (2911, 2913); (2929,
    2929); (2947, 2947); (2949, 2954); (2958, 2960); (2962, 2965); (2969,
    2970); (2972, 2972); (2974, 2975); (2979, 2980); (2984, 2986); (2990,
    3001); (3024, 3024); (3077, 3084); (3086, 3088); (3090, 3112); (3114,
    3129); (3133, 3133); (3160, 3162); (3165, 3165); (3168, 3169); (3200,
    3200); (3205, 3212); (3214, 3216); (3218, 3240); (3242, 3251); (3253,
    3257); (3261, 3261); (3293, 3294); (3296, 3297); (3313, 3314); (3332,
    3340); (3342, 3344); (3346, 3386); (3389, 3389); (3406, 3406); (3412,
    3414); (3423, 3425); (3450, 3455); (3461, 3478); (3482, 3505); (3507,
    3515); (3517, 3517); (3520, 3526); (3585, 3632); (3634, 3635); (3648,
    3654); (3713, 3714); (3716, 3716); (3718, 3722); (3724, 3747); (3749,
    3749); (3751, 3760); (3762, 3763); (3773, 3773); (3776, 3780); (3782,
    3782); (3804, 3807); (3840, 3840); (3904, 3911); (3913, 3948); (3976,
    3980); (4096, 4138); (4159, 4159); (4176, 4181); (4186, 4189); (4193,
    4193); (4197, 4198); (4206, 4208); (4213, 4225); (4238, 4238); (4256,
    4293); (4295, 4295); (4301, 4301); (4304, 4346); (4348, 4680); (4682,
    4685); (4688, 4694); (4696, 4696); (4698, 4701); (4704, 4744); (4746,
    4749); (4752, 4784); (4786, 4789); (4792, 4798); (4800, 4800); (4802,
    4805); (4808, 4822); (4824, 4880); (4882, 4885); (4888, 4954); (4992,
    5007); (5024, 5109); (5112, 5117); (5121, 5740); (5743, 5759); (5761,
    5786); (5792, 5866); (5873, 5880); (5888, 5905); (5919, 5937); (5952,
    5969); (5984, 5996); (5998, 6000); (6016, 6067); (6103, 6103); (6108,
    6108); (6176, 6264); (6272, 6276); (6279, 6312); (6314, 6314); (6320,
    6389); (6400, 6430); (6480, 6509); (6512, 6516); (6528, 6571); (6576,
    6601); (6656, 6678); (6688, 6740); (6823, 6823); (6917, 6963); (6981,
    6988); (7043, 7072); (7086, 7087); (7098, 7141); (7168, 7203); (7245,
    7247); (7258, 7293); (7296, 7304); (7312, 7354); (7357, 7359); (7401,
    7404); (7406, 7411); (7413, 7414); (7418, 7418); (7424, 7615); (7680,
    7957); (7960, 7965); (7968, 8005); (8008, 8013); (8016, 8023); (8025,
    8025); (8027, 8027); (8029, 8029); (8031, 8061); (8064, 8116); (8118,
    8124); (8126, 8126); (8130, 8132); (8134, 8140); (8144, 8147); (8150,
    8155); (8160, 8172); (8178, 8180); (8182, 8188); (8305, 8305); (8319,
    8319); (8336, 8348); (8450, 8450); (8455, 8455); (8458, 8467); (8469,
    8469); (8473, 8477); (8484, 8484); (8486, 8486); (8488, 8488); (8490,
    8493); (8495, 8505); (8508, 8511); (8517, 8521); (8526, 8526); (8579,
    8580); (11264, 11492); (11499, 11502); (11506, 11507); (11520, 11557);
    (11559, 11559); (11565, 11565); (11568, 11623); (11631, 11631); (11648,
    11670); (11680, 11686); (11688, 11694); (11696, 11702); (11704, 11710);
    (11712, 11718); (11720, 11726); (11728, 11734); (11736, 11742); (11823,
    11823); (12293, 12294); (12337, 12341); (12347, 12348); (12353, 12438);
    (12445, 12447); (12449, 12538); (12540, 12543); (12549, 12591); (12593,
    12686); (12704, 12735); (12784, 12799); (13312, 19903); (19968, 42124);
    (42192, 42237); (42240, 42508); (42512, 42527); (42538, 42539); (42560,
    42606); (42623, 42653); (42656, 42725); (42775, 42783); (42786, 42888);
    (42891, 42954); (42960, 42961); (42963, 42963); (42965, 42969); (42994,
    43009); (43011, 43013); (43015, 43018); (43020, 43042); (43072, 43123);
    (43138, 43187); (43250, 43255); (43259, 43259); (43261, 43262); (43274,
    43301); (43312, 43334); (43360, 43388); (43396, 43442); (43471, 43471);
    (43488, 43492); (43494, 43503); (43514, 43518); (43520, 43560); (43584,
    43586); (43588, 43595); (43616, 43638); (43642, 43642); (43646, 43695);
    (43697, 43697); (43701, 43702); (43705, 43709); (43712, 43712); (43714,
    43714); (43739, 43741); (43744, 43754); (43762, 43764); (43777, 43782);
    (43785, 43790); (43793, 43798); (43808, 43814); (43816, 43822); (43824,
    43866); (43868, 43881); (43888, 44002); (44032, 55203); (55216, 55238);
    (55243, 55291); (63744, 64109); (64112, 64217); (64256, 64262); (64275,
    64279); (64285, 64285); (64287, 64296); (64298, 64310); (64312, 64316);
    (64318, 64318); (64320, 64321); (64323, 64324); (64326, 64433); (64467,
    64829); (64848, 64911); (64914, 64967); (65008, 65019); (65136, 65140);
    (65142, 65276); (65313, 65338); (65345, 65370); (65382, 65470); (65474,
    65479); (65482, 65487); (65490, 65495); (65498, 65500); (65536, 65547);
    (65549, 65574); (65576, 65594); (65596, 65597); (65599, 65613); (65616,
    65629); (65664, 65786); (66176, 66204); (66208, 66256); (66304, 66335);
    (66349, 66368); (66370, 66377); (66384, 66421); (66432, 66461); (66464,
    66499); (66504, 66511); (66560, 66717); (66736, 66771); (66776, 66811);
    (66816, 66855); (66864, 66915); (66928, 66938); (66940, 66954); (66956,
    66962); (66964, 66965); (66967, 66977); (66979, 66993); (66995, 67001);
    (67003, 67004); (67072, 67382); (67392, 67413); (67424, 67431); (67456,
    67461); (67463, 67504); (67506, 67514); (67584, 67589); (67592, 67592);
    (67594, 67637); (67639, 67640); (67644, 67644); (67647, 67669); (67680,
    67702); (67712, 67742); (67808, 67826); (67828, 67829); (67840, 67861);
    (67872, 67897); (67968, 68023); (68030, 68031); (68096, 68096); (68112,
    68115); (68117, 68119); (68121, 68149); (68192, 68220); (68224, 68252);
    (68288, 68295); (68297, 68324); (68352, 68405); (68416, 68437); (68448,
    68466); (68480, 68497); (68608, 68680); (68736, 68786); (68800, 68850);
    (68864, 68899); (69248, 69289); (69296, 69297); (69376, 69404); (69415,
    69415); (69424, 69445); (69488, 69505); (69552, 69572); (69600, 69622);
    (69635, 69687); (69745, 69746); (69749, 69749); (69763, 69807); (69840,
    69864); (69891, 69926); (69956, 69956); (69959, 69959); (69968, 70002);
    (70006, 70006); (70019, 70066); (70081, 70084); (70106, 70106); (70108,
    70108); (70144, 70161); (70163, 70187); (70272, 70278); (70280, 70280);
    (70282, 70285); (70287, 70301); (70303, 70312); (70320, 70366); (70405,
    70412); (70415, 70416); (70419, 70440); (70442, 70448); (70450, 70451);
    (70453, 70457); (70461, 70461); (70480, 70480); (70493, 70497); (70656,
    70708); (70727, 70730); (70751, 70753); (70784, 70831); (70852, 70853);
    (70855, 70855); (71040, 71086); (71128, 71131); (71168, 71215); (71236,
    71236); (71296, 71338); (71352, 71352); (71424, 71450); (71488, 71494);
    (71680, 71723); (71840, 71903); (71935, 71942); (71945, 71945); (71948,
    71955); (71957, 71958); (71960, 71983); (71999, 71999); (72001, 72001);
    (72096, 72103); (72106, 72144); (72161, 72161); (72163, 72163); (72192,
    72192); (72203, 72242); (72250, 72250); (72272, 72272); (72284, 72329);
    (72349, 72349); (72368, 72440); (72704, 72712); (72714, 72750); (72768,
    72768); (72818, 72847); (72960, 72966); (72968, 72969); (72971, 73008);
    (73030, 73030); (73056, 73061); (73063, 73064); (73066, 73097); (73112,
    73112); (73440, 73458); (73648, 73648); (73728, 74649); (74880, 75075);
    (77712, 77808); (77824, 78894); (82944, 83526); (92160, 92728); (92736,
    92766); (92784, 92862); (92880, 92909); (92928, 92975); (92992, 92995);
    (93027, 93047); (93053, 93071); (93760, 93823); (93952, 94026); (94032,
    94032); (94099, 94111); (94176, 94177); (94179, 94179); (94208, 100343);
    (100352, 101589); (101632, 101640); (110576, 110579); (110581, 110587);
    (110589, 110590); (110592, 110882); (110928, 110930); (110948, 110951);
    (110960, 111355); (113664, 113770); (113776, 113788); (113792, 113800);
    (113808, 113817); (119808, 119892); (119894, 119964); (119966, 119967);
    (119970, 119970); (119973, 119974); (119977, 119980); (119982, 119993);
    (119995, 119995); (119997, 120003); (120005, 120069); (120071, 120074);
    (120077, 120084); (120086, 120092); (120094, 120121); (120123, 120126);
    (120128, 120132); (120134, 120134); (120138, 120144); (120146, 120485);
    (120488, 120512); (120514, 120538); (120540, 120570); (120572, 120596);
    (120598, 120628); (120630, 120654); (120656, 120686); (120688, 120712);
    (120714, 120744); (120746, 120770); (120772, 120779); (122624, 122654);
    (123136, 123180); (123191, 123197); (123214, 123214); (123536, 123565);
    (123584, 123627); (124896, 124902); (124904, 124907); (124909, 124910);
    (124912, 124926); (124928, 125124); (125184, 125251); (125259, 125259);
    (126464, 126467); (126469, 126495); (126497, 126498); (126500, 126500);
    (126503, 126503); (126505, 126514); (126516, 126519); (126521, 126521);
    (126523, 126523); (126530, 126530); (126535, 126535); (126537, 126537);
    (126539, 126539); (126541, 126543); (126545, 126546); (126548, 126548);
    (126551, 126551); (126553, 126553); (126555, 126555); (126557, 126557);
    (126559, 126559); (126561, 126562); (126564, 126564); (126567, 126570);
    (126572, 126578); (126580, 126583); (126585, 126588); (126590, 126590);
    (126592, 126601); (126603, 126619); (126625, 126627); (126629, 126633);
    (126635, 126651); (131072, 173791); (173824, 177976); (177984, 178205);
    (178208, 183969); (183984, 191456); (194560, 195101); (196608, 201546)]%N.

Definition upper_table : list (N * list N) :=
  [(97, [65]); (98, [66]); (99, [67]); (100, [68]); (101, [69]); (102,
    [70]); (103, [71]); (104, [72]); (105, [73]); (106, [74]); (107, [75]);
    (108, [76]); (109, [77]); (110, [78]); (111, [79]); (112, [80]); (113,
    [81]); (114, [82]); (115, [83]); (116, [84]); (117, [85]); (118, [86]);
    (119, [87]); (120, [88]); (121, [89]); (122, [90]); (181, [924]); (223,
    [83; 83]); (224, [192]); (225, [193]); (226, [194]); (227, [195]); (228,
    [196]); (229, [197]); (230, [198]); (231, [199]); (232, [200]); (233,
    [201]); (234, [202]); (235, [203]); (236, [204]); (237, [205]); (238,
    [206]); (239, [207]); (240, [208]); (241, [209]); (242, [210]); (243,
    [211]); (244, [212]); (245, [213]); (246, [214]); (248, [216]); (249,
    [217]); (250, [218]); (251, [219]); (252, [220]); (253, [221]); (254,
    [222]); (255, [376]); (257, [256]); (259, [258]); (261, [260]); (263,
    [262]); (265, [264]); (267, [266]); (269, [268]); (271, [270]); (273,
    [272]); (275, [274]); (277, [276]); (279, [278]); (281, [280]); (283,
    [282]); (285, [284]); (287, [286]); (289, [288]); (291, [290]); (293,
    [292]); (295, [294]); (297, [296]); (299, [298]); (301, [300]); (303,
    [302]); (305, [73]); (307, [306]); (309, [308]); (311, [310]); (314,
    [313]); (316, [315]); (318, [317]); (320, [319]); (322, [321]); (324,
    [323]); (326, [325]); (328, [327]); (329, [700; 78]); (331, [330]);
    (333, [332]); (335, [334]); (337, [336]); (339, [338]); (341, [340]);
    (343, [342]); (345, [344]); (347, [346]); (349, [348]); (351, [350]);
    (353, [352]); (355, [354]); (357, [356]); (359, [358]); (361, [360]);
    (363, [362]); (365, [364]); (367, [366]); (369, [368]); (371, [370]);
    (373, [372]); (375, [374]); (378, [377]); (380, [379]); (382, [381]);
    (383, [83]); (384, [579]); (387, [386]); (389, [388]); (392, [391]);
    (396, [395]); (402, [401]); (405, [502]); (409, [408]); (410, [573]);
    (414, [544]); (417, [416]); (419, [418]); (421, [420]); (424, [423]);
    (429, [428]); (432, [431]); (436, [435]); (438, [437]); (441, [440]);
    (445, [444]); (447, [503]); (453, [452]); (454, [452]); (456, [455]);
    (457, [455]); (459, [458]); (460, [458]); (462, [461]); (464, [463]);
    (466, [465]); (468, [467]); (470, [469]); (472, [471]); (474, [473]);
    (476, [475]); (477, [398]); (479, [478]); (481, [480]); (483, [482]);
    (485, [484]); (487, [486]); (489, [488]); (491, [490]); (493, [492]);
    (495, [494]); (496, [74; 780]); (498, [497]); (499, [497]); (501,
    [500]); (505, [504]); (507, [506]); (509, [508]); (511, [510]); (513,
    [512]); (515, [514]); (517, [516]); (519, [518]); (521, [520]); (523,
    [522]); (525, [524]); (527, [526]); (529, [528]); (531, [530]); (533,
    [532]); (535, [534]); (537, [536]); (539, [538]); (541, [540]); (543,
    [542]); (547, [546]); (549, [548]); (551, [550]); (553, [552]); (555,
    [554]); (557, [556]); (559, [558]); (561, [560]); (563, [562]); (572,
    [571]); (575, [11390]); (576, [11391]); (578, [577]); (583, [582]);
    (585, [584]); (587, [586]); (589, [588]); (591, [590]); (592, [11375]);
    (593, [11373]); (594, [11376]); (595, [385]); (596, [390]); (598,
    [393]); (599, [394]); (601, [399]); (603, [400]); (604, [42923]); (608,
    [403]); (609, [42924]); (611, [404]); (613, [42893]); (614, [42922]);
    (616, [407]); (617, [406]); (618, [42926]); (619, [11362]); (620,
    [42925]); (623, [412]); (625, [11374]); (626, [413]); (629, [415]);
    (637, [11364]); (640, [422]); (642, [42949]); (643, [425]); (647,
    [42929]); (648, [430]); (649, [580]); (650, [433]); (651, [434]); (652,
    [581]); (658, [439]); (669, [42930]); (670, [42928]); (837, [921]);
    (881, [880]); (883, [882]); (887, [886]); (891, [1021]); (892, [1022]);
    (893, [1023]); (912, [921; 776; 769]); (940, [902]); (941, [904]); (942,
    [905]); (943, [906]); (944, [933; 776; 769]); (945, [913]); (946,
    [914]); (947, [915]); (948, [916]); (949, [917]); (950, [918]); (951,
    [919]); (952, [920]); (953, [921]); (954, [922]); (955, [923]); (956,
    [924]); (957, [925]); (958, [926]); (959, [927]); (960, [928]); (961,
    [929]); (962, [931]); (963, [931]); (964, [932]); (965, [933]); (966,
    [934]); (967, [935]); (968, [936]); (969, [937]); (970, [938]); (971,
    [939]); (972, [908]); (973, [910]); (974, [911]); (976, [914]); (977,
    [920]); (981, [934]); (982, [928]); (983, [975]); (985, [984]); (987,
    [986]); (989, [988]); (991, [990]); (993, [992]); (995, [994]); (997,
    [996]); (999, [998]); (1001, [1000]); (1003, [1002]); (1005, [1004]);
    (1007, [1006]); (1008, [922]); (1009, [929]); (1010, [1017]); (1011,
    [895]); (1013, [917]); (1016, [1015]); (1019, [1018]); (1072, [1040]);
    (1073, [1041]); (1074, [1042]); (1075, [1043]); (1076, [1044]); (1077,
    [1045]); (1078, [1046]); (1079, [1047]); (1080, [1048]); (1081, [1049]);
    (1082, [1050]); (1083, [1051]); (1084, [1052]); (1085, [1053]); (1086,
    [1054]); (1087, [1055]); (1088, [1056]); (1089, [1057]); (1090, [1058]);
    (1091, [1059]); (1092, [1060]); (1093, [1061]); (1094, [1062]); (1095,
    [1063]); (1096, [1064]); (1097, [1065]); (1098, [1066]); (1099, [1067]);
    (1100, [1068]); (1101, [1069]); (1102, [1070]); (1103, [1071]); (1104,
    [1024]); (1105, [1025]); (1106, [1026]); (1107, [1027]); (1108, [1028]);
    (1109, [1029]); (1110, [1030]); (1111, [1031]); (1112, [1032]); (1113,
    [1033]); (1114, [1034]); (1115, [1035]); (1116, [1036]); (1117, [1037]);
    (1118, [1038]); (1119, [1039]); (1121, [1120]); (1123, [1122]); (1125,
    [1124]); (1127, [1126]); (1129, [1128]); (1131, [1130]); (1133, [1132]);
    (1135, [1134]); (1137, [1136]); (1139, [1138]); (1141, [1140]); (1143,
    [1142]); (1145, [1144]); (1147, [1146]); (1149, [1148]); (1151, [1150]);
    (1153, [1152]); (1163, [1162]); (1165, [1164]); (1167, [1166]); (1169,
    [1168]); (1171, [1170]); (1173, [1172]); (1175, [1174]); (1177, [1176]);
    (1179, [1178]); (1181, [1180]); (1183, [1182]); (1185, [1184]); (1187,
    [1186]); (1189, [1188]); (1191, [1190]); (1193, [1192]); (1195, [1194]);
    (1197, [1196]); (1199, [1198]); (1201, [1200]); (1203, [1202]); (1205,
    [1204]); (1207, [1206]); (1209, [1208]); (1211, [1210]); (1213, [1212]);
    (1215, [1214]); (1218, [1217]); (1220, [1219]); (1222, [1221]); (1224,
    [1223]); (1226, [1225]); (1228, [1227]); (1230, [1229]); (1231, [1216]);
    (1233, [1232]); (1235, [1234]); (1237, [1236]); (1239, [1238]); (1241,
    [1240]); (1243, [1242]); (1245, [1244]); (1247, [1246]); (1249, [1248]);
    (1251, [1250]); (1253, [1252]); (1255, [1254]); (1257, [1256]); (1259,
    [1258]); (1261, [1260]); (1263, [1262]); (1265, [1264]); (1267, [1266]);
    (1269, [1268]); (1271, [1270]); (1273, [1272]); (1275, [1274]); (1277,
    [1276]); (1279, [1278]); (1281, [1280]); (1283, [1282]); (1285, [1284]);
    (1287, [1286]); (1289, [1288]); (1291, [1290]); (1293, [1292]); (1295,
    [1294]); (1297, [1296]); (1299, [1298]); (1301, [1300]); (1303, [1302]);
    (1305, [1304]); (1307, [1306]); (1309, [1308]); (1311, [1310]); (1313,
    [1312]); (1315, [1314]); (1317, [1316]); (1319, [1318]); (1321, [1320]);
    (1323, [1322]); (1325, [1324]); (1327, [1326]); (1377, [1329]); (1378,
    [1330]); (1379, [1331]); (1380, [1332]); (1381, [1333]); (1382, [1334]);
    (1383, [1335]); (1384, [1336]); (1385, [1337]); (1386, [1338]); (1387,
    [1339]); (1388, [1340]); (1389, [1341]); (1390, [1342]); (1391, [1343]);
    (1392, [1344]); (1393, [1345]); (1394, [1346]); (1395, [1347]); (1396,
    [1348]); (1397, [1349]); (1398, [1350]); (1399, [1351]); (1400, [1352]);
    (1401, [1353]); (1402, [1354]); (1403, [1355]); (1404, [1356]); (1405,
    [1357]); (1406, [1358]); (1407, [1359]); (1408, [1360]); (1409, [1361]);
    (1410, [1362]); (1411, [1363]); (1412, [1364]); (1413, [1365]); (1414,
    [1366]); (1415, [1333; 1362]); (4304, [7312]); (4305, [7313]); (4306,
    [7314]); (4307, [7315]); (4308, [7316]); (4309, [7317]); (4310, [7318]);
    (4311, [7319]); (4312, [7320]); (4313, [7321]); (4314, [7322]); (4315,
    [7323]); (4316, [7324]); (4317, [7325]); (4318, [7326]); (4319, [7327]);
    (4320, [7328]); (4321, [7329]); (4322, [7330]); (4323, [7331]); (4324,
    [7332]); (4325, [7333]); (4326, [7334]); (4327, [7335]); (4328, [7336]);
    (4329, [7337]); (4330, [7338]); (4331, [7339]); (4332, [7340]); (4333,
    [7341]); (4334, [7342]); (4335, [7343]); (4336, [7344]); (4337, [7345]);
    (4338, [7346]); (4339, [7347]); (4340, [7348]); (4341, [7349]); (4342,
    [7350]); (4343, [7351]); (4344, [7352]); (4345, [7353]); (4346, [7354]);
    (4349, [7357]); (4350, [7358]); (4351, [7359]); (5112, [5104]); (5113,
    [5105]); (5114, [5106]); (5115, [5107]); (5116, [5108]); (5117, [5109]);
    (7296, [1042]); (7297, [1044]); (7298, [1054]); (7299, [1057]); (7300,
    [1058]); (7301, [1058]); (7302, [1066]); (7303, [1122]); (7304,
    [42570]); (7545, [42877]); (7549, [11363]); (7566, [42950]); (7681,
    [7680]); (7683, [7682]); (7685, [7684]); (7687, [7686]); (7689, [7688]);
    (7691, [7690]); (7693, [7692]); (7695, [7694]); (7697, [7696]); (7699,
    [7698]); (7701, [7700]); (7703, [7702]); (7705, [7704]); (7707, [7706]);
    (7709, [7708]); (7711, [7710]); (7713, [7712]); (7715, [7714]); (7717,
    [7716]); (7719, [7718]); (7721, [7720]); (7723, [7722]); (7725, [7724]);
    (7727, [7726]); (7729, [7728]); (7731, [7730]); (7733, [7732]); (7735,
    [7734]); (7737, [7736]); (7739, [7738]); (7741, [7740]); (7743, [7742]);
    (7745, [7744]); (7747, [7746]); (7749, [7748]); (7751, [7750]); (7753,
    [7752]); (7755, [7754]); (7757, [7756]); (7759, [7758]); (7761, [7760]);
    (7763, [7762]); (7765, [7764]); (7767, [7766]); (7769, [7768]); (7771,
    [7770]); (7773, [7772]); (7775, [7774]); (7777, [7776]); (7779, [7778]);
    (7781, [7780]); (7783, [7782]); (7785, [7784]); (7787, [7786]); (7789,
    [7788]); (7791, [7790]); (7793, [7792]); (7795, [7794]); (7797, [7796]);
    (7799, [7798]); (7801, [7800]); (7803, [7802]); (7805, [7804]); (7807,
    [7806]); (7809, [7808]); (7811, [7810]); (7813, [7812]); (7815, [7814]);
    (7817, [7816]); (7819, [7818]); (7821, [7820]); (7823, [7822]); (7825,
    [7824]); (7827, [7826]); (7829, [7828]); (7830, [72; 817]); (7831, [84;
    776]); (7832, [87; 778]); (7833, [89; 778]); (7834, [65; 702]); (7835,
    [7776]); (7841, [7840]); (7843, [7842]); (7845, [7844]); (7847, [7846]);
    (7849, [7848]); (7851, [7850]); (7853, [7852]); (7855, [7854]); (7857,
    [7856]); (7859, [7858]); (7861, [7860]); (7863, [7862]); (7865, [7864]);
    (7867, [7866]); (7869, [7868]); (7871, [7870]); (7873, [7872]); (7875,
    [7874]); (7877, [7876]); (7879, [7878]); (7881, [7880]); (7883, [7882]);
    (7885, [7884]); (7887, [7886]); (7889, [7888]); (7891, [7890]); (7893,
    [7892]); (7895, [7894]); (7897, [7896]); (7899, [7898]); (7901, [7900]);
    (7903, [7902]); (7905, [7904]); (7907, [7906]); (7909, [7908]); (7911,
    [7910]); (7913, [7912]); (7915, [7914]); (7917, [7916]); (7919, [7918]);
    (7921, [7920]); (7923, [7922]); (7925, [7924]); (7927, [7926]); (7929,
    [7928]); (7931, [7930]); (7933, [7932]); (7935, [7934]); (7936, [7944]);
    (7937, [7945]); (7938, [7946]); (7939, [7947]); (7940, [7948]); (7941,
    [7949]); (7942, [7950]); (7943, [7951]); (7952, [7960]); (7953, [7961]);
    (7954, [7962]); (7955, [7963]); (7956, [7964]); (7957, [7965]); (7968,
    [7976]); (7969, [7977]); (7970, [7978]); (7971, [7979]); (7972, [7980]);
    (7973, [7981]); (7974, [7982]); (7975, [7983]); (7984, [7992]); (7985,
    [7993]); (7986, [7994]); (7987, [7995]); (7988, [7996]); (7989, [7997]);
    (7990, [7998]); (7991, [7999]); (8000, [8008]); (8001, [8009]); (8002,
    [8010]); (8003, [8011]); (8004, [8012]); (8005, [8013]); (8016, [933;
    787]); (8017, [8025]); (8018, [933; 787; 768]); (8019, [8027]); (8020,
    [933; 787; 769]); (8021, [8029]); (8022, [933; 787; 834]); (8023,
    [8031]); (8032, [8040]); (8033, [8041]); (8034, [8042]); (8035, [8043]);
    (8036, [8044]); (8037, [8045]); (8038, [8046]); (8039, [8047]); (8048,
    [8122]); (8049, [8123]); (8050, [8136]); (8051, [8137]); (8052, [8138]);
    (8053, [8139]); (8054, [8154]); (8055, [8155]); (8056, [8184]); (8057,
    [8185]); (8058, [8170]); (8059, [8171]); (8060, [8186]); (8061, [8187]);
    (8064, [7944; 921]); (8065, [7945; 921]); (8066, [7946; 921]); (8067,
    [7947; 921]); (8068, [7948; 921]); (8069, [7949; 921]); (8070, [7950;
    921]); (8071, [7951; 921]); (8072, [7944; 921]); (8073, [7945; 921]);
    (8074, [7946; 921]); (8075, [7947; 921]); (8076, [7948; 921]); (8077,
    [7949; 921]); (8078, [7950; 921]); (8079, [7951; 921]); (8080, [7976;
    921]); (8081, [7977; 921]); (8082, [7978; 921]); (8083, [7979; 921]);
    (8084, [7980; 921]); (8085, [7981; 921]); (8086, [7982; 921]); (8087,
    [7983; 921]); (8088, [7976; 921]); (8089, [7977; 921]); (8090, [7978;
    921]); (8091, [7979; 921]); (8092, [7980; 921]); (8093, [7981; 921]);
    (8094, [7982; 921]); (8095, [7983; 921]); (8096, [8040; 921]); (8097,
    [8041; 921]); (8098, [8042; 921]); (8099, [8043; 921]); (8100, [8044;
    921]); (8101, [8045; 921]); (8102, [8046; 921]); (8103, [8047; 921]);
    (8104, [8040; 921]); (8105, [8041; 921]); (8106, [8042; 921]); (8107,
    [8043; 921]); (8108, [8044; 921]); (8109, [8045; 921]); (8110, [8046;
    921]); (8111, [8047; 921]); (8112, [8120]); (8113, [8121]); (8114,
    [8122; 921]); (8115, [913; 921]); (8116, [902; 921]); (8118, [913;
    834]); (8119, [913; 834; 921]); (8124, [913; 921]); (8126, [921]);
    (8130, [8138; 921]); (8131, [919; 921]); (8132, [905; 921]); (8134,
    [919; 834]); (8135, [919; 834; 921]); (8140, [919; 921]); (8144,
    [8152]); (8145, [8153]); (8146, [921; 776; 768]); (8147, [921; 776;
    769]); (8150, [921; 834]); (8151, [921; 776; 834]); (8160, [8168]);
    (8161, [8169]); (8162, [933; 776; 768]); (8163, [933; 776; 769]); (8164,
    [929; 787]); (8165, [8172]); (8166, [933; 834]); (8167, [933; 776;
    834]); (8178, [8186; 921]); (8179, [937; 921]); (8180, [911; 921]);
    (8182, [937; 834]); (8183, [937; 834; 921]); (8188, [937; 921]); (8526,
    [8498]); (8560, [8544]); (8561, [8545]); (8562, [8546]); (8563, [8547]);
    (8564, [8548]); (8565, [8549]); (8566, [8550]); (8567, [8551]); (8568,
    [8552]); (8569, [8553]); (8570, [8554]); (8571, [8555]); (8572, [8556]);
    (8573, [8557]); (8574, [8558]); (8575, [8559]); (8580, [8579]); (9424,
    [9398]); (9425, [9399]); (9426, [9400]); (9427, [9401]); (9428, [9402]);
    (9429, [9403]); (9430, [9404]); (9431, [9405]); (9432, [9406]); (9433,
    [9407]); (9434, [9408]); (9435, [9409]); (9436, [9410]); (9437, [9411]);
    (9438, [9412]); (9439, [9413]); (9440, [9414]); (9441, [9415]); (9442,
    [9416]); (9443, [9417]); (9444, [9418]); (9445, [9419]); (9446, [9420]);
    (9447, [9421]); (9448, [9422]); (9449, [9423]); (11312, [11264]);
    (11313, [11265]); (11314, [11266]); (11315, [11267]); (11316, [11268]);
    (11317, [11269]); (11318, [11270]); (11319, [11271]); (11320, [11272]);
    (11321, [11273]); (11322, [11274]); (11323, [11275]); (11324, [11276]);
    (11325, [11277]); (11326, [11278]); (11327, [11279]); (11328, [11280]);
    (11329, [11281]); (11330, [11282]); (11331, [11283]); (11332, [11284]);
    (11333, [11285]); (11334, [11286]); (11335, [11287]); (11336, [11288]);
    (11337, [11289]); (11338, [11290]); (11339, [11291]); (11340, [11292]);
    (11341, [11293]); (11342, [11294]); (11343, [11295]); (11344, [11296]);
    (11345, [11297]); (11346, [11298]); (11347, [11299]); (11348, [11300]);
    (11349, [11301]); (11350, [11302]); (11351, [11303]); (11352, [11304]);
    (11353, [11305]); (11354, [11306]); (11355, [11307]); (11356, [11308]);
    (11357, [11309]); (11358, [11310]); (11359, [11311]); (11361, [11360]);
    (11365, [570]); (11366, [574]); (11368, [11367]); (11370, [11369]);
    (11372, [11371]); (11379, [11378]); (11382, [11381]); (11393, [11392]);
    (11395, [11394]); (11397, [11396]); (11399, [11398]); (11401, [11400]);
    (11403, [11402]); (11405, [11404]); (11407, [11406]); (11409, [11408]);
    (11411, [11410]); (11413, [11412]); (11415, [11414]); (11417, [11416]);
    (11419, [11418]); (11421, [11420]); (11423, [11422]); (11425, [11424]);
    (11427, [11426]); (11429, [11428]); (11431, [11430]); (11433, [11432]);
    (11435, [11434]); (11437, [11436]); (11439, [11438]); (11441, [11440]);
    (11443, [11442]); (11445, [11444]); (11447, [11446]); (11449, [11448]);
    (11451, [11450]); (11453, [11452]); (11455, [11454]); (11457, [11456]);
    (11459, [11458]); (11461, [11460]); (11463, [11462]); (11465, [11464]);
    (11467, [11466]); (11469, [11468]); (11471, [11470]); (11473, [11472]);
    (11475, [11474]); (11477, [11476]); (11479, [11478]); (11481, [11480]);
    (11483, [11482]); (11485, [11484]); (11487, [11486]); (11489, [11488]);
    (11491, [11490]); (11500, [11499]); (11502, [11501]); (11507, [11506]);
    (11520, [4256]); (11521, [4257]); (11522, [4258]); (11523, [4259]);
    (11524, [4260]); (11525, [4261]); (11526, [4262]); (11527, [4263]);
    (11528, [4264]); (11529, [4265]); (11530, [4266]); (11531, [4267]);
    (11532, [4268]); (11533, [4269]); (11534, [4270]); (11535, [4271]);
    (11536, [4272]); (11537, [4273]); (11538, [4274]); (11539, [4275]);
    (11540, [4276]); (11541, [4277]); (11542, [4278]); (11543, [4279]);
    (11544, [4280]); (11545, [4281]); (11546, [4282]); (11547, [4283]);
    (11548, [4284]); (11549, [4285]); (11550, [4286]); (11551, [4287]);
    (11552, [4288]); (11553, [4289]); (11554, [4290]); (11555, [4291]);
    (11556, [4292]); (11557, [4293]); (11559, [4295]); (11565, [4301]);
    (42561, [42560]); (42563, [42562]); (42565, [42564]); (42567, [42566]);
    (42569, [42568]); (42571, [42570]); (42573, [42572]); (42575, [42574]);
    (42577, [42576]); (42579, [42578]); (42581, [42580]); (42583, [42582]);
    (42585, [42584]); (42587, [42586]); (42589, [42588]); (42591, [42590]);
    (42593, [42592]); (42595, [42594]); (42597, [42596]); (42599, [42598]);
    (42601, [42600]); (42603, [42602]); (42605, [42604]); (42625, [42624]);
    (42627, [42626]); (42629, [42628]); (42631, [42630]); (42633, [42632]);
    (42635, [42634]); (42637, [42636]); (42639, [42638]); (42641, [42640]);
    (42643, [42642]); (42645, [42644]); (42647, [42646]); (42649, [42648]);
    (42651, [42650]); (42787, [42786]); (42789, [42788]); (42791, [42790]);
    (42793, [42792]); (42795, [42794]); (42797, [42796]); (42799, [42798]);
    (42803, [42802]); (42805, [42804]); (42807, [42806]); (42809, [42808]);
    (42811, [42810]); (42813, [42812]); (42815, [42814]); (42817, [42816]);
    (42819, [42818]); (42821, [42820]); (42823, [42822]); (42825, [42824]);
    (42827, [42826]); (42829, [42828]); (42831, [42830]); (42833, [42832]);
    (42835, [42834]); (42837, [42836]); (42839, [42838]); (42841, [42840]);
    (42843, [42842]); (42845, [42844]); (42847, [42846]); (42849, [42848]);
    (42851, [42850]); (42853, [42852]); (42855, [42854]); (42857, [42856]);
    (42859, [42858]); (42861, [42860]); (42863, [42862]); (42874, [42873]);
    (42876, [42875]); (42879, [42878]); (42881, [42880]); (42883, [42882]);
    (42885, [42884]); (42887, [42886]); (42892, [42891]); (42897, [42896]);
    (42899, [42898]); (42900, [42948]); (42903, [42902]); (42905, [42904]);
    (42907, [42906]); (42909, [42908]); (42911, [42910]); (42913, [42912]);
    (42915, [42914]); (42917, [42916]); (42919, [42918]); (42921, [42920]);
    (42933, [42932]); (42935, [42934]); (42937, [42936]); (42939, [42938]);
    (42941, [42940]); (42943, [42942]); (42945, [42944]); (42947, [42946]);
    (42952, [42951]); (42954, [42953]); (42961, [42960]); (42967, [42966]);
    (42969, [42968]); (42998, [42997]); (43859, [42931]); (43888, [5024]);
    (43889, [5025]); (43890, [5026]); (43891, [5027]); (43892, [5028]);
    (43893, [5029]); (43894, [5030]); (43895, [5031]); (43896, [5032]);
    (43897, [5033]); (43898, [5034]); (43899, [5035]); (43900, [5036]);
    (43901, [5037]); (43902, [5038]); (43903, [5039]); (43904, [5040]);
    (43905, [5041]); (43906, [5042]); (43907, [5043]); (43908, [5044]);
    (43909, [5045]); (43910, [5046]); (43911, [5047]); (43912, [5048]);
    (43913, [5049]); (43914, [5050]); (43915, [5051]); (43916, [5052]);
    (43917, [5053]); (43918, [5054]); (43919, [5055]); (43920, [5056]);
    (43921, [5057]); (43922, [5058]); (43923, [5059]); (43924, [5060]);
    (43925, [5061]); (43926, [5062]); (43927, [5063]); (43928, [5064]);
    (43929, [5065]); (43930, [5066]); (43931, [5067]); (43932, [5068]);
    (43933, [5069]); (43934, [5070]); (43935, [5071]); (43936, [5072]);
    (43937, [5073]); (43938, [5074]); (43939, [5075]); (43940, [5076]);
    (43941, [5077]); (43942, [5078]); (43943, [5079]); (43944, [5080]);
    (43945, [5081]); (43946, [5082]); (43947, [5083]); (43948, [5084]);
    (43949, [5085]); (43950, [5086]); (43951, [5087]); (43952, [5088]);
    (43953, [5089]); (43954, [5090]); (43955, [5091]); (43956, [5092]);
    (43957, [5093]); (43958, [5094]); (43959, [5095]); (43960, [5096]);
    (43961, [5097]); (43962, [5098]); (43963, [5099]); (43964, [5100]);
    (43965, [5101]); (43966, [5102]); (43967, [5103]); (64256, [70; 70]);
    (64257, [70; 73]); (64258, [70; 76]); (64259, [70; 70; 73]); (64260,
    [70; 70; 76]); (64261, [83; 84]); (64262, [83; 84]); (64275, [1348;
    1350]); (64276, [1348; 1333]); (64277, [1348; 1339]); (64278, [1358;
    1350]); (64279, [1348; 1341]); (65345, [65313]); (65346, [65314]);
    (65347, [65315]); (65348, [65316]); (65349, [65317]); (65350, [65318]);
    (65351, [65319]); (65352, [65320]); (65353, [65321]); (65354, [65322]);
    (65355, [65323]); (65356, [65324]); (65357, [65325]); (65358, [65326]);
    (65359, [65327]); (65360, [65328]); (65361, [65329]); (65362, [65330]);
    (65363, [65331]); (65364, [65332]); (65365, [65333]); (65366, [65334]);
    (65367, [65335]); (65368, [65336]); (65369, [65337]); (65370, [65338]);
    (66600, [66560]); (66601, [66561]); (66602, [66562]); (66603, [66563]);
    (66604, [66564]); (66605, [66565]); (66606, [66566]); (66607, [66567]);
    (66608, [66568]); (66609, [66569]); (66610, [66570]); (66611, [66571]);
    (66612, [66572]); (66613, [66573]); (66614, [66574]); (66615, [66575]);
    (66616, [66576]); (66617, [66577]); (66618, [66578]); (66619, [66579]);
    (66620, [66580]); (66621, [66581]); (66622, [66582]); (66623, [66583]);
    (66624, [66584]); (66625, [66585]); (66626, [66586]); (66627, [66587]);
    (66628, [66588]); (66629, [66589]); (66630, [66590]); (66631, [66591]);
    (66632, [66592]); (66633, [66593]); (66634, [66594]); (66635, [66595]);
    (66636, [66596]); (66637, [66597]); (66638, [66598]); (66639, [66599]);
    (66776, [66736]); (66777, [66737]); (66778, [66738]); (66779, [66739]);
    (66780, [66740]); (66781, [66741]); (66782, [66742]); (66783, [66743]);
    (66784, [66744]); (66785, [66745]); (66786, [66746]); (66787, [66747]);
    (66788, [66748]); (66789, [66749]); (66790, [66750]); (66791, [66751]);
    (66792, [66752]); (66793, [66753]); (66794, [66754]); (66795, [66755]);
    (66796, [66756]); (66797, [66757]); (66798, [66758]); (66799, [66759]);
    (66800, [66760]); (66801, [66761]); (66802, [66762]); (66803, [66763]);
    (66804, [66764]); (66805, [66765]); (66806, [66766]); (66807, [66767]);
    (66808, [66768]); (66809, [66769]); (66810, [66770]); (66811, [66771]);
    (66967, [66928]); (66968, [66929]); (66969, [66930]); (66970, [66931]);
    (66971, [66932]); (66972, [66933]); (66973, [66934]); (66974, [66935]);
    (66975, [66936]); (66976, [66937]); (66977, [66938]); (66979, [66940]);
    (66980, [66941]); (66981, [66942]); (66982, [66943]); (66983, [66944]);
    (66984, [66945]); (66985, [66946]); (66986, [66947]); (66987, [66948]);
    (66988, [66949]); (66989, [66950]); (66990, [66951]); (66991, [66952]);
    (66992, [66953]); (66993, [66954]); (66995, [66956]); (66996, [66957]);
    (66997, [66958]); (66998, [66959]); (66999, [66960]); (67000, [66961]);
    (67001, [66962]); (67003, [66964]); (67004, [66965]); (68800, [68736]);
    (68801, [68737]); (68802, [68738]); (68803, [68739]); (68804, [68740]);
    (68805, [68741]); (68806, [68742]); (68807, [68743]); (68808, [68744]);
    (68809, [68745]); (68810, [68746]); (68811, [68747]); (68812, [68748]);
    (68813, [68749]); (68814, [68750]); (68815, [68751]); (68816, [68752]);
    (68817, [68753]); (68818, [68754]); (68819, [68755]); (68820, [68756]);
    (68821, [68757]); (68822, [68758]); (68823, [68759]); (68824, [68760]);
    (68825, [68761]); (68826, [68762]); (68827, [68763]); (68828, [68764]);
    (68829, [68765]); (68830, [68766]); (68831, [68767]); (68832, [68768]);
    (68833, [68769]); (68834, [68770]); (68835, [68771]); (68836, [68772]);
    (68837, [68773]); (68838, [68774]); (68839, [68775]); (68840, [68776]);
    (68841, [68777]); (68842, [68778]); (68843, [68779]); (68844, [68780]);
    (68845, [68781]); (68846, [68782]); (68847, [68783]); (68848, [68784]);
    (68849, [68785]); (68850, [68786]); (71872, [71840]); (71873, [71841]);
    (71874, [71842]); (71875, [71843]); (71876, [71844]); (71877, [71845]);
    (71878, [71846]); (71879, [71847]); (71880, [71848]); (71881, [71849]);
    (71882, [71850]); (71883, [71851]); (71884, [71852]); (71885, [71853]);
    (71886, [71854]); (71887, [71855]); (71888, [71856]); (71889, [71857]);
    (71890, [71858]); (71891, [71859]); (71892, [71860]); (71893, [71861]);
    (71894, [71862]); (71895, [71863]); (71896, [71864]); (71897, [71865]);
    (71898, [71866]); (71899, [71867]); (71900, [71868]); (71901, [71869]);
    (71902, [71870]); (71903, [71871]); (93792, [93760]); (93793, [93761]);
    (93794, [93762]); (93795, [93763]); (93796, [93764]); (93797, [93765]);
    (93798, [93766]); (93799, [93767]); (93800, [93768]); (93801, [93769]);
    (93802, [93770]); (93803, [93771]); (93804, [93772]); (93805, [93773]);
    (93806, [93774]); (93807, [93775]); (93808, [93776]); (93809, [93777]);
    (93810, [93778]); (93811, [93779]); (93812, [93780]); (93813, [93781]);
    (93814, [93782]); (93815, [93783]); (93816, [93784]); (93817, [93785]);
    (93818, [93786]); (93819, [93787]); (93820, [93788]); (93821, [93789]);
    (93822, [93790]); (93823, [93791]); (125218, [125184]); (125219,
    [125185]); (125220, [125186]); (125221, [125187]); (125222, [125188]);
    (125223, [125189]); (125224, [125190]); (125225, [125191]); (125226,
    [125192]); (125227, [125193]); (125228, [125194]); (125229, [125195]);
    (125230, [125196]); (125231, [125197]); (125232, [125198]); (125233,
    [125199]); (125234, [125200]); (125235, [125201]); (125236, [125202]);
    (125237, [125203]); (125238, [125204]); (125239, [125205]); (125240,
    [125206]); (125241, [125207]); (125242, [125208]); (125243, [125209]);
    (125244, [125210]); (125245, [125211]); (125246, [125212]); (125247,
    [125213]); (125248, [125214]); (125249, [125215]); (125250, [125216]);
    (125251, [125217])]%N.

Definition lower_table : list (N * N) :=
  [(65, 97); (66, 98); (67, 99); (68, 100); (69, 101); (70, 102); (71,
    103); (72, 104); (73, 105); (74, 106); (75, 107); (76, 108); (77, 109);
    (78, 110); (79, 111); (80, 112); (81, 113); (82, 114); (83, 115); (84,
    116); (85, 117); (86, 118); (87, 119); (88, 120); (89, 121); (90, 122);
    (192, 224); (193, 225); (194, 226); (195, 227); (196, 228); (197, 229);
    (198, 230); (199, 231); (200, 232); (201, 233); (202, 234); (203, 235);
    (204, 236); (205, 237); (206, 238); (207, 239); (208, 240); (209, 241);
    (210, 242); (211, 243); (212, 244); (213, 245); (214, 246); (216, 248);
    (217, 249); (218, 250); (219, 251); (220, 252); (221, 253); (222, 254);
    (256, 257); (258, 259); (260, 261); (262, 263); (264, 265); (266, 267);
    (268, 269); (270, 271); (272, 273); (274, 275); (276, 277); (278, 279);
    (280, 281); (282, 283); (284, 285); (286, 287); (288, 289); (290, 291);
    (292, 293); (294, 295); (296, 297); (298, 299); (300, 301); (302, 303);
    (304, 105); (306, 307); (308, 309); (310, 311); (313, 314); (315, 316);
    (317, 318); (319, 320); (321, 322); (323, 324); (325, 326); (327, 328);
    (330, 331); (332, 333); (334, 335); (336, 337); (338, 339); (340, 341);
    (342, 343); (344, 345); (346, 347); (348, 349); (350, 351); (352, 353);
    (354, 355); (356, 357); (358, 359); (360, 361); (362, 363); (364, 365);
    (366, 367); (368, 369); (370, 371); (372, 373); (374, 375); (376, 255);
    (377, 378); (379, 380); (381, 382); (385, 595); (386, 387); (388, 389);
    (390, 596); (391, 392); (393, 598); (394, 599); (395, 396); (398, 477);
    (399, 601); (400, 603); (401, 402); (403, 608); (404, 611); (406, 617);
    (407, 616); (408, 409); (412, 623); (413, 626); (415, 629); (416, 417);
    (418, 419); (420, 421); (422, 640); (423, 424); (425, 643); (428, 429);
    (430, 648); (431, 432); (433, 650); (434, 651); (435, 436); (437, 438);
    (439, 658); (440, 441); (444, 445); (452, 454); (453, 454); (455, 457);
    (456, 457); (458, 460); (459, 460); (461, 462); (463, 464); (465, 466);
    (467, 468); (469, 470); (471, 472); (473, 474); (475, 476); (478, 479);
    (480, 481); (482, 483); (484, 485); (486, 487); (488, 489); (490, 491);
    (492, 493); (494, 495); (497, 499); (498, 499); (500, 501); (502, 405);
    (503, 447); (504, 505); (506, 507); (508, 509); (510, 511); (512, 513);
    (514, 515); (516, 517); (518, 519); (520, 521); (522, 523); (524, 525);
    (526, 527); (528, 529); (530, 531); (532, 533); (534, 535); (536, 537);
    (538, 539); (540, 541); (542, 543); (544, 414); (546, 547); (548, 549);
    (550, 551); (552, 553); (554, 555); (556, 557); (558, 559); (560, 561);
    (562, 563); (570, 11365); (571, 572); (573, 410); (574, 11366); (577,
    578); (579, 384); (580, 649); (581, 652); (582, 583); (584, 585); (586,
    587); (588, 589); (590, 591); (880, 881); (882, 883); (886, 887); (895,
    1011); (902, 940); (904, 941); (905, 942); (906, 943); (908, 972); (910,
    973); (911, 974); (913, 945); (914, 946); (915, 947); (916, 948); (917,
    949); (918, 950); (919, 951); (920, 952); (921, 953); (922, 954); (923,
    955); (924, 956); (925, 957); (926, 958); (927, 959); (928, 960); (929,
    961); (931, 963); (932, 964); (933, 965); (934, 966); (935, 967); (936,
    968); (937, 969); (938, 970); (939, 971); (975, 983); (984, 985); (986,
    987); (988, 989); (990, 991); (992, 993); (994, 995); (996, 997); (998,
    999); (1000, 1001); (1002, 1003); (1004, 1005); (1006, 1007); (1012,
    952); (1015, 1016); (1017, 1010); (1018, 1019); (1021, 891); (1022,
    892); (1023, 893); (1024, 1104); (1025, 1105); (1026, 1106); (1027,
    1107); (1028, 1108); (1029, 1109); (1030, 1110); (1031, 1111); (1032,
    1112); (1033, 1113); (1034, 1114); (1035, 1115); (1036, 1116); (1037,
    1117); (1038, 1118); (1039, 1119); (1040, 1072); (1041, 1073); (1042,
    1074); (1043, 1075); (1044, 1076); (1045, 1077); (1046, 1078); (1047,
    1079); (1048, 1080); (1049, 1081); (1050, 1082); (1051, 1083); (1052,
    1084); (1053, 1085); (1054, 1086); (1055, 1087); (1056, 1088); (1057,
    1089); (1058, 1090); (1059, 1091); (1060, 1092); (1061, 1093); (1062,
    1094); (1063, 1095); (1064, 1096); (1065, 1097); (1066, 1098); (1067,
    1099); (1068, 1100); (1069, 1101); (1070, 1102); (1071, 1103); (1120,
    1121); (1122, 1123); (1124, 1125); (1126, 1127); (1128, 1129); (1130,
    1131); (1132, 1133); (1134, 1135); (1136, 1137); (1138, 1139); (1140,
    1141); (1142, 1143); (1144, 1145); (1146, 1147); (1148, 1149); (1150,
    1151); (1152, 1153); (1162, 1163); (1164, 1165); (1166, 1167); (1168,
    1169); (1170, 1171); (1172, 1173); (1174, 1175); (1176, 1177); (1178,
    1179); (1180, 1181); (1182, 1183); (1184, 1185); (1186, 1187); (1188,
    1189); (1190, 1191); (1192, 1193); (1194, 1195); (1196, 1197); (1198,
    1199); (1200, 1201); (1202, 1203); (1204, 1205); (1206, 1207); (1208,
    1209); (1210, 1211); (1212, 1213); (1214, 1215); (1216, 1231); (1217,
    1218); (1219, 1220); (1221, 1222); (1223, 1224); (1225, 1226); (1227,
    1228); (1229, 1230); (1232, 1233); (1234, 1235); (1236, 1237); (1238,
    1239); (1240, 1241); (1242, 1243); (1244, 1245); (1246, 1247); (1248,
    1249); (1250, 1251); (1252, 1253); (1254, 1255); (1256, 1257); (1258,
    1259); (1260, 1261); (1262, 1263); (1264, 1265); (1266, 1267); (1268,
    1269); (1270, 1271); (1272, 1273); (1274, 1275); (1276, 1277); (1278,
    1279); (1280, 1281); (1282, 1283); (1284, 1285); (1286, 1287); (1288,
    1289); (1290, 1291); (1292, 1293); (1294, 1295); (1296, 1297); (1298,
    1299); (1300, 1301); (1302, 1303); (1304, 1305); (1306, 1307); (1308,
    1309); (1310, 1311); (1312, 1313); (1314, 1315); (1316, 1317); (1318,
    1319); (1320, 1321); (1322, 1323); (1324, 1325); (1326, 1327); (1329,
    1377); (1330, 1378); (1331, 1379); (1332, 1380); (1333, 1381); (1334,
    1382); (1335, 1383); (1336, 1384); (1337, 1385); (1338, 1386); (1339,
    1387); (1340, 1388); (1341, 1389); (1342, 1390); (1343, 1391); (1344,
    1392); (1345, 1393); (1346, 1394); (1347, 1395); (1348, 1396); (1349,
    1397); (1350, 1398); (1351, 1399); (1352, 1400); (1353, 1401); (1354,
    1402); (1355, 1403); (1356, 1404); (1357, 1405); (1358, 1406); (1359,
    1407); (1360, 1408); (1361, 1409); (1362, 1410); (1363, 1411); (1364,
    1412); (1365, 1413); (1366, 1414); (4256, 11520); (4257, 11521); (4258,
    11522); (4259, 11523); (4260, 11524); (4261, 11525); (4262, 11526);
    (4263, 11527); (4264, 11528); (4265, 11529); (4266, 11530); (4267,
    11531); (4268, 11532); (4269, 11533); (4270, 11534); (4271, 11535);
    (4272, 11536); (4273, 11537); (4274, 11538); (4275, 11539); (4276,
    11540); (4277, 11541); (4278, 11542); (4279, 11543); (4280, 11544);
    (4281, 11545); (4282, 11546); (4283, 11547); (4284, 11548); (4285,
    11549); (4286, 11550); (4287, 11551); (4288, 11552); (4289, 11553);
    (4290, 11554); (4291, 11555); (4292, 11556); (4293, 11557); (4295,
    11559); (4301, 11565); (5024, 43888); (5025, 43889); (5026, 43890);
    (5027, 43891); (5028, 43892); (5029, 43893); (5030, 43894); (5031,
    43895); (5032, 43896); (5033, 43897); (5034, 43898); (5035, 43899);
    (5036, 43900); (5037, 43901); (5038, 43902); (5039, 43903); (5040,
    43904); (5041, 43905); (5042, 43906); (5043, 43907); (5044, 43908);
    (5045, 43909); (5046, 43910); (5047, 43911); (5048, 43912); (5049,
    43913); (5050, 43914); (5051, 43915); (5052, 43916); (5053, 43917);
    (5054, 43918); (5055, 43919); (5056, 43920); (5057, 43921); (5058,
    43922); (5059, 43923); (5060, 43924); (5061, 43925); (5062, 43926);
    (5063, 43927); (5064, 43928); (5065, 43929); (5066, 43930); (5067,
    43931); (5068, 43932); (5069, 43933); (5070, 43934); (5071, 43935);
    (5072, 43936); (5073, 43937); (5074, 43938); (5075, 43939); (5076,
    43940); (5077, 43941); (5078, 43942); (5079, 43943); (5080, 43944);
    (5081, 43945); (5082, 43946); (5083, 43947); (5084, 43948); (5085,
    43949); (5086, 43950); (5087, 43951); (5088, 43952); (5089, 43953);
    (5090, 43954); (5091, 43955); (5092, 43956); (5093, 43957); (5094,
    43958); (5095, 43959); (5096, 43960); (5097, 43961); (5098, 43962);
    (5099, 43963); (5100, 43964); (5101, 43965); (5102, 43966); (5103,
    43967); (5104, 5112); (5105, 5113); (5106, 5114); (5107, 5115); (5108,
    5116); (5109, 5117); (7312, 4304); (7313, 4305); (7314, 4306); (7315,
    4307); (7316, 4308); (7317, 4309); (7318, 4310); (7319, 4311); (7320,
    4312); (7321, 4313); (7322, 4314); (7323, 4315); (7324, 4316); (7325,
    4317); (7326, 4318); (7327, 4319); (7328, 4320); (7329, 4321); (7330,
    4322); (7331, 4323); (7332, 4324); (7333, 4325); (7334, 4326); (7335,
    4327); (7336, 4328); (7337, 4329); (7338, 4330); (7339, 4331); (7340,
    4332); (7341, 4333); (7342, 4334); (7343, 4335); (7344, 4336); (7345,
    4337); (7346, 4338); (7347, 4339); (7348, 4340); (7349, 4341); (7350,
    4342); (7351, 4343); (7352, 4344); (7353, 4345); (7354, 4346); (7357,
    4349); (7358, 4350); (7359, 4351); (7680, 7681); (7682, 7683); (7684,
    7685); (7686, 7687); (7688, 7689); (7690, 7691); (7692, 7693); (7694,
    7695); (7696, 7697); (7698, 7699); (7700, 7701); (7702, 7703); (7704,
    7705); (7706, 7707); (7708, 7709); (7710, 7711); (7712, 7713); (7714,
    7715); (7716, 7717); (7718, 7719); (7720, 7721); (7722, 7723); (7724,
    7725); (7726, 7727); (7728, 7729); (7730, 7731); (7732, 7733); (7734,
    7735); (7736, 7737); (7738, 7739); (7740, 7741); (7742, 7743); (7744,
    7745); (7746, 7747); (7748, 7749); (7750, 7751); (7752, 7753); (7754,
    7755); (7756, 7757); (7758, 7759); (7760, 7761); (7762, 7763); (7764,
    7765); (7766, 7767); (7768, 7769); (7770, 7771); (7772, 7773); (7774,
    7775); (7776, 7777); (7778, 7779); (7780, 7781); (7782, 7783); (7784,
    7785); (7786, 7787); (7788, 7789); (7790, 7791); (7792, 7793); (7794,
    7795); (7796, 7797); (7798, 7799); (7800, 7801); (7802, 7803); (7804,
    7805); (7806, 7807); (7808, 7809); (7810, 7811); (7812, 7813); (7814,
    7815); (7816, 7817); (7818, 7819); (7820, 7821); (7822, 7823); (7824,
    7825); (7826, 7827); (7828, 7829); (7838, 223); (7840, 7841); (7842,
    7843); (7844, 7845); (7846, 7847); (7848, 7849); (7850, 7851); (7852,
    7853); (7854, 7855); (7856, 7857); (7858, 7859); (7860, 7861); (7862,
    7863); (7864, 7865); (7866, 7867); (7868, 7869); (7870, 7871); (7872,
    7873); (7874, 7875); (7876, 7877); (7878, 7879); (7880, 7881); (7882,
    7883); (7884, 7885); (7886, 7887); (7888, 7889); (7890, 7891); (7892,
    7893); (7894, 7895); (7896, 7897); (7898, 7899); (7900, 7901); (7902,
    7903); (7904, 7905); (7906, 7907); (7908, 7909); (7910, 7911); (7912,
    7913); (7914, 7915); (7916, 7917); (7918, 7919); (7920, 7921); (7922,
    7923); (7924, 7925); (7926, 7927); (7928, 7929); (7930, 7931); (7932,
    7933); (7934, 7935); (7944, 7936); (7945, 7937); (7946, 7938); (7947,
    7939); (7948, 7940); (7949, 7941); (7950, 7942); (7951, 7943); (7960,
    7952); (7961, 7953); (7962, 7954); (7963, 7955); (7964, 7956); (7965,
    7957); (7976, 7968); (7977, 7969); (7978, 7970); (7979, 7971); (7980,
    7972); (7981, 7973); (7982, 7974); (7983, 7975); (7992, 7984); (7993,
    7985); (7994, 7986); (7995, 7987); (7996, 7988); (7997, 7989); (7998,
    7990); (7999, 7991); (8008, 8000); (8009, 8001); (8010, 8002); (8011,
    8003); (8012, 8004); (8013, 8005); (8025, 8017); (8027, 8019); (8029,
    8021); (8031, 8023); (8040, 8032); (8041, 8033); (8042, 8034); (8043,
    8035); (8044, 8036); (8045, 8037); (8046, 8038); (8047, 8039); (8072,
    8064); (8073, 8065); (8074, 8066); (8075, 8067); (8076, 8068); (8077,
    8069); (8078, 8070); (8079, 8071); (8088, 8080); (8089, 8081); (8090,
    8082); (8091, 8083); (8092, 8084); (8093, 8085); (8094, 8086); (8095,
    8087); (8104, 8096); (8105, 8097); (8106, 8098); (8107, 8099); (8108,
    8100); (8109, 8101); (8110, 8102); (8111, 8103); (8120, 8112); (8121,
    8113); (8122, 8048); (8123, 8049); (8124, 8115); (8136, 8050); (8137,
    8051); (8138, 8052); (8139, 8053); (8140, 8131); (8152, 8144); (8153,
    8145); (8154, 8054); (8155, 8055); (8168, 8160); (8169, 8161); (8170,
    8058); (8171, 8059); (8172, 8165); (8184, 8056); (8185, 8057); (8186,
    8060); (8187, 8061); (8188, 8179); (8486, 969); (8490, 107); (8491,
    229); (8498, 8526); (8544, 8560); (8545, 8561); (8546, 8562); (8547,
    8563); (8548, 8564); (8549, 8565); (8550, 8566); (8551, 8567); (8552,
    8568); (8553, 8569); (8554, 8570); (8555, 8571); (8556, 8572); (8557,
    8573); (8558, 8574); (8559, 8575); (8579, 8580); (9398, 9424); (9399,
    9425); (9400, 9426); (9401, 9427); (9402, 9428); (9403, 9429); (9404,
    9430); (9405, 9431); (9406, 9432); (9407, 9433); (9408, 9434); (9409,
    9435); (9410, 9436); (9411, 9437); (9412, 9438); (9413, 9439); (9414,
    9440); (9415, 9441); (9416, 9442); (9417, 9443); (9418, 9444); (9419,
    9445); (9420, 9446); (9421, 9447); (9422, 9448); (9423, 9449); (11264,
    11312); (11265, 11313); (11266, 11314); (11267, 11315); (11268, 11316);
    (11269, 11317); (11270, 11318); (11271, 11319); (11272, 11320); (11273,
    11321); (11274, 11322); (11275, 11323); (11276, 11324); (11277, 11325);
    (11278, 11326); (11279, 11327); (11280, 11328); (11281, 11329); (11282,
    11330); (11283, 11331); (11284, 11332); (11285, 11333); (11286, 11334);
    (11287, 11335); (11288, 11336); (11289, 11337); (11290, 11338); (11291,
    11339); (11292, 11340); (11293, 11341); (11294, 11342); (11295, 11343);
    (11296, 11344); (11297, 11345); (11298, 11346); (11299, 11347); (11300,
    11348); (11301, 11349); (11302, 11350); (11303, 11351); (11304, 11352);
    (11305, 11353); (11306, 11354); (11307, 11355); (11308, 11356); (11309,
    11357); (11310, 11358); (11311, 11359); (11360, 11361); (11362, 619);
    (11363, 7549); (11364, 637); (11367, 11368); (11369, 11370); (11371,
    11372); (11373, 593); (11374, 625); (11375, 592); (11376, 594); (11378,
    11379); (11381, 11382); (11390, 575); (11391, 576); (11392, 11393);
    (11394, 11395); (11396, 11397); (11398, 11399); (11400, 11401); (11402,
    11403); (11404, 11405); (11406, 11407); (11408, 11409); (11410, 11411);
    (11412, 11413); (11414, 11415); (11416, 11417); (11418, 11419); (11420,
    11421); (11422, 11423); (11424, 11425); (11426, 11427); (11428, 11429);
    (11430, 11431); (11432, 11433); (11434, 11435); (11436, 11437); (11438,
    11439); (11440, 11441); (11442, 11443); (11444, 11445); (11446, 11447);
    (11448, 11449); (11450, 11451); (11452, 11453); (11454, 11455); (11456,
    11457); (11458, 11459); (11460, 11461); (11462, 11463); (11464, 11465);
    (11466, 11467); (11468, 11469); (11470, 11471); (11472, 11473); (11474,
    11475); (11476, 11477); (11478, 11479); (11480, 11481); (11482, 11483);
    (11484, 11485); (11486, 11487); (11488, 11489); (11490, 11491); (11499,
    11500); (11501, 11502); (11506, 11507); (42560, 42561); (42562, 42563);
    (42564, 42565); (42566, 42567); (42568, 42569); (42570, 42571); (42572,
    42573); (42574, 42575); (42576, 42577); (42578, 42579); (42580, 42581);
    (42582, 42583); (42584, 42585); (42586, 42587); (42588, 42589); (42590,
    42591); (42592, 42593); (42594, 42595); (42596, 42597); (42598, 42599);
    (42600, 42601); (42602, 42603); (42604, 42605); (42624, 42625); (42626,
    42627); (42628, 42629); (42630, 42631); (42632, 42633); (42634, 42635);
    (42636, 42637); (42638, 42639); (42640, 42641); (42642, 42643); (42644,
    42645); (42646, 42647); (42648, 42649); (42650, 42651); (42786, 42787);
    (42788, 42789); (42790, 42791); (42792, 42793); (42794, 42795); (42796,
    42797); (42798, 42799); (42802, 42803); (42804, 42805); (42806, 42807);
    (42808, 42809); (42810, 42811); (42812, 42813); (42814, 42815); (42816,
    42817); (42818, 42819); (42820, 42821); (42822, 42823); (42824, 42825);
    (42826, 42827); (42828, 42829); (42830, 42831); (42832, 42833); (42834,
    42835); (42836, 42837); (42838, 42839); (42840, 42841); (42842, 42843);
    (42844, 42845); (42846, 42847); (42848, 42849); (42850, 42851); (42852,
    42853); (42854, 42855); (42856, 42857); (42858, 42859); (42860, 42861);
    (42862, 42863); (42873, 42874); (42875, 42876); (42877, 7545); (42878,
    42879); (42880, 42881); (42882, 42883); (42884, 42885); (42886, 42887);
    (42891, 42892); (42893, 613); (42896, 42897); (42898, 42899); (42902,
    42903); (42904, 42905); (42906, 42907); (42908, 42909); (42910, 42911);
    (42912, 42913); (42914, 42915); (42916, 42917); (42918, 42919); (42920,
    42921); (42922, 614); (42923, 604); (42924, 609); (42925, 620); (42926,
    618); (42928, 670); (42929, 647); (42930, 669); (42931, 43859); (42932,
    42933); (42934, 42935); (42936, 42937); (42938, 42939); (42940, 42941);
    (42942, 42943); (42944, 42945); (42946, 42947); (42948, 42900); (42949,
    642); (42950, 7566); (42951, 42952); (42953, 42954); (42960, 42961);
    (42966, 42967); (42968, 42969); (42997, 42998); (65313, 65345); (65314,
    65346); (65315, 65347); (65316, 65348); (65317, 65349); (65318, 65350);
    (65319, 65351); (65320, 65352); (65321, 65353); (65322, 65354); (65323,
    65355); (65324, 65356); (65325, 65357); (65326, 65358); (65327, 65359);
    (65328, 65360); (65329, 65361); (65330, 65362); (65331, 65363); (65332,
    65364); (65333, 65365); (65334, 65366); (65335, 65367); (65336, 65368);
    (65337, 65369); (65338, 65370); (66560, 66600); (66561, 66601); (66562,
    66602); (66563, 66603); (66564, 66604); (66565, 66605); (66566, 66606);
    (66567, 66607); (66568, 66608); (66569, 66609); (66570, 66610); (66571,
    66611); (66572, 66612); (66573, 66613); (66574, 66614); (66575, 66615);
    (66576, 66616); (66577, 66617); (66578, 66618); (66579, 66619); (66580,
    66620); (66581, 66621); (66582, 66622); (66583, 66623); (66584, 66624);
    (66585, 66625); (66586, 66626); (66587, 66627); (66588, 66628); (66589,
    66629); (66590, 66630); (66591, 66631); (66592, 66632); (66593, 66633);
    (66594, 66634); (66595, 66635); (66596, 66636); (66597, 66637); (66598,
    66638); (66599, 66639); (66736, 66776); (66737, 66777); (66738, 66778);
    (66739, 66779); (66740, 66780); (66741, 66781); (66742, 66782); (66743,
    66783); (66744, 66784); (66745, 66785); (66746, 66786); (66747, 66787);
    (66748, 66788); (66749, 66789); (66750, 66790); (66751, 66791); (66752,
    66792); (66753, 66793); (66754, 66794); (66755, 66795); (66756, 66796);
    (66757, 66797); (66758, 66798); (66759, 66799); (66760, 66800); (66761,
    66801); (66762, 66802); (66763, 66803); (66764, 66804); (66765, 66805);
    (66766, 66806); (66767, 66807); (66768, 66808); (66769, 66809); (66770,
    66810); (66771, 66811); (66928, 66967); (66929, 66968); (66930, 66969);
    (66931, 66970); (66932, 66971); (66933, 66972); (66934, 66973); (66935,
    66974); (66936, 66975); (66937, 66976); (66938, 66977); (66940, 66979);
    (66941, 66980); (66942, 66981); (66943, 66982); (66944, 66983); (66945,
    66984); (66946, 66985); (66947, 66986); (66948, 66987); (66949, 66988);
    (66950, 66989); (66951, 66990); (66952, 66991); (66953, 66992); (66954,
    66993); (66956, 66995); (66957, 66996); (66958, 66997); (66959, 66998);
    (66960, 66999); (66961, 67000); (66962, 67001); (66964, 67003); (66965,
    67004); (68736, 68800); (68737, 68801); (68738, 68802); (68739, 68803);
    (68740, 68804); (68741, 68805); (68742, 68806); (68743, 68807); (68744,
    68808); (68745, 68809); (68746, 68810); (68747, 68811); (68748, 68812);
    (68749, 68813); (68750, 68814); (68751, 68815); (68752, 68816); (68753,
    68817); (68754, 68818); (68755, 68819); (68756, 68820); (68757, 68821);
    (68758, 68822); (68759, 68823); (68760, 68824); (68761, 68825); (68762,
    68826); (68763, 68827); (68764, 68828); (68765, 68829); (68766, 68830);
    (68767, 68831); (68768, 68832); (68769, 68833); (68770, 68834); (68771,
    68835); (68772, 68836); (68773, 68837); (68774, 68838); (68775, 68839);
    (68776, 68840); (68777, 68841); (68778, 68842); (68779, 68843); (68780,
    68844); (68781, 68845); (68782, 68846); (68783, 68847); (68784, 68848);
    (68785, 68849); (68786, 68850); (71840, 71872); (71841, 71873); (71842,
    71874); (71843, 71875); (71844, 71876); (71845, 71877); (71846, 71878);
    (71847, 71879); (71848, 71880); (71849, 71881); (71850, 71882); (71851,
    71883); (71852, 71884); (71853, 71885); (71854, 71886); (71855, 71887);
    (71856, 71888); (71857, 71889); (71858, 71890); (71859, 71891); (71860,
    71892); (71861, 71893); (71862, 71894); (71863, 71895); (71864, 71896);
    (71865, 71897); (71866, 71898); (71867, 71899); (71868, 71900); (71869,
    71901); (71870, 71902); (71871, 71903); (93760, 93792); (93761, 93793);
    (93762, 93794); (93763, 93795); (93764, 93796); (93765, 93797); (93766,
    93798); (93767, 93799); (93768, 93800); (93769, 93801); (93770, 93802);
    (93771, 93803); (93772, 93804); (93773, 93805); (93774, 93806); (93775,
    93807); (93776, 93808); (93777, 93809); (93778, 93810); (93779, 93811);
    (93780, 93812); (93781, 93813); (93782, 93814); (93783, 93815); (93784,
    93816); (93785, 93817); (93786, 93818); (93787, 93819); (93788, 93820);
    (93789, 93821); (93790, 93822); (93791, 93823); (125184, 125218);
    (125185, 125219); (125186, 125220); (125187, 125221); (125188, 125222);
    (125189, 125223); (125190, 125224); (125191, 125225); (125192, 125226);
    (125193, 125227); (125194, 125228); (125195, 125229); (125196, 125230);
    (125197, 125231); (125198, 125232); (125199, 125233); (125200, 125234);
    (125201, 125235); (125202, 125236); (125203, 125237); (125204, 125238);
    (125205, 125239); (125206, 125240); (125207, 125241); (125208, 125242);
    (125209, 125243); (125210, 125244); (125211, 125245); (125212, 125246);
    (125213, 125247); (125214, 125248); (125215, 125249); (125216, 125250);
    (125217, 125251)]%N.

Definition extra_cases : list (N * list N) :=
  [(105, [305]); (115, [383]); (181, [956]); (305, [105]); (383, [115]);
    (837, [953; 8126]); (912, [8147]); (944, [8163]); (946, [976]); (949,
    [1013]); (952, [977]); (953, [837; 8126]); (954, [1008]); (956, [181]);
    (960, [982]); (961, [1009]); (962, [963]); (963, [962]); (966, [981]);
    (976, [946]); (977, [952]); (981, [966]); (982, [960]); (1008, [954]);
    (1009, [961]); (1013, [949]); (1074, [7296]); (1076, [7297]); (1086,
    [7298]); (1089, [7299]); (1090, [7300; 7301]); (1098, [7302]); (1123,
    [7303]); (7296, [1074]); (7297, [1076]); (7298, [1086]); (7299, [1089]);
    (7300, [1090; 7301]); (7301, [1090; 7300]); (7302, [1098]); (7303,
    [1123]); (7304, [42571]); (7777, [7835]); (7835, [7777]); (8126, [837;
    953]); (8147, [912]); (8163, [944]); (42571, [7304]); (64261, [64262]);
    (64262, [64261])]%N.

End Unicode.

(** ** Python strings *)

(** A character, as its code point. *)
Definition cp := N.

Definition str := list cp.

(** A character literal. *)
Definition ch (a : ascii) : cp := N_of_ascii a.
Coercion ch : ascii >-> cp.
Bind Scope char_scope with cp.
Arguments ch : simpl never.

(** The characters that a sequence of UTF-8 bytes encodes. *)
Fixpoint utf8 (bytes : list N) : str :=
  match bytes with
  | [] => []
  | b :: rest =>
      if (b <? 128)%N then b :: utf8 rest
      else if (b <? 224)%N then
        match rest with
        | b1 :: rest => ((b - 192) * 64 + (b1 - 128))%N :: utf8 rest
        | _ => []
        end
      else if (b <? 240)%N then
        match rest with
        | b1 :: b2 :: rest =>
            ((b - 224) * 4096 + (b1 - 128) * 64 + (b2 - 128))%N :: utf8 rest
        | _ => []
        end
      else
        match rest with
        | b1 :: b2 :: b3 :: rest =>
            ((b - 240) * 262144 + (b1 - 128) * 4096 + (b2 - 128) * 64
             + (b3 - 128))%N :: utf8 rest
        | _ => []
        end
  end.

(** A string literal. *)
Definition lit (s : string) : str :=
  utf8 (map N_of_ascii (list_ascii_of_string s)).
Coercion lit : string >-> str.

Module PyStr.

Definition char_eqb (a b : cp) : bool := N.eqb a b.

(** Membership in a list of ranges sorted by code point. *)
Fixpoint in_ranges (ranges : list (N * N)) (c : cp) : bool :=
  match ranges with
  | [] => false
  | (a, b) :: rest =>
      if (c <? a)%N then false
      else if (c <=? b)%N then true
      else in_ranges rest c
  end.

(** Lookup in a table sorted by code point. *)
Fixpoint lookup {A : Type} (table : list (N * A)) (c : cp) : option A :=
  match table with
  | [] => None
  | (k, v) :: rest =>
      match (c ?= k)%N with
      | Lt => None
      | Eq => Some v
      | Gt => lookup rest c
      end
  end.

(** [c.isspace()], also the class [\s] and the whitespace of [strip]
    and [split]. *)
Definition isspace (c : cp) : bool := in_ranges Unicode.space_ranges c.

(** [c.isalpha()] *)
Definition isalpha (c : cp) : bool := in_ranges Unicode.alpha_ranges c.

(** The zero of the run of ten decimal digits that [c] belongs to. *)
Fixpoint zero_of (zeros : list N) (c : cp) : option N :=
  match zeros with
  | [] => None
  | z :: rest =>
      if (c <? z)%N then None
      else if (c <=? z + 9)%N then Some z
      else zero_of rest c
  end.
Definition decimal_zero (c : cp) : option N :=
  zero_of Unicode.decimal_zeros c.

(** [c.isdecimal()], also the class [\d]: the decimal digits of all
    scripts, which are the digits that [int] and [float] read. *)
Definition isdecimal (c : cp) : bool :=
  match decimal_zero c with Some _ => true | None => false end.

(** The value of a decimal digit. *)
Definition digit_val (c : cp) : N :=
  match decimal_zero c with Some z => (c - z)%N | None => 0%N end.

(** [c.upper()]: one to three characters. *)
Definition upper_char (c : cp) : str :=
  match lookup Unicode.upper_table c with
  | Some u => u
  | None => [c]
  end.

(** [s.upper()] *)
Definition upper (s : str) : str := flat_map upper_char s.

Fixpoint lstrip (s : str) : str :=
  match s with
  | c :: s' => if isspace c then lstrip s' else s
  | [] => []
  end.
Definition rstrip (s : str) : str := rev (lstrip (rev s)).

(** [s.strip()] *)
Definition strip (s : str) : str := rstrip (lstrip s).

(** [s.split()]: the maximal runs of non-whitespace characters.  [cur]
    is the word being read. *)
Fixpoint split_go (cur : str) (s : str) : list str :=
  match s with
  | [] => match cur with [] => [] | _ => [cur] end
  | c :: s' =>
      if isspace c
      then match cur with [] => split_go [] s' | _ => cur :: split_go [] s' end
      else split_go (cur ++ [c]) s'
  end.
Definition split (s : str) : list str := split_go [] s.

(** [s.replace(old, new)] for a one-character [old]. *)
Definition replace (old : cp) (new : str) (s : str) : str :=
  flat_map (fun c => if char_eqb c old then new else [c]) s.

Fixpoint startswith (p s : str) : bool :=
  match p, s with
  | [], _ => true
  | a :: p', b :: s' => char_eqb a b && startswith p' s'
  | _ :: _, [] => false
  end.

(** [needle in hay] on strings *)
Fixpoint contains (needle hay : str) : bool :=
  startswith needle hay
  || match hay with [] => false | _ :: hay' => contains needle hay' end.

Definition str_eqb (a b : str) : bool := bool_decide (a = b).

(** [x in xs] for a list of strings *)
Definition mem (x : str) (xs : list str) : bool := existsb (str_eqb x) xs.

(** [sep.join(xs)] *)
Fixpoint join (sep : str) (xs : list str) : str :=
  match xs with
  | [] => []
  | [x] => x
  | x :: xs' => x ++ sep ++ join sep xs'
  end.

(** [sum(1 for c in s if p(c))] *)
Definition count (p : cp -> bool) (s : str) : nat :=
  length (List.filter p s).

(** [str(n)] for a natural number *)
Definition of_nat (n : nat) : str :=
  lit (NilEmpty.string_of_uint (Nat.to_uint n)).

(** [int(s)] for a string of decimal digits *)
Definition to_int (s : str) : N :=
  fold_left (fun acc c => 10 * acc + digit_val c)%N s 0%N.

Arguments char_eqb : simpl never.
Arguments isspace : simpl never.
Arguments isalpha : simpl never.
Arguments isdecimal : simpl never.
Arguments digit_val : simpl never.
Arguments upper_char : simpl never.

End PyStr.

(** ** Regular expressions

    Every pattern of the source is a sequence of character classes, each
    repeated between a lower and an optional upper bound, between an
    optional [^] and an optional [$]. *)

Module Re.
Import PyStr.

Record atom := Atom { cls : cp -> bool; lo : nat; hi : option nat }.

Record regex := Regex { bol : bool; atoms : list atom; eol : bool }.

Definition one (p : cp -> bool) : atom := Atom p 1 (Some 1).
Definition star (p : cp -> bool) : atom := Atom p 0 None.
Definition plus (p : cp -> bool) : atom := Atom p 1 None.
Definition rep (p : cp -> bool) (a b : nat) : atom := Atom p a (Some b).

(** A bracket class [[...]] listing characters. *)
Definition set (members : str) (c : cp) : bool :=
  existsb (char_eqb c) members.

(** The simple lower-case mapping that [re] folds case with. *)
Definition tolower (c : cp) : cp :=
  match lookup Unicode.lower_table c with
  | Some l => l
  | None => c
  end.

(** The characters that [re] takes to be case variants of a lower-case
    character beyond its lower-case mapping. *)
Definition extra_cases (c : cp) : str :=
  match lookup Unicode.extra_cases c with
  | Some variants => variants
  | None => []
  end.

(** The same class under [re.IGNORECASE]: the compiled class holds, for
    each member, its lower-case mapping and the extra case variants of
    that; a character is in the class when its lower-case mapping is. *)
Definition iset (members : str) (c : cp) : bool :=
  existsb (fun m => char_eqb (tolower c) (tolower m)
                    || existsb (char_eqb (tolower c)) (extra_cases (tolower m)))
          members.

(** How many leading characters of [s] are in the class, at most
    [limit] of them. *)
Fixpoint span (p : cp -> bool) (limit : option nat) (s : str) : nat :=
  match s with
  | c :: s' =>
      if p c then
        match limit with
        | Some 0 => 0
        | Some (S n) => S (span p (Some n) s')
        | None => S (span p None s')
        end
      else 0
  | [] => 0
  end.

(** Greedy repetition: try [k] copies, then [k - 1], down to [lo]. *)
Fixpoint backtrack (lo : nat) (rest : nat -> option nat) (k : nat) : option nat :=
  if k <? lo then None
  else match rest k with
       | Some m => Some (k + m)
       | None => match k with 0 => None | S k' => backtrack lo rest k' end
       end.

(** [$]: at the end of the string, or before a newline that ends it. *)
Definition at_end (s : str) : bool :=
  match s with
  | [] => true
  | [c] => char_eqb c "010"
  | _ => false
  end.

(** Length of the match of the atoms at the head of [s]. *)
Fixpoint match_here (r : list atom) (dollar : bool) (s : str) : option nat :=
  match r with
  | [] => if dollar then (if at_end s then Some 0 else None) else Some 0
  | a :: r' =>
      backtrack (lo a) (fun k => match_here r' dollar (skipn k s))
                (span (cls a) (hi a) s)
  end.

(** [re.match(r, s)]: the length of the match at position 0. *)
Definition re_match (r : regex) (s : str) : option nat :=
  match_here (atoms r) (eol r) s.

Definition matches (r : regex) (s : str) : bool :=
  match re_match r s with Some _ => true | None => false end.

(** [re.search(r, s)]: start and length of the leftmost match. *)
Fixpoint search_from (r : regex) (i : nat) (s : str) : option (nat * nat) :=
  match re_match r s with
  | Some n => Some (i, n)
  | None =>
      match s with
      | [] => None
      | _ :: s' => if bol r then None else search_from r (S i) s'
      end
  end.
Definition re_search (r : regex) (s : str) : option (nat * nat) :=
  search_from r 0 s.

Definition found (r : regex) (s : str) : bool :=
  match re_search r s with Some _ => true | None => false end.

(** [m.group(0)] of a search result *)
Definition group (s : str) (m : nat * nat) : str :=
  firstn (snd m) (skipn (fst m) s).

(** [re.sub(r, repl, s)] for a pattern that matches no empty string
    (the two patterns the source substitutes, [\s+] and a one-character
    class, are such).  [skip] counts the characters of the current
    match still to be dropped. *)
Fixpoint sub_go (r : regex) (repl : str) (skip : nat) (s : str) : str :=
  match s with
  | [] => []
  | c :: s' =>
      match skip with
      | S k => sub_go r repl k s'
      | 0 =>
          match re_match r s with
          | Some (S n) => repl ++ sub_go r repl n s'
          | _ => c :: sub_go r repl 0 s'
          end
      end
  end.
Definition re_sub (r : regex) (repl : str) (s : str) : str :=
  sub_go r repl 0 s.

Arguments tolower : simpl never.
Arguments extra_cases : simpl never.

End Re.

(** ** Python values, exceptions *)

Inductive pyval :=
| PyNone
| PyStr (s : str)
| PyList (l : list str).

Inductive exn :=
| KeyError (key : string)
| TypeError
| IndexError
| RuntimeError.

Inductive result (A : Type) :=
| Ok (a : A)
| Raise (e : exn).
Arguments Ok {A} a.
Arguments Raise {A} e.

#[global] Instance result_ret : MRet result := fun A a => Ok a.
#[global] Instance result_bind : MBind result := fun A B f m =>
  match m with
  | Ok a => f a
  | Raise e => Raise e
  end.

Module Py.

(** [bool(v)] *)
Definition truthy (v : pyval) : bool :=
  match v with
  | PyNone => false
  | PyStr s => negb (length s =? 0)
  | PyList l => negb (length l =? 0)
  end.

(** [d[k]] *)
Definition getitem (d : gmap string pyval) (k : string) : result pyval :=
  match d !! k with
  | Some v => Ok v
  | None => Raise (KeyError k)
  end.

(** The items [for x in v] runs over: the elements of a list, the
    characters of a string. *)
Definition iter (v : pyval) : result (list str) :=
  match v with
  | PyList l => Ok l
  | PyStr s => Ok (map (fun c => [c]) s)
  | PyNone => Raise TypeError
  end.

(** [len(v)] *)
Definition len (v : pyval) : result nat :=
  match v with
  | PyList l => Ok (length l)
  | PyStr s => Ok (length s)
  | PyNone => Raise TypeError
  end.

(** [xs[i]] *)
Definition index (xs : list str) (i : nat) : result str :=
  match xs !! i with
  | Some x => Ok x
  | None => Raise IndexError
  end.

(** [a or b] *)
Definition or_else (a b : pyval) : pyval := if truthy a then a else b.

(** The text an f-string puts for [{v}].  The parser formats [None]
    and strings only; for a list this is the bracketed list of its
    quoted items. *)
Definition format (v : pyval) : str :=
  match v with
  | PyNone => "None"
  | PyStr s => s
  | PyList l =>
      lit "[" ++ PyStr.join ", " (map (fun x => lit "'" ++ x ++ lit "'") l)
      ++ lit "]"
  end.

End Py.

(** ** [FlexibleTurkishParser] *)

(** The readings of [datetime.now()] that one processing step formats:
    ["%H:%M:%S"], ["%Y-%m-%d %H:%M:%S"] and ["%H%M%S"]. *)
Record clock := Clock { hms_colon : str; stamp : str; hms : str }.

Module Parser.
Import PyStr Re Py.

(** [\s+] *)
Definition ws_run : regex := Regex false [plus isspace] false.

Definition clean_text (text : str) : str := re_sub ws_run " " (strip text).

(** [^[\d\-\s:\.,%]+$] *)
Definition digits_punct_class (c : cp) : bool :=
  isdecimal c || set "-:.,%" c || isspace c.
Definition digits_punct : regex :=
  Regex true [plus digits_punct_class] true.

(** The terms are copied as the source file has them. *)
Definition skip_terms : list str :=
  [ lit "Detay"; lit "Kadro"; lit "Anlatim"; lit "ƒ∞statistik";
    lit "Kar≈üƒ±la≈ütƒ±rma"; lit "ƒ∞ddaa"; lit "Forum";
    lit "Quick search"; lit "NESINE"; lit "OLEY"; lit "MISLI"; lit "tuttur";
    lit "BILYONER"; lit "ALT/UST"; lit "Alt/Ust"; lit "SONUC"; lit "SANS";
    lit "HANDICAP"; lit "Var"; lit "Yok"; lit "Evet"; lit "Hayir"; lit "PEN";
    lit "mackolik"; lit "Gol"; lit "Kar≈üƒ±lƒ±klƒ±" ].

Definition common_words : list str :=
  [ lit "A"; lit "B"; lit "C"; lit "D"; lit "E"; lit "F"; lit "G"; lit "H";
    lit "I"; lit "J"; lit "K"; lit "L"; lit "M"; lit "N"; lit "O"; lit "P" ].

(** [any(term.upper() in line.upper() for term in skip_terms)] *)
Definition has_skip_term (line : str) : bool :=
  existsb (fun term => contains (upper term) (upper line)) skip_terms.

(** The last part of [is_team_match], on the words of the line.  The
    source compares the integer [letter_count] with the float
    [len(word) * 0.7] (resp. [total_chars * 0.6]).  The doubles [0.7] and
    [0.6] lie just below 7/10 and 6/10, the product is rounded to the
    nearest double and never exceeds the exact 7n/10 (resp. 6n/10) when
    that is an integer, so for an integer count the test is
    [7 * n <= 10 * count] (resp. [6 * n <= 10 * count]). *)
Definition team_words (line : str) (words : list str) : bool :=
  match words with
  | [word] =>
      if 4 <=? length word
      then 7 * length word <=? 10 * count isalpha word
      else false
  | _ =>
      if (2 <=? length words) && (length words <=? 5)
      then
        let total_chars := length (replace "." [] (replace " " [] line)) in
        let letter_count := count isalpha line in
        6 * total_chars <=? 10 * letter_count
      else false
  end.

Definition is_team_match (line : str) : bool :=
  let line := strip line in
  if length line <? 3 then false
  else if matches digits_punct line then false
  else if has_skip_term line then false
  else if negb (existsb isalpha line) then false
  else if mem (upper line) common_words then false
  else team_words line (split line).

(** [^\d{1,2}[,\.]\d{2}$] *)
Definition odds_re : regex :=
  Regex true [rep isdecimal 1 2; one (set ",."); rep isdecimal 2 2] true.

(** The value of a matched odds string in hundredths: the digits with
    the separator left out. *)
Definition hundredths (line : str) : N := to_int (List.filter isdecimal line).

(** After the pattern has matched, [float(line.replace(',', '.'))]
    cannot fail and is the double nearest to [h / 100] for the integer
    [h] of hundredths; rounding is monotone and [1.01], [100.0] are the
    doubles nearest to 101/100 and 10000/100, so
    [1.01 <= odds_val <= 100.0] is [101 <= h <= 10000]. *)
Definition is_odds_value (line : str) : bool :=
  let line := strip line in
  if matches odds_re line
  then ((101 <=? hundredths line) && (hundredths line <=? 10000))%N
  else false.

(** The separator class [[-\-...]] of the source: the hyphen and the
    six other characters the source file lists (U+201A, U+00E0, U+00ED,
    U+00C4, U+00EC, U+00EE). *)
Definition dash : str := "-‚àí‚Äí‚Äì‚Äî".

Definition score_shape (left right : str) : regex :=
  Regex false
    [one (iset left); star isspace; one (iset dash); star isspace;
     one (iset right)]
    false.

(** Matched under [re.IGNORECASE]. *)
Definition potential_scores : list regex :=
  [ score_shape "IO1l|" "O0oQ";
    score_shape "IO1l|" "IO1l|";
    score_shape "2zZ" "O0oQ";
    score_shape "2zZ" "IO1l|";
    score_shape "3∆ê" "O0oQ" ].

Definition dash_re : regex := Regex false [one (set dash)] false.

(** [(\d\s*-\s*\d)] *)
Definition digit_dash_digit : regex :=
  Regex false
    [one isdecimal; star isspace; one (set "-"); star isspace; one isdecimal]
    false.

Definition normalize (line : str) : str :=
  let normalized :=
    replace "|" "1" (replace "l" "1" (replace "I" "1" line)) in
  let normalized :=
    replace "Q" "0" (replace "o" "0" (replace "O" "0" normalized)) in
  re_sub dash_re "-" normalized.

(** The inner loop of [find_hidden_score] over the patterns. *)
Fixpoint try_patterns (patterns : list regex) (line : str) : option str :=
  match patterns with
  | [] => None
  | pattern :: rest =>
      if found pattern line then
        match re_search digit_dash_digit (normalize line) with
        | Some m => Some (replace " " [] (group (normalize line) m))
        | None => try_patterns rest line
        end
      else try_patterns rest line
  end.

Fixpoint find_hidden_score (ocr_lines : list str) : option str :=
  match ocr_lines with
  | [] => None
  | line :: rest =>
      match try_patterns potential_scores (clean_text line) with
      | Some score => Some score
      | None => find_hidden_score rest
      end
  end.

(** The three lists the loop of [extract_all_data] builds. *)
Record scan := Scan {
  odds : list str;
  all_text : list str;
  team_candidates : list str
}.

(** The three lists of the condition of lines 169-174. *)
Definition inline_words : list str :=
  [ lit "DETAY"; lit "KADRO"; lit "ISTATISTIK"; lit "IDDAA";
    lit "FORUM"; lit "MACKOLIK"; lit "MS" ].
Definition inline_sites : list str :=
  [ lit "NESINE"; lit "NESTNE"; lit "OLEY"; lit "MISLI";
    lit "MMISLI"; lit "TUTTUR" ].
Definition inline_uis : list str :=
  [ lit "EV"; lit "DEP"; lit "DCP"; lit "SONUCU"; lit "YARI";
    lit "TOPLAM"; lit "ROOTED" ].

(** The condition of lines 169-174, written inline in the loop. *)
Definition inline_team_filter (line : str) : bool :=
  (3 <=? length line)
  && negb (matches digits_punct line)
  && negb (mem (upper line) inline_words)
  && negb (existsb (fun site => contains site (upper line)) inline_sites)
  && negb (existsb (fun ui => contains ui (upper line)) inline_uis).

(** One iteration of the loop. *)
Definition scan_line (st : scan) (raw : str) : scan :=
  let line := clean_text raw in
  if length line <? 1 then st
  else
    {| all_text := all_text st ++ [line];
       odds := if matches odds_re line then odds st ++ [line] else odds st;
       team_candidates :=
         if inline_team_filter line
         then team_candidates st ++ [line]
         else team_candidates st |}.

Definition scan_lines (ocr_lines : list str) : scan :=
  fold_left scan_line ocr_lines (Scan [] [] []).

Definition resolve_ft_score (hidden_score : option str) : pyval :=
  match hidden_score with
  | Some s => if truthy (PyStr s) then PyStr s else PyStr "0-0"
  | None => PyStr "0-0"
  end.

Definition resolve_teams (candidates : list str) (data : gmap string pyval)
  : gmap string pyval :=
  match candidates with
  | c0 :: c1 :: _ => <["teams" := PyStr (c0 ++ lit " - " ++ c1)]> data
  | [c0] => <["teams" := PyStr c0]> data
  | [] => data
  end.

Definition extract_all_data (ocr_lines : list str) : gmap string pyval :=
  let st := scan_lines ocr_lines in
  let data : gmap string pyval :=
    <["teams" := PyNone]>
      (<["ht_score" := PyNone]>
         (<["ft_score" := PyNone]>
            (<["odds" := PyList (odds st)]>
               (<["all_text" := PyList (all_text st)]> ∅)))) in
  let data :=
    <["ft_score" := resolve_ft_score (find_hidden_score (all_text st))]> data in
  resolve_teams (team_candidates st) data.

(** [while len(odds) < 15: odds.append('0')]; fifteen rounds are
    enough since each adds an element. *)
Fixpoint pad_loop (fuel : nat) (odds : list str) : list str :=
  match fuel with
  | 0 => odds
  | S fuel' =>
      if length odds <? 15 then pad_loop fuel' (odds ++ [lit "0"]) else odds
  end.

Definition resolve_teams_info (now : clock) (data : gmap string pyval)
  : result pyval :=
  teams_info ← getitem data "teams";
  if truthy teams_info then Ok teams_info
  else
    categories ← getitem data "categories";
    if truthy categories then
      cs ← iter categories;
      Ok (PyStr (lit "Data from: " ++ join " | " (firstn 2 cs)))
    else
      betting_sites ← getitem data "betting_sites";
      if truthy betting_sites then
        bs ← iter betting_sites;
        Ok (PyStr (lit "Betting data: " ++ join " | " (firstn 2 bs)))
      else Ok (PyStr (lit "Odds data " ++ hms_colon now)).

Definition create_flexible_row (now : clock) (data : gmap string pyval)
  : result (list pyval) :=
  detected ← getitem data "odds";
  items ← iter detected;
  let odds := pad_loop 15 (map (replace "," ".") items) in
  teams_info ← resolve_teams_info now data;
  ht_score ← getitem data "ht_score";
  ft_score ← getitem data "ft_score";
  slots ← mapM (index odds) (seq 0 15);
  detected ← getitem data "odds";
  n ← len detected;
  Ok ([ teams_info;
        or_else ht_score (PyStr "0-0");
        or_else ft_score (PyStr "0-0") ]
      ++ map PyStr slots
      ++ [ PyStr (stamp now);
           PyStr (lit "Active - " ++ of_nat n ++ lit " odds found") ]).

(** The patterns of [is_score]: [^\d+\s*-\s*\d+$], [^\(\d+\-\d+\)$],
    [^\d+\:\d+$], [HT\s*\d+\-\d+] and [FT\s*\d+\-\d+]. *)
Definition score_patterns : list regex :=
  [ Regex true
      [plus isdecimal; star isspace; one (set "-"); star isspace; plus isdecimal]
      true;
    Regex true
      [one (set "("); plus isdecimal; one (set "-"); plus isdecimal; one (set ")")]
      true;
    Regex true [plus isdecimal; one (set ":"); plus isdecimal] true;
    Regex false
      [one (set "H"); one (set "T"); star isspace; plus isdecimal;
       one (set "-"); plus isdecimal]
      false;
    Regex false
      [one (set "F"); one (set "T"); star isspace; plus isdecimal;
       one (set "-"); plus isdecimal]
      false ].

Definition is_score (line : str) : bool :=
  let line := strip line in
  existsb (fun pattern => found pattern line) score_patterns.

End Parser.

(** ** [GoogleSheetsManager]

    The worksheet is the sequence of its rows; [None] stands for the
    manager before [connect()].  Calls to the sheet API are taken to
    succeed, except [append_row] in [write_row], whose failure the
    parser's caller observes. *)

Module Sheets.
Import PyStr.

Section Rows.
Context {cell : Type}.

(** [write_row(values)]: [timestamp] is the cell appended to a row
    of fewer than 10 values; [append_ok] tells whether
    [worksheet.append_row] succeeds. *)
Definition write_row (timestamp : cell) (append_ok : bool)
    (worksheet : option (list (list cell))) (values : list cell)
  : result (bool * option (list (list cell))) :=
  match worksheet with
  | None => Raise RuntimeError
  | Some rows =>
      let values :=
        if length values <? 10 then values ++ [timestamp] else values in
      if append_ok then Ok (true, Some (rows ++ [values]))
      else Ok (false, Some rows)
  end.
End Rows.


(** [f"{row[0]}_{row[1]}_{row[2]}"], for a row with [len(row) > 2]. *)
Definition match_key (row : list str) : option str :=
  match row with
  | r0 :: r1 :: r2 :: _ => Some (r0 ++ lit "_" ++ r1 ++ lit "_" ++ r2)
  | _ => None
  end.

(** The variables of the loop of [remove_duplicates]. *)
Record dedup := Dedup {
  seen_matches : gset str;
  rows_to_keep : list (list str);
  duplicates_removed : nat
}.

Definition dedup_row (st : dedup) (row : list str) : dedup :=
  match match_key row with
  | Some key =>
      if decide (key ∈ seen_matches st)
      then Dedup (seen_matches st) (rows_to_keep st)
                 (duplicates_removed st + 1)
      else Dedup ({[key]} ∪ seen_matches st) (rows_to_keep st ++ [row])
                 (duplicates_removed st)
  | None => st
  end.

(** [remove_duplicates()]: the worksheet afterwards, and the number of
    duplicates the pass counted (0 when it returns without rewriting).
    A rewrite is [worksheet.clear()] followed by
    [worksheet.append_rows(rows_to_keep)]. *)
Definition remove_duplicates (worksheet : option (list (list str)))
  : result (option (list (list str)) * nat) :=
  match worksheet with
  | None => Raise RuntimeError
  | Some all_values =>
      match all_values with
      | [] | [_] => Ok (worksheet, 0)
      | header :: rest =>
          let st := fold_left dedup_row rest (Dedup ∅ [header] 0) in
          if 0 <? duplicates_removed st
          then Ok (Some ([] ++ rows_to_keep st), duplicates_removed st)
          else Ok (worksheet, 0)
      end
  end.

(** The loop of [find_duplicate_matches] over
    [enumerate(all_values[1:], start=2)]. *)
Fixpoint find_from (i : nat) (rows : list (list str)) (teams : str)
    (date : option str) : list nat :=
  match rows with
  | [] => []
  | row :: rows' =>
      let hit :=
        (2 <? length row)
        && bool_decide (row !! 2 = Some teams)
        && match date with
           | None => true
           | Some d => (1 <? length row) && bool_decide (row !! 1 = Some d)
           end in
      (if hit then [i] else []) ++ find_from (S i) rows' teams date
  end.

Definition find_duplicate_matches (worksheet : option (list (list str)))
    (teams : str) (date : option str) : list nat :=
  match worksheet with
  | None => []
  | Some all_values => find_from 2 (tail all_values) teams date
  end.

(** [range(0, stop, step)] for a positive [step]; [stop] rounds are
    enough. *)
Fixpoint range_go (fuel i stop step : nat) : list nat :=
  match fuel with
  | 0 => []
  | S fuel' =>
      if i <? stop then i :: range_go fuel' (i + step) stop step else []
  end.
Definition range (stop step : nat) : list nat := range_go stop 0 stop step.

Section Batches.
Context {cell : Type}.

(** The first loop of [write_rows_batch]. *)
Definition with_timestamp (current_time : cell) (row : list cell) : list cell :=
  if length row <? 10 then row ++ [current_time] else row.

(** The second loop: [append_ok k] tells whether the [k]-th call of
    [worksheet.append_rows] succeeds; a failure ends the loop in the
    [except] branch. *)
Fixpoint append_batches (append_ok : nat -> bool) (k : nat)
    (rows : list (list cell)) (batches : list (list (list cell)))
  : bool * list (list cell) :=
  match batches with
  | [] => (true, rows)
  | batch :: rest =>
      if append_ok k then append_batches append_ok (S k) (rows ++ batch) rest
      else (false, rows)
  end.

(** [write_rows_batch(rows)] with the manager's [batch_size], a natural
    number; [range] raises [ValueError] for a step of 0, which the
    [except] branch turns into [False]. *)
Definition write_rows_batch (batch_size : nat) (current_time : cell)
    (append_ok : nat -> bool) (worksheet : option (list (list cell)))
    (rows : list (list cell))
  : result (bool * option (list (list cell))) :=
  match worksheet with
  | None => Raise RuntimeError
  | Some sheet =>
      match rows with
      | [] => Ok (true, worksheet)
      | _ =>
          let processed_rows := map (with_timestamp current_time) rows in
          if batch_size =? 0 then Ok (false, worksheet)
          else
            let batches :=
              map (fun i => firstn batch_size (skipn i processed_rows))
                  (range (length processed_rows) batch_size) in
            let '(ok, sheet) := append_batches append_ok 0 sheet batches in
            Ok (ok, Some sheet)
      end
  end.
End Batches.

End Sheets.

(** ** [FlexibleSheetsManager] and the processing step of [main] *)

Module Driver.
Import PyStr Py Parser.

Record sheets_manager := Manager {
  worksheet : option (list (list pyval));
  headers_written : bool
}.

(** The header row, as the source file has it. *)
Definition headers : list pyval :=
  map PyStr
    [ lit "Takimlar"; lit "Ilk Yari Skoru"; lit "Ma√ß Sonucu Skoru";
      lit "Ma√ß Sonucu 1"; lit "Ma√ß Sonucu X"; lit "Ma√ß Sonucu 2";
      lit "√áifte ≈ûans 1-X"; lit "√áifte ≈ûans 1-2";
      lit "√áifte ≈ûans X-2"; lit "Hnd. MS (1:0) 1"; lit "Hnd MS (1:0) X";
      lit "Hnd. MS (1:0) 2"; lit "Hnd. MS (2:0) 1"; lit "Hnd. MS (2:0) X";
      lit "Hnd. MS (2:0) 2"; lit "Timestamp"; lit "Status" ].

Definition ensure_headers (now : clock) (append_ok : bool)
    (m : sheets_manager) : sheets_manager :=
  if headers_written m then m
  else
    let attempt :=
      '(_, ws) ← Sheets.write_row (PyStr (stamp now)) append_ok (worksheet m)
                   [PyStr "=== FLEXIBLE TURKISH PARSER ==="];
      '(_, ws) ← Sheets.write_row (PyStr (stamp now)) append_ok ws headers;
      Ok ws in
    match attempt with
    | Ok ws => Manager ws true
    | Raise _ => m
    end.

(** [write_data(data_row)]: the value returned and the manager
    afterwards. *)
Definition write_data (now : clock) (append_ok : bool) (m : sheets_manager)
    (data_row : list pyval) : bool * sheets_manager :=
  let m := ensure_headers now append_ok m in
  match Sheets.write_row (PyStr (stamp now)) append_ok (worksheet m) data_row with
  | Ok (_, ws) => (true, Manager ws (headers_written m))
  | Raise _ => (false, m)
  end.

Record state := State {
  processed_matches : gset str;
  sheets : sheets_manager
}.

(** What one processing step receives: the texts of the OCR result,
    the clock, and whether the sheet accepts appended rows. *)
Record input := Input {
  texts : list str;
  now : clock;
  append_ok : bool
}.

Inductive outcome :=
| Forwarded (data_row : list pyval) (success : bool)
| NotEnoughOdds
| NoMeaningfulData
| NoText
| ProcessingError (e : exn).

(** [f"{teams}_{ft_score}_{odds_summary}_{timestamp}"] *)
Definition data_id (teams ft_score : pyval) (odds : list str) (now : clock)
  : str :=
  format teams ++ lit "_" ++ format ft_score ++ lit "_"
  ++ concat (firstn 5 odds) ++ lit "_" ++ hms now.

(** The body of the [try] of [main], from the OCR texts on. *)
Definition process_try (st : state) (inp : input) : result (state * outcome) :=
  match texts inp with
  | [] => Ok (st, NoText)
  | _ =>
      let ocr_lines :=
        List.filter (fun t => truthy (PyStr (strip t))) (texts inp) in
      let extracted_data := extract_all_data ocr_lines in
      teams ← getitem extracted_data "teams";
      detected ← getitem extracted_data "odds";
      n ← len detected;
      if truthy teams || (3 <=? n) then
        data_row ← create_flexible_row (now inp) extracted_data;
        odds ← iter detected;
        ft_score ← getitem extracted_data "ft_score";
        let id := data_id teams ft_score odds (now inp) in
        if 3 <=? n then
          let '(success, m) :=
            write_data (now inp) (append_ok inp) (sheets st) data_row in
          if success
          then Ok (State ({[id]} ∪ processed_matches st) m,
                   Forwarded data_row true)
          else Ok (State (processed_matches st) m, Forwarded data_row false)
        else Ok (st, NotEnoughOdds)
      else Ok (st, NoMeaningfulData)
  end.

(** One processing step: an exception is caught and reported. *)
Definition process (st : state) (inp : input) : state * outcome :=
  match process_try st inp with
  | Ok r => r
  | Raise e => (st, ProcessingError e)
  end.

(** The fingerprint that the step computes for its capture, when it
    gets as far as computing one. *)
Definition fingerprint (inp : input) : option str :=
  let ocr_lines :=
    List.filter (fun t => truthy (PyStr (strip t))) (texts inp) in
  let extracted_data := extract_all_data ocr_lines in
  match extracted_data !! "teams", extracted_data !! "ft_score",
        extracted_data !! "odds" with
  | Some teams, Some ft_score, Some (PyList odds) =>
      Some (data_id teams ft_score odds (now inp))
  | _, _, _ => None
  end.

End Driver.

(** ** Vocabulary of the statements *)

(** The runs of decimal digits, as ranges. *)
Definition decimal_ranges : list (N * N) :=
  map (fun z => (z, z + 9)%N) Unicode.decimal_zeros.

(** The ranges are in increasing order and apart, all above [prev]. *)
Fixpoint ranges_sorted (prev : option N) (ranges : list (N * N)) : bool :=
  match ranges with
  | [] => true
  | (a, b) :: rest =>
      (a <=? b)%N
      && match prev with Some p => (p <? a)%N | None => true end
      && ranges_sorted (Some b) rest
  end.

(** The keys of the table are in increasing order, all above [prev]. *)
Fixpoint keys_sorted {A : Type} (prev : option N) (table : list (N * A)) : bool :=
  match table with
  | [] => true
  | (k, _) :: rest =>
      match prev with Some p => (p <? k)%N | None => true end
      && keys_sorted (Some k) rest
  end.

(** No range of the first list meets a range of the second. *)
Definition ranges_apart (rs1 rs2 : list (N * N)) : bool :=
  forallb (fun r1 =>
             forallb (fun r2 => (snd r1 <? fst r2) || (snd r2 <? fst r1))%N rs2)
          rs1.

(** The odds slots of a row: the fifteen positions after the team field
    and the two scores. *)
Definition odds_slots (row : list pyval) : list pyval := firstn 15 (skipn 3 row).

(** The value [extract_all_data] stores under ['teams']. *)
Definition teams_value (candidates : list str) : pyval :=
  match candidates with
  | c0 :: c1 :: _ => PyStr (c0 ++ lit " - " ++ c1)
  | [c0] => PyStr c0
  | [] => PyNone
  end.

(** The capture a processing step hands to the parser. *)
Definition ocr_lines (inp : Driver.input) : list str :=
  List.filter (fun t => Py.truthy (PyStr (PyStr.strip t))) (Driver.texts inp).

(** The cleaned, non-empty lines of a capture, in encounter order. *)
Definition cleaned_lines (lines : list str) : list str :=
  List.filter (fun line => negb (length line <? 1)) (map Parser.clean_text lines).

(** What [clean_text] does to a stripped string, read in one pass: a
    run of whitespace becomes one space.  [in_run] tells that the
    previous character was whitespace. *)
Fixpoint squeeze (in_run : bool) (s : str) : str :=
  match s with
  | [] => []
  | c :: s' =>
      if PyStr.isspace c
      then if in_run then squeeze true s' else ch " " :: squeeze true s'
      else c :: squeeze false s'
  end.

(** Every whitespace character is a space and is followed by a
    character that is not whitespace. *)
Fixpoint tidy_from (s : str) : bool :=
  match s with
  | [] => true
  | c :: s' =>
      (if PyStr.isspace c
       then PyStr.char_eqb c " "
            && match s' with [] => false | d :: _ => negb (PyStr.isspace d) end
       else true)
      && tidy_from s'
  end.

Definition starts_nonspace (s : str) : bool :=
  match s with [] => false | c :: _ => negb (PyStr.isspace c) end.

Fixpoint ends_nonspace (s : str) : bool :=
  match s with
  | [] => true
  | [c] => negb (PyStr.isspace c)
  | _ :: s' => ends_nonspace s'
  end.

(** The shape of a cleaned line: empty, or starting with a character
    that is not whitespace and tidy from there on. *)
Definition tidy (s : str) : bool :=
  match s with [] => true | _ => starts_nonspace s && tidy_from s end.

(** A line is score-like when one of the recovery patterns is found in
    it, cleaned as the recoverer cleans it. *)
Definition score_like (line : str) : bool :=
  existsb (fun pattern => Re.found pattern (Parser.clean_text line))
          Parser.potential_scores.

(** The first row of [rows] whose fingerprint is [key]. *)
Definition first_with_key (key : str) (rows : list (list str))
  : option (list str) :=
  List.find (fun row => bool_decide (Sheets.match_key row = Some key)) rows.

(** The rows that the loop of [remove_duplicates] keeps, and the
    duplicates it counts, when it starts with the fingerprints [seen]. *)
Fixpoint kept_from (seen : gset str) (rows : list (list str))
  : list (list str) :=
  match rows with
  | [] => []
  | row :: rest =>
      match Sheets.match_key row with
      | Some key =>
          if decide (key ∈ seen) then kept_from seen rest
          else row :: kept_from ({[key]} ∪ seen) rest
      | None => kept_from seen rest
      end
  end.

Fixpoint duplicates_from (seen : gset str) (rows : list (list str)) : nat :=
  match rows with
  | [] => 0
  | row :: rest =>
      match Sheets.match_key row with
      | Some key =>
          if decide (key ∈ seen) then S (duplicates_from seen rest)
          else duplicates_from ({[key]} ∪ seen) rest
      | None => duplicates_from seen rest
      end
  end.

(** The strings a sequence of pattern atoms describes: one segment per
    atom, of characters of its class, as many as its bounds allow. *)
Fixpoint conforms (r : list Re.atom) (t : str) : Prop :=
  match r with
  | [] => t = []
  | a :: r' =>
      exists u v,
        t = u ++ v
        /\ forallb (Re.cls a) u = true
        /\ Re.lo a <= length u
        /\ (forall b, Re.hi a = Some b -> length u <= b)
        /\ conforms r' v
  end.

(** Every whitespace character is a space. *)
Definition only_spaces (s : str) : bool :=
  forallb (fun c => implb (PyStr.isspace c) (PyStr.char_eqb c " ")) s.

(** A score in canonical form: digit, hyphen, digit. *)
Definition canonical_score (s : str) : Prop :=
  exists d1 d2,
    PyStr.isdecimal d1 = true /\ PyStr.isdecimal d2 = true
    /\ s = [d1; ch "-"; d2].

(** A decimal number with one or two integer digits, a period and two
    decimals. *)
Definition decimal_odds (s : str) : Prop :=
  exists int_part d1 d2,
    1 <= length int_part <= 2
    /\ forallb PyStr.isdecimal int_part = true
    /\ PyStr.isdecimal d1 = true /\ PyStr.isdecimal d2 = true
    /\ s = int_part ++ [ch "."; d1; d2].

(** The processing steps of a run of [main], one after the other. *)
Definition run (st : Driver.state) (inputs : list Driver.input) : Driver.state :=
  fold_left (fun st inp => fst (Driver.process st inp)) inputs st.

(** The exceptions [create_flexible_row] can raise. *)
Definition row_error (e : exn) : Prop :=
  e = TypeError
  \/ exists k,
       e = KeyError k
       /\ In k ["odds"; "teams"; "categories"; "betting_sites";
                "ht_score"; "ft_score"].

(** A row without a third column. *)
Definition is_short (row : list str) : bool := length row <? 3.


(** A character known to be one of a list of given characters: one
    case for each. *)
Ltac char_cases H :=
  vm_compute in H;
  repeat (destruct H as [<-|H]); [..|destruct H].

(** Concrete captures and sheets used below. *)
Module Examples.
Import Driver.

Definition noon : clock :=
  Clock "12:00:00" "2024-01-01 12:00:00" "120000".

(** A connected, empty sheet and no fingerprint seen yet. *)
Definition fresh : state := State ∅ (Manager (Some []) false).

Definition derby : list str :=
  [ lit "NESINE"; lit "Fenerbahce"; lit "Galatasaray";
    lit "1,85"; lit "3,20"; lit "4,10"; lit "1-0" ].

(** The row [create_flexible_row] builds for [derby] at [noon]. *)
Definition derby_row : list pyval :=
  map PyStr
    ([ lit "Fenerbahce - Galatasaray"; lit "0-0"; lit "1-0";
       lit "1.85"; lit "3.20"; lit "4.10" ]
     ++ repeat (lit "0") 12
     ++ [ lit "2024-01-01 12:00:00"; lit "Active - 3 odds found" ]).


(** A capture whose only text line is the label of the half-time
    column. *)
Definition half_time_label : list str :=
  [ lit "İlk Yarı"; lit "1,85"; lit "3,20"; lit "4,10" ].

Definition three_odds : list str := [ lit "1,85"; lit "3,20"; lit "4,10" ].

Definition two_odds : list str := [ lit "1,85"; lit "3,20" ].

Definition low_odds : list str :=
  [ lit "Fenerbahce"; lit "Galatasaray"; lit "0,50"; lit "00,00"; lit "1,00" ].

Definition header_row : list str := [ lit "League"; lit "Date"; lit "Teams" ].
Definition match_row : list str :=
  [ lit "Super Lig"; lit "2024-01-01"; lit "Fenerbahce - Galatasaray" ].
Definition short_row : list str := [ lit "=== FLEXIBLE TURKISH PARSER ===" ].

Definition sheet_with_short_row : list (list str) :=
  [ header_row; match_row; match_row; short_row ].


End Examples.

(** * Properties *)

(** ** Characters *)

Section Characters.
Import PyStr Re.

Lemma char_eqb_eq a b : char_eqb a b = true <-> a = b.
Proof. apply N.eqb_eq. Qed.

Lemma char_eqb_neq a b : char_eqb a b = false <-> a <> b.
Proof. apply N.eqb_neq. Qed.

Lemma char_eqb_spec a b : reflect (a = b) (char_eqb a b).
Proof. apply N.eqb_spec. Qed.

Lemma char_eqb_refl a : char_eqb a a = true.
Proof. by apply char_eqb_eq. Qed.

Lemma set_In members c : set members c = true <-> In c members.
Proof.
  unfold set. rewrite existsb_exists. split.
  - by intros (m & Hin & ->%char_eqb_eq).
  - intros Hin. exists c. split; [done|apply char_eqb_refl].
Qed.

Lemma in_ranges_In ranges c :
  in_ranges ranges c = true ->
  exists a b, In (a, b) ranges /\ (a <= c <= b)%N.
Proof.
  induction ranges as [|[a b] ranges IH]; [done|]. cbn [in_ranges].
  destruct (N.ltb_spec c a) as [Hlt|Hge]; [done|].
  destruct (N.leb_spec c b) as [Hle|Hgt].
  - intros _. exists a, b. split; [by left|lia].
  - intros (a' & b' & Hin & Hc)%IH. exists a', b'. split; [by right|done].
Qed.

Lemma ranges_sorted_above p ranges a b :
  ranges_sorted (Some p) ranges = true -> In (a, b) ranges -> (p < a)%N.
Proof.
  revert p. induction ranges as [|[a' b'] ranges IH]; intros p; [done|].
  cbn [ranges_sorted]. rewrite !andb_true_iff, N.leb_le, N.ltb_lt.
  intros [[Hab Hp] Hrest] [[= <- <-]|Hin]; [done|].
  specialize (IH b' Hrest Hin). lia.
Qed.

(** On a sorted list of ranges the search finds every member. *)
Lemma in_ranges_complete prev ranges c a b :
  ranges_sorted prev ranges = true ->
  In (a, b) ranges -> (a <= c <= b)%N -> in_ranges ranges c = true.
Proof.
  revert prev. induction ranges as [|[a' b'] ranges IH]; intros prev; [done|].
  cbn [ranges_sorted in_ranges]. rewrite !andb_true_iff, N.leb_le.
  intros [[Hab _] Hrest] [[= <- <-]|Hin] Hc.
  - destruct (N.ltb_spec c a'); [lia|]. destruct (N.leb_spec c b'); [done|lia].
  - pose proof (ranges_sorted_above b' ranges a b Hrest Hin).
    destruct (N.ltb_spec c a'); [lia|]. destruct (N.leb_spec c b'); [lia|].
    by apply (IH (Some b')).
Qed.

Lemma keys_sorted_above {A} p (table : list (N * A)) k v :
  keys_sorted (Some p) table = true -> In (k, v) table -> (p < k)%N.
Proof.
  revert p. induction table as [|[k' v'] table IH]; intros p; [done|].
  cbn [keys_sorted]. rewrite andb_true_iff, N.ltb_lt.
  intros [Hp Hrest] [[= <- <-]|Hin]; [done|].
  specialize (IH k' Hrest Hin). lia.
Qed.

(** On a sorted table the lookup finds every entry. *)
Lemma lookup_complete {A} prev (table : list (N * A)) k v :
  keys_sorted prev table = true -> In (k, v) table -> lookup table k = Some v.
Proof.
  revert prev. induction table as [|[k' v'] table IH]; intros prev; [done|].
  cbn [keys_sorted lookup]. rewrite andb_true_iff.
  intros [_ Hrest] [[= <- <-]|Hin].
  - by rewrite N.compare_refl.
  - pose proof (keys_sorted_above k' table k v Hrest Hin).
    destruct (N.compare_spec k k'); [lia|lia|]. by apply (IH (Some k')).
Qed.

(** The tables are sorted, so that the searches above are complete. *)
Lemma tables_sorted :
  ranges_sorted None Unicode.space_ranges = true
  /\ ranges_sorted None Unicode.alpha_ranges = true
  /\ ranges_sorted None decimal_ranges = true
  /\ keys_sorted None Unicode.upper_table = true
  /\ keys_sorted None Unicode.lower_table = true
  /\ keys_sorted None Unicode.extra_cases = true.
Proof. repeat split; vm_compute; reflexivity. Qed.

Lemma isalpha_iff c :
  isalpha c = true
  <-> exists a b, In (a, b) Unicode.alpha_ranges /\ (a <= c <= b)%N.
Proof.
  split; [apply in_ranges_In|]. intros (a & b & Hin & Hc).
  by apply (in_ranges_complete None _ c a b); [apply tables_sorted| |].
Qed.

Lemma isspace_iff c :
  isspace c = true
  <-> exists a b, In (a, b) Unicode.space_ranges /\ (a <= c <= b)%N.
Proof.
  split; [apply in_ranges_In|]. intros (a & b & Hin & Hc).
  by apply (in_ranges_complete None _ c a b); [apply tables_sorted| |].
Qed.

Lemma ranges_apart_sound rs1 rs2 c :
  ranges_apart rs1 rs2 = true ->
  in_ranges rs1 c = true -> in_ranges rs2 c = false.
Proof.
  intros Hapart (a1 & b1 & Hin1 & Hc1)%in_ranges_In.
  destruct (in_ranges rs2 c) eqn:H2; [|done].
  apply in_ranges_In in H2 as (a2 & b2 & Hin2 & Hc2).
  unfold ranges_apart in Hapart.
  rewrite forallb_forall in Hapart. specialize (Hapart _ Hin1).
  rewrite forallb_forall in Hapart. specialize (Hapart _ Hin2).
  cbn [fst snd] in Hapart.
  apply orb_true_iff in Hapart as [H|H]; apply N.ltb_lt in H; lia.
Qed.

Lemma lookup_In {A} (table : list (N * A)) c v :
  lookup table c = Some v -> In (c, v) table.
Proof.
  induction table as [|[k w] table IH]; [done|]. cbn [lookup].
  destruct (N.compare_spec c k) as [->|Hlt|Hgt]; [|done|].
  - intros [= ->]. by left.
  - intros Hin%IH. by right.
Qed.

Lemma zero_of_Some zeros c z :
  zero_of zeros c = Some z -> In z zeros /\ (z <= c <= z + 9)%N.
Proof.
  induction zeros as [|z' zeros IH]; [done|]. cbn [zero_of].
  destruct (N.ltb_spec c z') as [Hlt|Hge]; [done|].
  destruct (N.leb_spec c (z' + 9)) as [Hle|Hgt].
  - intros [= <-]. split; [by left|lia].
  - intros [Hin Hc]%IH. split; [by right|done].
Qed.

Lemma decimal_zero_Some c z :
  decimal_zero c = Some z ->
  In z Unicode.decimal_zeros /\ (z <= c <= z + 9)%N.
Proof. apply zero_of_Some. Qed.

Lemma isdecimal_ranges c : isdecimal c = in_ranges decimal_ranges c.
Proof.
  unfold isdecimal, decimal_zero, decimal_ranges.
  induction Unicode.decimal_zeros as [|z zs IH]; [done|].
  cbn [zero_of map in_ranges].
  destruct (c <? z)%N; [done|]. by destruct (c <=? z + 9)%N.
Qed.

Lemma isdecimal_iff c :
  isdecimal c = true
  <-> exists z, In z Unicode.decimal_zeros /\ (z <= c <= z + 9)%N.
Proof.
  rewrite isdecimal_ranges. split.
  - intros (a & b & Hin & Hc)%in_ranges_In.
    unfold decimal_ranges in Hin. apply in_map_iff in Hin as (z & [= <- <-] & Hz).
    by exists z.
  - intros (z & Hz & Hc).
    apply (in_ranges_complete None _ c z (z + 9)); [apply tables_sorted| |done].
    unfold decimal_ranges. apply in_map_iff. by exists z.
Qed.

Lemma digit_val_bound c : (digit_val c <= 9)%N.
Proof.
  unfold digit_val. destruct (decimal_zero c) as [z|] eqn:E; [|lia].
  apply decimal_zero_Some in E. lia.
Qed.

Lemma alpha_not_decimal c : isalpha c = true -> isdecimal c = false.
Proof.
  rewrite isdecimal_ranges. apply ranges_apart_sound.
  vm_compute. reflexivity.
Qed.

Lemma alpha_not_space c : isalpha c = true -> isspace c = false.
Proof. apply ranges_apart_sound. vm_compute. reflexivity. Qed.

Lemma decimal_not_space c : isdecimal c = true -> isspace c = false.
Proof.
  rewrite isdecimal_ranges. apply ranges_apart_sound.
  vm_compute. reflexivity.
Qed.

Lemma decimal_not_alpha c : isdecimal c = true -> isalpha c = false.
Proof.
  intros Hd. destruct (isalpha c) eqn:Ha; [|done].
  apply alpha_not_decimal in Ha. congruence.
Qed.

Lemma upper_char_nonempty c : upper_char c <> [].
Proof.
  unfold upper_char.
  destruct (lookup Unicode.upper_table c) as [u|] eqn:E; [|done].
  apply lookup_In in E.
  assert (Hall : forallb (fun e => negb (length (snd e) =? 0))
                         Unicode.upper_table = true)
    by (vm_compute; reflexivity).
  rewrite forallb_forall in Hall. specialize (Hall _ E).
  by destruct u.
Qed.

Lemma upper_length s : length s <= length (upper s).
Proof.
  induction s as [|c s IH]; [done|].
  unfold upper in *. cbn [flat_map]. rewrite length_app.
  pose proof (upper_char_nonempty c). destruct (upper_char c); [done|].
  simpl. lia.
Qed.

End Characters.


Section ExtractedData.
Import PyStr Py Parser.
Variable lines : list str.


Lemma extracted_odds :
  extract_all_data lines !! "odds" = Some (PyList (odds (scan_lines lines))).
Proof.
  unfold extract_all_data, resolve_teams.
  destruct (team_candidates (scan_lines lines)) as [|c0 [|c1 cs]]; by simplify_map_eq.
Qed.

Lemma extracted_teams :
  extract_all_data lines !! "teams" = Some (teams_value (team_candidates (scan_lines lines))).
Proof.
  unfold extract_all_data, resolve_teams.
  destruct (team_candidates (scan_lines lines)) as [|c0 [|c1 cs]]; by simplify_map_eq.
Qed.

Lemma extracted_ht_score :
  extract_all_data lines !! "ht_score" = Some PyNone.
Proof.
  unfold extract_all_data, resolve_teams.
  destruct (team_candidates (scan_lines lines)) as [|c0 [|c1 cs]]; by simplify_map_eq.
Qed.

Lemma extracted_ft_score :
  extract_all_data lines !! "ft_score"
  = Some (resolve_ft_score (find_hidden_score (all_text (scan_lines lines)))).
Proof.
  unfold extract_all_data, resolve_teams.
  destruct (team_candidates (scan_lines lines)) as [|c0 [|c1 cs]]; by simplify_map_eq.
Qed.

Lemma extracted_categories :
  extract_all_data lines !! "categories" = None.
Proof.
  unfold extract_all_data, resolve_teams.
  destruct (team_candidates (scan_lines lines)) as [|c0 [|c1 cs]]; by simplify_map_eq.
Qed.

End ExtractedData.

Section RowAssembly.
Import PyStr Py Parser.

Lemma pad_loop_spec fuel (l : list str) :
  15 - length l <= fuel ->
  pad_loop fuel l = l ++ repeat (lit "0") (15 - length l).
Proof.
  revert l. induction fuel as [|fuel IH]; intros l Hfuel; simpl.
  - replace (15 - length l) with 0 by lia. by rewrite app_nil_r.
  - destruct (Nat.ltb_spec (length l) 15) as [Hlt|Hge].
    + rewrite IH by (rewrite length_app; simpl; lia).
      rewrite length_app. simpl.
      replace (15 - length l) with (S (15 - (length l + 1))) by lia.
      simpl. by rewrite <- app_assoc.
    + replace (15 - length l) with 0 by lia. by rewrite app_nil_r.
Qed.

Lemma pad_loop_length (l : list str) : 15 <= length (pad_loop 15 l).
Proof.
  rewrite pad_loop_spec by lia. rewrite length_app, repeat_length. lia.
Qed.

Lemma mapM_index (l : list str) n start :
  start + n <= length l ->
  mapM (index l) (seq start n) = Ok (firstn n (skipn start l)).
Proof.
  revert start. induction n as [|n IH]; intros start Hlen; simpl.
  - done.
  - rewrite IH by lia. unfold index.
    destruct (l !! start) as [x|] eqn:Hx.
    + simpl. by rewrite (drop_S l x start Hx).
    + apply lookup_ge_None in Hx. lia.
Qed.

Lemma slots_of_padded (l : list str) :
  mapM (index (pad_loop 15 l)) (seq 0 15) = Ok (firstn 15 (pad_loop 15 l)).
Proof. apply mapM_index. pose proof (pad_loop_length l). lia. Qed.

End RowAssembly.

Section Scan.
Import PyStr Re Py Parser.

Lemma scan_lines_from st lines :
  fold_left scan_line lines st
  = Scan (odds st ++ List.filter (matches odds_re) (cleaned_lines lines))
         (all_text st ++ cleaned_lines lines)
         (team_candidates st
          ++ List.filter inline_team_filter (cleaned_lines lines)).
Proof.
  revert st. induction lines as [|raw lines IH]; intros st; simpl.
  - unfold cleaned_lines. simpl. rewrite !app_nil_r. by destruct st.
  - rewrite IH. unfold scan_line, cleaned_lines. simpl.
    destruct (length (clean_text raw) <? 1); simpl; [done|].
    destruct (matches odds_re (clean_text raw));
      destruct (inline_team_filter (clean_text raw)); simpl;
      by rewrite <- ?app_assoc.
Qed.

Lemma scan_all_text lines : all_text (scan_lines lines) = cleaned_lines lines.
Proof. unfold scan_lines. by rewrite scan_lines_from. Qed.

Lemma scan_odds lines :
  odds (scan_lines lines) = List.filter (matches odds_re) (cleaned_lines lines).
Proof. unfold scan_lines. by rewrite scan_lines_from. Qed.

Lemma scan_team_candidates lines :
  team_candidates (scan_lines lines)
  = List.filter inline_team_filter (cleaned_lines lines).
Proof. unfold scan_lines. by rewrite scan_lines_from. Qed.

Lemma inline_team_filter_length line :
  inline_team_filter line = true -> 3 <= length line.
Proof.
  unfold inline_team_filter. rewrite !andb_true_iff.
  intros [[[[Hlen _] _] _] _]. by apply Nat.leb_le.
Qed.

Lemma team_candidate_length lines c :
  In c (team_candidates (scan_lines lines)) -> 3 <= length c.
Proof.
  rewrite scan_team_candidates. intros Hin.
  apply filter_In in Hin as [_ Hc]. by apply inline_team_filter_length.
Qed.

Lemma teams_value_truthy lines :
  team_candidates (scan_lines lines) <> [] ->
  truthy (teams_value (team_candidates (scan_lines lines))) = true.
Proof.
  intros Hne. pose proof (team_candidate_length lines) as Hlen.
  destruct (team_candidates (scan_lines lines)) as [|c0 [|c1 cs]]; [done| |].
  - specialize (Hlen c0 (or_introl eq_refl)). simpl.
    destruct c0; simpl in *; [lia|done].
  - simpl. rewrite !length_app. simpl.
    destruct (length c0 + S (S (S (length c1)))) eqn:E; [lia|done].
Qed.

End Scan.

Section RowShape.
Import PyStr Py Parser.

Lemma bind_ok_inv {A B} (m : result A) (f : A -> result B) b :
  m ≫= f = Ok b -> exists a, m = Ok a /\ f a = Ok b.
Proof. destruct m as [a|e]; [by exists a|done]. Qed.

Lemma getitem_ok (d : gmap string pyval) k v :
  getitem d k = Ok v -> d !! k = Some v.
Proof. unfold getitem. destruct (d !! k); congruence. Qed.

(** What a successful call of [create_flexible_row] has read and built. *)
Lemma create_flexible_row_ok now data row :
  create_flexible_row now data = Ok row ->
  exists detected items teams_info ht_score ft_score n,
    data !! "odds" = Some detected /\ iter detected = Ok items
    /\ resolve_teams_info now data = Ok teams_info
    /\ data !! "ht_score" = Some ht_score
    /\ data !! "ft_score" = Some ft_score
    /\ len detected = Ok n
    /\ row = [ teams_info; or_else ht_score (PyStr "0-0");
               or_else ft_score (PyStr "0-0") ]
             ++ map PyStr
                  (firstn 15 (pad_loop 15 (map (replace "," ".") items)))
             ++ [ PyStr (stamp now);
                  PyStr (lit "Active - " ++ of_nat n ++ lit " odds found") ].
Proof.
  unfold create_flexible_row. intros Hrow.
  apply bind_ok_inv in Hrow as (detected & Hodds & Hrow).
  apply bind_ok_inv in Hrow as (items & Hitems & Hrow).
  apply bind_ok_inv in Hrow as (teams_info & Hteams & Hrow).
  apply bind_ok_inv in Hrow as (ht_score & Hht & Hrow).
  apply bind_ok_inv in Hrow as (ft_score & Hft & Hrow).
  rewrite slots_of_padded in Hrow.
  apply bind_ok_inv in Hrow as (slots & [= <-] & Hrow).
  apply bind_ok_inv in Hrow as (detected' & Hodds' & Hrow).
  rewrite Hodds in Hodds'. injection Hodds' as <-.
  apply bind_ok_inv in Hrow as (n & Hn & [= <-]).
  apply getitem_ok in Hodds, Hht, Hft.
  by exists detected, items, teams_info, ht_score, ft_score, n.
Qed.

Lemma odds_slots_of_row (a b c : pyval) (slots : list str) tl :
  length slots = 15 ->
  odds_slots ([a; b; c] ++ map PyStr slots ++ tl) = map PyStr slots.
Proof.
  intros Hlen.
  change (odds_slots ([a; b; c] ++ map PyStr slots ++ tl))
    with (take 15 (map PyStr slots ++ tl)).
  apply take_app_length'. by rewrite length_map.
Qed.

Lemma firstn_pad_length (l : list str) : length (firstn 15 (pad_loop 15 l)) = 15.
Proof. rewrite length_firstn. pose proof (pad_loop_length l). lia. Qed.

End RowShape.


Section Step.
Import PyStr Py Parser Driver.

Lemma resolve_ft_score_truthy h : truthy (resolve_ft_score h) = true.
Proof.
  destruct h as [s|]; [|done]. unfold resolve_ft_score.
  by destruct (truthy (PyStr s)) eqn:E.
Qed.

(** How far a step gets is decided by the team field and the number of
    detected odds alone. *)
Lemma process_try_unfold st inp :
  texts inp <> [] ->
  let sc := scan_lines (ocr_lines inp) in
  let data := extract_all_data (ocr_lines inp) in
  let teams := teams_value (team_candidates sc) in
  process_try st inp
  = if truthy teams || (3 <=? length (odds sc)) then
      data_row ← create_flexible_row (now inp) data;
      let id := data_id teams (resolve_ft_score (find_hidden_score (all_text sc)))
                        (odds sc) (now inp) in
      if 3 <=? length (odds sc) then
        let '(success, m) :=
          write_data (now inp) (append_ok inp) (sheets st) data_row in
        if success
        then Ok (State ({[id]} ∪ processed_matches st) m,
                 Forwarded data_row true)
        else Ok (State (processed_matches st) m, Forwarded data_row false)
      else Ok (st, NotEnoughOdds)
    else Ok (st, NoMeaningfulData).
Proof.
  intros Hne sc data teams. unfold process_try.
  destruct (texts inp) as [|t ts] eqn:Htexts; [done|].
  rewrite <- Htexts.
  fold (ocr_lines inp). fold data.
  unfold getitem. subst data.
  rewrite extracted_teams, extracted_odds, extracted_ft_score.
  reflexivity.
Qed.

(** A forwarded row is the row [create_flexible_row] built from a
    capture with a team field and at least three odds. *)
Lemma process_forwarded st inp st' row ok :
  process st inp = (st', Forwarded row ok) ->
  let sc := scan_lines (ocr_lines inp) in
  create_flexible_row (now inp) (extract_all_data (ocr_lines inp)) = Ok row
  /\ 3 <= length (odds sc)
  /\ truthy (teams_value (team_candidates sc)) = true.
Proof.
  intros Hstep sc. unfold process in Hstep.
  destruct (texts inp) as [|t ts] eqn:Htexts.
  { unfold process_try in Hstep. by rewrite Htexts in Hstep. }
  rewrite process_try_unfold in Hstep by (rewrite Htexts; done).
  fold sc in Hstep.
  destruct (truthy (teams_value (team_candidates sc))) eqn:Hteams;
    destruct (3 <=? length (odds sc)) eqn:Hn;
    cbn [orb] in Hstep; try discriminate Hstep.
  - destruct (create_flexible_row (now inp) (extract_all_data (ocr_lines inp)))
      as [data_row|e] eqn:Hrow; [|discriminate Hstep].
    apply Nat.leb_le in Hn. cbn [mbind result_bind] in Hstep.
    destruct (write_data (now inp) (append_ok inp) (sheets st) data_row)
      as [[] m]; injection Hstep as _ <- _; done.
  - destruct (create_flexible_row (now inp) (extract_all_data (ocr_lines inp)))
      as [data_row|e] eqn:Hrow; discriminate Hstep.
  - unfold create_flexible_row, resolve_teams_info, getitem in Hstep.
    rewrite extracted_odds, extracted_teams, extracted_categories in Hstep.
    cbn [mbind result_bind iter] in Hstep. fold sc in Hstep.
    rewrite Hteams in Hstep. discriminate Hstep.
Qed.

(** A capture with a team candidate is assembled into a row. *)
Lemma assembled_row_exists now lines :
  team_candidates (scan_lines lines) <> [] ->
  exists row, create_flexible_row now (extract_all_data lines) = Ok row.
Proof.
  intros Hcands. unfold create_flexible_row, resolve_teams_info, getitem.
  rewrite extracted_odds, extracted_teams, extracted_ht_score,
    extracted_ft_score.
  cbn [mbind result_bind iter len].
  rewrite (teams_value_truthy lines Hcands). cbn [mbind result_bind].
  rewrite slots_of_padded. by eexists.
Qed.

End Step.

(** The layout of a forwarded row: teams, half-time score, full-time
    score, fifteen odds slots, capture timestamp, status note. *)
Lemma forwarded_row_layout st inp st' row ok :
  Driver.process st inp = (st', Driver.Forwarded row ok) ->
  let sc := Parser.scan_lines (ocr_lines inp) in
  length (odds_slots row) = 15
  /\ row = [ teams_value (Parser.team_candidates sc);
             PyStr "0-0";
             Parser.resolve_ft_score
               (Parser.find_hidden_score (Parser.all_text sc)) ]
           ++ odds_slots row
           ++ [ PyStr (stamp (Driver.now inp));
                PyStr (lit "Active - "
                       ++ PyStr.of_nat (length (Parser.odds sc))
                       ++ lit " odds found") ].
Proof.
  intros Hstep sc.
  apply process_forwarded in Hstep as (Hrow & _ & Hteams). fold sc in Hteams.
  apply create_flexible_row_ok in Hrow
    as (d & items & ti & ht & ft & n & Hd & Hitems & Hti & Hht & Hft & Hn & ->).
  rewrite extracted_odds in Hd. injection Hd as <-.
  rewrite extracted_ht_score in Hht. injection Hht as <-.
  rewrite extracted_ft_score in Hft. injection Hft as <-.
  simpl in Hitems, Hn. injection Hitems as <-. injection Hn as <-.
  unfold Parser.resolve_teams_info, Py.getitem in Hti.
  rewrite extracted_teams in Hti. simpl in Hti. fold sc in Hti.
  rewrite Hteams in Hti. injection Hti as <-.
  rewrite odds_slots_of_row by apply firstn_pad_length.
  fold sc. unfold Py.or_else. rewrite resolve_ft_score_truthy. simpl Py.truthy.
  cbv iota. split; [|done].
  by rewrite length_map, firstn_pad_length.
Qed.

(** The header row that [ensure_headers] writes has 17 labels. *)
Lemma headers_length : length Driver.headers = 17.
Proof. reflexivity. Qed.

(** C4 (code defect).  The header row that the core writes has the 17
    positions of the claim, with "Timestamp" and "Status" in positions
    16 and 17, as the comment [# P-Q: Metadata] of [create_flexible_row]
    says.  Every data row the core forwards has 20 positions: the
    fifteen odds slots run through positions 4 to 18, so the last three
    of them stand under the labels "Timestamp" and "Status" and beyond
    the header, and the capture timestamp and the status note come in
    positions 19 and 20, which have no label. *)
Theorem forwarded_row_overruns_header st inp st' row ok :
  Driver.process st inp = (st', Driver.Forwarded row ok) ->
  length Driver.headers = 17
  /\ Driver.headers !! 15 = Some (PyStr "Timestamp")
  /\ Driver.headers !! 16 = Some (PyStr "Status")
  /\ length row = 20
  /\ length (odds_slots row) = 15
  /\ row !! 15 = odds_slots row !! 12
  /\ row !! 16 = odds_slots row !! 13
  /\ row !! 17 = odds_slots row !! 14
  /\ row !! 18 = Some (PyStr (stamp (Driver.now inp)))
  /\ (exists note, row !! 19 = Some (PyStr note)).
Proof.
  intros Hstep. apply forwarded_row_layout in Hstep as [Hlen Hrow].
  split; [reflexivity|]. split; [reflexivity|]. split; [reflexivity|].
  destruct (odds_slots row)
    as [|s0 [|s1 [|s2 [|s3 [|s4 [|s5 [|s6 [|s7 [|s8 [|s9 [|s10 [|s11
        [|s12 [|s13 [|s14 [|s15 slots]]]]]]]]]]]]]]]] eqn:Hslots;
    try discriminate Hlen.
  rewrite Hrow. cbn [app lookup list_lookup].
  split; [reflexivity|]. split; [reflexivity|].
  repeat (split; [reflexivity|]). by eexists.
Qed.

(** The capture [Examples.derby] on a fresh sheet: the sheet then holds
    the separator row, the 17 labels and a row of 20 cells whose cell
    under "Timestamp" is the odds slot "0" and whose timestamp stands
    in position 19. *)
Lemma forwarded_row_overruns_header_witness :
  let step := Driver.process Examples.fresh
                (Driver.Input Examples.derby Examples.noon true) in
  Driver.worksheet (Driver.sheets (fst step))
  = Some [ [ PyStr "=== FLEXIBLE TURKISH PARSER ===";
             PyStr (stamp Examples.noon) ];
           Driver.headers; Examples.derby_row ]
  /\ length Examples.derby_row = 20
  /\ Driver.headers !! 15 = Some (PyStr "Timestamp")
  /\ Examples.derby_row !! 15 = Some (PyStr "0")
  /\ Examples.derby_row !! 18 = Some (PyStr (stamp Examples.noon)).
Proof.
  intros step.
  assert (Hstep : step = (fst step, Driver.Forwarded Examples.derby_row true))
    by (vm_compute; reflexivity).
  destruct (forwarded_row_overruns_header _ _ _ _ _ Hstep)
    as (_ & Hts & _ & H20 & _ & _ & _ & _ & Hstamp & _).
  split; [vm_compute; reflexivity|]. split; [exact H20|].
  split; [exact Hts|]. split; [vm_compute; reflexivity|exact Hstamp].
Defined.

(** C1 (code defect).  For a capture without team candidates a step
    never forwards a record.  With fewer than three odds it reports that
    nothing meaningful was found.  With three or more,
    [create_flexible_row] looks up [data['categories']], a key that
    [extract_all_data] never sets, and raises [KeyError] before the
    placeholder is built: the step reports a processing error and the
    state is unchanged. *)
Theorem no_candidates_no_placeholder_row st inp :
  Driver.texts inp <> [] ->
  Parser.team_candidates (Parser.scan_lines (ocr_lines inp)) = [] ->
  let n := length (Parser.odds (Parser.scan_lines (ocr_lines inp))) in
  (n < 3 -> Driver.process st inp = (st, Driver.NoMeaningfulData))
  /\ (3 <= n ->
      Driver.process st inp
      = (st, Driver.ProcessingError (KeyError "categories"))).
Proof.
  intros Htexts Hcands n. unfold Driver.process.
  rewrite process_try_unfold by done. rewrite Hcands. fold n.
  cbn [teams_value Py.truthy orb]. split; intros Hn.
  - apply Nat.leb_gt in Hn. by rewrite Hn.
  - apply Nat.leb_le in Hn. rewrite Hn.
    unfold Parser.create_flexible_row, Parser.resolve_teams_info, Py.getitem.
    rewrite extracted_odds, extracted_teams, extracted_categories, Hcands.
    reflexivity.
Qed.

Lemma no_candidates_no_placeholder_row_witness :
  Driver.process Examples.fresh
    (Driver.Input Examples.three_odds Examples.noon true)
  = (Examples.fresh, Driver.ProcessingError (KeyError "categories")).
Proof.
  refine (proj2 (no_candidates_no_placeholder_row Examples.fresh
                   (Driver.Input Examples.three_odds Examples.noon true) _ _) _).
  - discriminate.
  - vm_compute. reflexivity.
  - vm_compute. lia.
Defined.

(** With two odds and no team candidate nothing is forwarded either. *)
Lemma two_odds_not_forwarded :
  Driver.process Examples.fresh
    (Driver.Input Examples.two_odds Examples.noon true)
  = (Examples.fresh, Driver.NoMeaningfulData).
Proof. vm_compute. reflexivity. Qed.


Section Seen.
Import Driver.

(** The seen-set is written, never read: what a step reports, and what
    it leaves in the sheet, do not depend on it. *)
Lemma process_ignores_processed_matches seen seen' m inp :
  snd (process (State seen m) inp) = snd (process (State seen' m) inp)
  /\ sheets (fst (process (State seen m) inp))
     = sheets (fst (process (State seen' m) inp)).
Proof.
  unfold process. destruct (texts inp) as [|t ts] eqn:Htexts.
  { unfold process_try. by rewrite Htexts. }
  rewrite !process_try_unfold by (rewrite Htexts; done).
  cbn [sheets processed_matches].
  destruct (_ || _); [|done].
  destruct (Parser.create_flexible_row _ _) as [row|e]; [|done].
  cbn [mbind result_bind].
  destruct (3 <=? _); [|done].
  by destruct (write_data _ _ _ _) as [[] m'].
Qed.

End Seen.

(** C3 (code defect).  The capture [Examples.derby], processed twice
    within the same clock second: the first step forwards its row and
    records the fingerprint; the second step finds the same fingerprint
    in the seen-set and forwards the row again, so that the sheet holds
    it twice. *)
Theorem seen_fingerprint_is_forwarded_again :
  let inp := Driver.Input Examples.derby Examples.noon true in
  let first := Driver.process Examples.fresh inp in
  let second := Driver.process (fst first) inp in
  let id := lit "Fenerbahce - Galatasaray_1-0_1,853,204,10_120000" in
  Driver.fingerprint inp = Some id
  /\ snd first = Driver.Forwarded Examples.derby_row true
  /\ (id ∈ Driver.processed_matches (fst first))
  /\ snd second = Driver.Forwarded Examples.derby_row true
  /\ Driver.worksheet (Driver.sheets (fst second))
     = Some [ [ PyStr "=== FLEXIBLE TURKISH PARSER ===";
                PyStr (stamp Examples.noon) ];
              Driver.headers; Examples.derby_row; Examples.derby_row ].
Proof.
  intros inp first second id. split; [|split; [|split; [|split]]].
  - vm_compute. reflexivity.
  - vm_compute. reflexivity.
  - apply (bool_decide_unpack _). vm_compute. exact I.
  - vm_compute. reflexivity.
  - vm_compute. reflexivity.
Qed.

(** C5 (code defect).  The capture [Examples.low_odds]: the lines "0,50",
    "00,00" and "1,00" are collected as odds and written into the
    forwarded row as "0.50", "00.00" and "1.00", although the odds rule
    [is_odds_value] rejects each of them (their values 0.50, 0.00 and
    1.00 lie below 1.01). *)
Theorem out_of_range_odds_are_collected :
  let inp := Driver.Input Examples.low_odds Examples.noon true in
  let sc := Parser.scan_lines (ocr_lines inp) in
  Parser.odds sc = [lit "0,50"; lit "00,00"; lit "1,00"]
  /\ map Parser.is_odds_value (Parser.odds sc) = [false; false; false]
  /\ map Parser.hundredths (Parser.odds sc) = [50%N; 0%N; 100%N]
  /\ match snd (Driver.process Examples.fresh inp) with
     | Driver.Forwarded row true =>
         firstn 3 (odds_slots row)
         = [PyStr "0.50"; PyStr "00.00"; PyStr "1.00"]
     | _ => False
     end.
Proof.
  intros inp sc. split; [|split; [|split]]; vm_compute; reflexivity.
Qed.

Section InlineFilter.
Import PyStr Re Parser.




End InlineFilter.



(** The two rules differ in the other direction as well: "Everton" is a
    team by the team rule and is dropped by the inline filter, since it
    contains "EV". *)
Lemma team_rule_not_inline_filter :
  Parser.is_team_match (lit "Everton") = true
  /\ Parser.inline_team_filter (lit "Everton") = false.
Proof. vm_compute. split; reflexivity. Qed.

(** The label "İlk Yarı" is no candidate: its upper-case form contains
    "YARI". *)
Lemma half_time_label_is_no_candidate :
  Parser.team_candidates (Parser.scan_lines Examples.half_time_label) = [].
Proof. vm_compute. reflexivity. Qed.

Section Matching.
Import PyStr Re.

Lemma backtrack_some lo rest k r :
  backtrack lo rest k = Some r ->
  exists j m, j <= k /\ lo <= j /\ rest j = Some m.
Proof.
  induction k as [|k IH]; cbn [backtrack].
  - destruct (Nat.ltb_spec 0 lo) as [Hlt|Hge]; [done|].
    destruct (rest 0) as [m|] eqn:E; [|done].
    intros _. exists 0, m. split; [lia|split; [lia|done]].
  - destruct (Nat.ltb_spec (S k) lo) as [Hlt|Hge]; [done|].
    destruct (rest (S k)) as [m|] eqn:E.
    + intros _. exists (S k), m. split; [lia|split; [lia|done]].
    + intros H. apply IH in H as (j & m & Hj & Hlo & Hm).
      exists j, m. split; [lia|split; [lia|done]].
Qed.

Lemma span_prefix p s j :
  j <= span p None s -> forallb p (firstn j s) = true.
Proof.
  revert j. induction s as [|c s IH]; intros j Hj; simpl in *.
  - by destruct j.
  - destruct j as [|j]; [done|]. simpl.
    destruct (p c); [|lia]. simpl. apply IH. lia.
Qed.

(** A match of [^[class]+$] means every character is in the class,
    but for a final newline. *)
Lemma plus_class_match p s :
  matches (Regex true [plus p] true) s = true ->
  exists j, forallb p (firstn j s) = true /\ at_end (skipn j s) = true.
Proof.
  unfold matches, re_match. simpl.
  destruct (backtrack 1 _ _) as [r|] eqn:Hb; [|done]. intros _.
  apply backtrack_some in Hb as (j & m & Hj & _ & Hend).
  exists j. split; [by apply span_prefix|].
  by destruct (at_end (skipn j s)).
Qed.

Lemma at_end_chars s c :
  at_end s = true -> In c s -> c = ch "010".
Proof.
  destruct s as [|a [|b s]]; simpl; [done| |done].
  intros Ha [->|[]]. by apply char_eqb_eq.
Qed.

End Matching.

Section TeamRule.
Import PyStr Re Parser.

Lemma alpha_not_digits_punct c :
  isalpha c = true -> digits_punct_class c = false.
Proof.
  intros Ha. unfold digits_punct_class.
  rewrite (alpha_not_decimal c Ha), (alpha_not_space c Ha), orb_false_r.
  cbn [orb]. destruct (set "-:.,%" c) eqn:Hs; [|done].
  apply set_In in Hs. char_cases Hs; vm_compute in Ha; discriminate Ha.
Qed.

Lemma digits_punct_all s :
  matches digits_punct s = true -> forallb digits_punct_class s = true.
Proof.
  intros Hm. apply plus_class_match in Hm as (j & Hhead & Hend).
  rewrite <- (firstn_skipn j s), forallb_app, Hhead. simpl.
  apply forallb_forall. intros c Hc.
  by rewrite (at_end_chars _ _ Hend Hc).
Qed.

Lemma alpha_line_not_digits_punct s c :
  In c s -> isalpha c = true -> matches digits_punct s = false.
Proof.
  intros Hin Halpha. destruct (matches digits_punct s) eqn:Hm; [|done].
  apply digits_punct_all in Hm.
  rewrite forallb_forall in Hm. specialize (Hm c Hin).
  by rewrite (alpha_not_digits_punct c Halpha) in Hm.
Qed.

(** The words of a string are its non-whitespace characters. *)
Lemma split_go_concat cur s :
  concat (split_go cur s)
  = cur ++ List.filter (fun c => negb (isspace c)) s.
Proof.
  revert cur. induction s as [|c s IH]; intros cur; simpl.
  - destruct cur; simpl; by rewrite ?app_nil_r.
  - destruct (isspace c); simpl.
    + destruct cur; simpl; by rewrite IH.
    + rewrite IH. by rewrite <- app_assoc.
Qed.

Lemma single_word s word :
  split s = [word] -> word = List.filter (fun c => negb (isspace c)) s.
Proof.
  intros Hs. pose proof (split_go_concat [] s) as Hc.
  fold (split s) in Hc. rewrite Hs in Hc. simpl in Hc.
  by rewrite app_nil_r in Hc.
Qed.

Lemma common_words_length x :
  mem x common_words = true -> length x = 1.
Proof.
  unfold mem, common_words. rewrite existsb_exists.
  intros (w & Hin & Heq). apply bool_decide_eq_true in Heq as ->.
  simpl in Hin. repeat (destruct Hin as [<-|Hin]; [done|]). done.
Qed.

Lemma count_positive p s : 0 < count p s -> exists c, In c s /\ p c = true.
Proof.
  unfold count. destruct (List.filter p s) as [|c l] eqn:E; simpl; [lia|].
  intros _. exists c. apply filter_In. rewrite E. by left.
Qed.

End TeamRule.

(** C8, as the code has it.  For a line that is a single word: if the
    word has at least 4 characters, at least 70% of them alphabetic, and
    the line contains none of the denylisted terms (both in upper case),
    the team rule accepts it; if the word has fewer than 4 characters or
    under 70% of alphabetic characters, the team rule rejects it. *)
Theorem single_word_team_rule line word :
  PyStr.split (PyStr.strip line) = [word] ->
  (4 <= length word ->
   7 * length word <= 10 * PyStr.count PyStr.isalpha word ->
   Parser.has_skip_term (PyStr.strip line) = false ->
   Parser.is_team_match line = true)
  /\ (length word < 4 \/ 10 * PyStr.count PyStr.isalpha word < 7 * length word ->
      Parser.is_team_match line = false).
Proof.
  intros Hsplit. unfold Parser.is_team_match. split.
  - intros Hlen Hratio Hskip.
    pose proof (single_word _ _ Hsplit) as Hword.
    assert (Hle : length word <= length (PyStr.strip line))
      by (rewrite Hword; apply filter_length_le).
    destruct (count_positive PyStr.isalpha word) as (c & Hc & Halpha); [lia|].
    assert (Hin : In c (PyStr.strip line))
      by (rewrite Hword in Hc; by apply filter_In in Hc as [? _]).
    assert (H3 : (length (PyStr.strip line) <? 3) = false)
      by (apply Nat.ltb_ge; lia).
    rewrite H3, (alpha_line_not_digits_punct _ c Hin Halpha), Hskip.
    assert (Hany : existsb PyStr.isalpha (PyStr.strip line) = true)
      by (apply existsb_exists; by exists c).
    rewrite Hany. cbn [negb].
    destruct (PyStr.mem (PyStr.upper (PyStr.strip line)) Parser.common_words)
      eqn:Hcommon.
    { apply common_words_length in Hcommon.
      pose proof (upper_length (PyStr.strip line)). lia. }
    rewrite Hsplit. unfold Parser.team_words.
    apply Nat.leb_le in Hlen. rewrite Hlen. by apply Nat.leb_le.
  - intros Hbad. rewrite Hsplit. unfold Parser.team_words.
    assert (Hinner : (if 4 <=? length word
                      then 7 * length word <=? 10 * PyStr.count PyStr.isalpha word
                      else false) = false).
    { destruct (Nat.leb_spec 4 (length word)) as [H4|H4]; [|done].
      apply Nat.leb_gt. lia. }
    rewrite Hinner. by repeat case_match.
Qed.

Lemma single_word_team_rule_witness :
  Parser.is_team_match (lit "Beşiktaş") = true
  /\ Parser.is_team_match (lit "ab12") = false.
Proof.
  split.
  - refine (proj1 (single_word_team_rule (lit "Beşiktaş") (lit "Beşiktaş") _)
                  _ _ _).
    + vm_compute. reflexivity.
    + vm_compute. lia.
    + vm_compute. lia.
    + vm_compute. reflexivity.
  - refine (proj2 (single_word_team_rule (lit "ab12") (lit "ab12") _) _).
    + vm_compute. reflexivity.
    + right. vm_compute. lia.
Defined.

(** C8, as the claim states it, fails: "Detay" is a single word of five
    characters, all alphabetic, and the team rule rejects it, since it is
    on the denylist. *)
Lemma denylisted_word_is_rejected :
  PyStr.split (PyStr.strip (lit "Detay")) = [lit "Detay"]
  /\ 4 <= length (lit "Detay")
  /\ 7 * length (lit "Detay") <= 10 * PyStr.count PyStr.isalpha (lit "Detay")
  /\ Parser.is_team_match (lit "Detay") = false.
Proof.
  split; [|split; [|split]]; vm_compute; try reflexivity; lia.
Qed.

(** The denylist is compared in upper case, which folds the dotless i:
    "Anlatım" contains the term "Anlatim" and is rejected. *)
Lemma dotless_i_is_folded :
  PyStr.upper (lit "Anlatım") = lit "ANLATIM"
  /\ Parser.has_skip_term (lit "Anlatım") = true
  /\ Parser.is_team_match (lit "Anlatım") = false.
Proof. split; [|split]; vm_compute; reflexivity. Qed.

Section Cleaning.
Import PyStr Re Parser.

Lemma ws_run_match s :
  re_match ws_run s
  = match span isspace None s with 0 => None | S n => Some (S (n + 0)) end.
Proof.
  unfold re_match. cbn [atoms eol ws_run match_here plus lo cls hi].
  destruct (span isspace None s) as [|n]; cbn [backtrack Nat.ltb Nat.leb]; done.
Qed.

Lemma sub_go_squeeze s :
  sub_go ws_run " " 0 s = squeeze false s
  /\ sub_go ws_run " " (span isspace None s) s = squeeze true s.
Proof.
  induction s as [|c s [IH0 IHrun]]; [done|].
  cbn [sub_go squeeze]. rewrite ws_run_match. cbn [span].
  destruct (isspace c).
  - rewrite Nat.add_0_r, IHrun. done.
  - by rewrite IH0.
Qed.

Lemma clean_text_squeeze text : clean_text text = squeeze false (strip text).
Proof. unfold clean_text, re_sub. apply sub_go_squeeze. Qed.

Lemma ends_nonspace_cons c s :
  ends_nonspace (c :: s) = true ->
  (s = [] /\ isspace c = false) \/ (s <> [] /\ ends_nonspace s = true).
Proof.
  destruct s as [|d s]; simpl.
  - intros H. left. split; [done|]. by apply negb_true_iff.
  - intros H. right. done.
Qed.

Lemma squeeze_tidy s :
  ends_nonspace s = true ->
  tidy_from (squeeze false s) = true
  /\ (s <> [] ->
      starts_nonspace (squeeze true s) = true
      /\ tidy_from (squeeze true s) = true).
Proof.
  induction s as [|c s IH]; [done|].
  intros [[-> Hc]|[Hne Hends]]%ends_nonspace_cons.
  - simpl. rewrite Hc. simpl. by rewrite Hc.
  - destruct (IH Hends) as [IH0 IHrun]. destruct (IHrun Hne) as [Hstart Htidy].
    simpl. destruct (isspace c) eqn:Hc.
    + split; [|done]. simpl. rewrite Htidy.
      destruct (squeeze true s) as [|d t]; [done|].
      simpl in Hstart. by rewrite Hstart.
    + split; [|intros _]; simpl; rewrite Hc, IH0; by rewrite ?Hc.
Qed.

Lemma lstrip_starts s : lstrip s = [] \/ starts_nonspace (lstrip s) = true.
Proof.
  induction s as [|c s IH]; simpl; [by left|].
  destruct (isspace c) eqn:Hc; [done|]. right. simpl. by rewrite Hc.
Qed.

Lemma lstrip_suffix s :
  exists w, s = w ++ lstrip s /\ forallb isspace w = true.
Proof.
  induction s as [|c s (w & Hs & Hw)]; simpl.
  - by exists [].
  - destruct (isspace c) eqn:Hc.
    + exists (c :: w). simpl. rewrite Hc, Hw. split; [by f_equal|done].
    + by exists [].
Qed.

Lemma ends_nonspace_snoc s c : ends_nonspace (s ++ [c]) = negb (isspace c).
Proof.
  induction s as [|d s IH]; [done|].
  simpl. destruct (s ++ [c]) eqn:E; [by destruct s|done].
Qed.

Lemma rstrip_ends s : ends_nonspace (rstrip s) = true.
Proof.
  unfold rstrip. destruct (lstrip_starts (rev s)) as [->|Hstart]; [done|].
  destruct (lstrip (rev s)) as [|c t]; [done|].
  simpl in *. by rewrite ends_nonspace_snoc.
Qed.

Lemma starts_nonspace_app s t :
  starts_nonspace s = true -> starts_nonspace (s ++ t) = true.
Proof. by destruct s. Qed.

Lemma rstrip_starts s :
  starts_nonspace s = true -> starts_nonspace (rstrip s) = true.
Proof.
  intros Hstart. unfold rstrip.
  destruct (lstrip_suffix (rev s)) as (w & Hs & Hw).
  destruct (lstrip (rev s)) as [|c t] eqn:Hl.
  - (* every character of [s] is whitespace *)
    rewrite app_nil_r in Hs. assert (Hrev : s = rev w)
      by (rewrite <- Hs; symmetry; apply rev_involutive).
    destruct s as [|d s]; [done|]. simpl in Hstart.
    assert (Hd : isspace d = true).
    { rewrite forallb_forall in Hw. apply Hw, in_rev.
      rewrite <- Hrev. by left. }
    by rewrite Hd in Hstart.
  - assert (Hrev : s = rev (c :: t) ++ rev w).
    { rewrite <- rev_app_distr, <- Hs. symmetry. apply rev_involutive. }
    destruct (rev (c :: t)) as [|e u] eqn:He.
    { by apply (f_equal (@length _)) in He; rewrite length_rev in He. }
    rewrite Hrev in Hstart. done.
Qed.

(** A cleaned line is tidy. *)
Lemma clean_text_tidy text : tidy (clean_text text) = true.
Proof.
  rewrite clean_text_squeeze. unfold strip.
  pose proof (rstrip_ends (lstrip text)) as Hends.
  destruct (squeeze_tidy _ Hends) as [Htidy _].
  destruct (lstrip_starts text) as [Hempty|Hstart].
  - rewrite Hempty. done.
  - apply rstrip_starts in Hstart.
    destruct (rstrip (lstrip text)) as [|c s]; [done|].
    simpl in Hstart. apply negb_true_iff in Hstart.
    simpl in Htidy |- *. rewrite Hstart in Htidy |- *.
    simpl in Htidy |- *. rewrite Hstart in Htidy |- *. done.
Qed.

Lemma tidy_from_ends s : tidy_from s = true -> ends_nonspace s = true.
Proof.
  induction s as [|c s IH]; [done|].
  simpl. intros [Hc Hs]%andb_true_iff.
  destruct s as [|d s]; [|by apply IH].
  destruct (isspace c); [|done]. by rewrite andb_false_r in Hc.
Qed.

Lemma squeeze_fixed s :
  tidy_from s = true ->
  squeeze false s = s
  /\ (starts_nonspace s = true -> squeeze true s = s).
Proof.
  induction s as [|c s IH]; [done|].
  simpl. intros [Hc Hs]%andb_true_iff. destruct (IH Hs) as [IH0 IHrun].
  destruct (isspace c) eqn:Hspace.
  - apply andb_true_iff in Hc as [Heq Hnext]. apply char_eqb_eq in Heq as ->.
    split; [|done]. f_equal. apply IHrun. by destruct s.
  - rewrite IH0. done.
Qed.

Lemma strip_fixed s : tidy s = true -> strip s = s.
Proof.
  destruct s as [|c s]; [done|].
  unfold tidy. intros [Hstart Htidy]%andb_true_iff.
  unfold strip. simpl in Hstart. apply negb_true_iff in Hstart.
  assert (Hl : lstrip (c :: s) = c :: s) by (simpl; by rewrite Hstart).
  rewrite Hl. unfold rstrip.
  apply tidy_from_ends in Htidy.
  destruct (c :: s) as [|d t _] using rev_ind; [done|].
  rewrite ends_nonspace_snoc in Htidy. apply negb_true_iff in Htidy.
  rewrite rev_app_distr. simpl. rewrite Htidy. simpl.
  by rewrite rev_involutive.
Qed.

(** Cleaning a cleaned line changes nothing. *)
Lemma clean_text_idempotent text : clean_text (clean_text text) = clean_text text.
Proof.
  pose proof (clean_text_tidy text) as Htidy.
  rewrite (clean_text_squeeze (clean_text text)), (strip_fixed _ Htidy).
  destruct (clean_text text) as [|c s]; [done|].
  apply andb_true_iff in Htidy as [_ Htidy]. by apply squeeze_fixed.
Qed.

End Cleaning.

Section Recovery.
Import PyStr Re Py Parser.

Lemma try_patterns_none patterns line :
  forallb (fun pattern => negb (found pattern line)) patterns = true ->
  try_patterns patterns line = None.
Proof.
  induction patterns as [|pattern rest IH]; simpl; [done|].
  intros [Hp Hrest]%andb_true_iff.
  apply negb_true_iff in Hp. rewrite Hp. by apply IH.
Qed.

Lemma not_score_like line :
  score_like line = false ->
  try_patterns potential_scores (clean_text line) = None.
Proof.
  unfold score_like. intros H. apply try_patterns_none.
  apply forallb_forall. intros pattern Hin. apply negb_true_iff.
  destruct (found pattern (clean_text line)) eqn:Hf; [|done].
  assert (existsb (fun p => found p (clean_text line)) potential_scores = true)
    by (apply existsb_exists; by exists pattern).
  congruence.
Qed.

Lemma find_hidden_score_none lines :
  Forall (fun line => score_like line = false) lines ->
  find_hidden_score lines = None.
Proof.
  induction 1 as [|line lines Hline _ IH]; cbn [find_hidden_score]; [done|].
  by rewrite (not_score_like line Hline).
Qed.

Lemma score_like_clean line : score_like (clean_text line) = score_like line.
Proof. unfold score_like. by rewrite clean_text_idempotent. Qed.

Lemma cleaned_not_score_like lines :
  Forall (fun line => score_like line = false) lines ->
  Forall (fun line => score_like line = false) (cleaned_lines lines).
Proof.
  intros Hlines. apply List.Forall_forall. intros line Hin.
  unfold cleaned_lines in Hin. apply filter_In in Hin as [Hin _].
  apply in_map_iff in Hin as (raw & <- & Hraw).
  rewrite score_like_clean.
  by apply (proj1 (List.Forall_forall _ _) Hlines).
Qed.

End Recovery.

(** C7.  Hidden-score recovery maps the line "I-O" to "1-0" and the
    line "2 - l" to "2-1"; for a capture none of whose lines is
    score-like, recovery returns nothing, on the lines as they come and
    on the cleaned lines the assembler passes, and the full-time score
    of the assembled record is the default "0-0". *)
Theorem hidden_score_recovery :
  Parser.find_hidden_score [lit "I-O"] = Some (lit "1-0")
  /\ Parser.find_hidden_score [lit "2 - l"] = Some (lit "2-1")
  /\ forall lines,
       Forall (fun line => score_like line = false) lines ->
       Parser.find_hidden_score lines = None
       /\ Parser.find_hidden_score (cleaned_lines lines) = None
       /\ Parser.extract_all_data lines !! "ft_score" = Some (PyStr "0-0").
Proof.
  split; [vm_compute; reflexivity|]. split; [vm_compute; reflexivity|].
  intros lines Hlines.
  pose proof (find_hidden_score_none _ (cleaned_not_score_like _ Hlines))
    as Hnone.
  split; [by apply find_hidden_score_none|]. split; [done|].
  rewrite extracted_ft_score, scan_all_text, Hnone. reflexivity.
Qed.

(** The separator may be any character of the separator class, also in
    its other case, and the digit three any character of its class. *)
Lemma separator_variants_are_recovered :
  Parser.find_hidden_score [lit "IàO"] = Some (lit "1-0")
  /\ Parser.find_hidden_score [lit "2 Ä l"] = Some (lit "2-1")
  /\ Parser.find_hidden_score [lit "I ä O"] = None
  /\ Parser.find_hidden_score [lit "∆-0"] = None.
Proof. repeat split; vm_compute; reflexivity. Qed.

Lemma hidden_score_recovery_witness :
  Parser.extract_all_data Examples.three_odds !! "ft_score"
  = Some (PyStr "0-0").
Proof.
  refine (proj2 (proj2 (proj2 (proj2 hidden_score_recovery)
                          Examples.three_odds _))).
  unfold Examples.three_odds.
  repeat (apply List.Forall_cons; [vm_compute; reflexivity|]).
  apply List.Forall_nil.
Defined.

Section Dedup.
Import Sheets.

(** The loop of [remove_duplicates], in closed form. *)
Lemma dedup_fold rows st :
  rows_to_keep (fold_left dedup_row rows st)
  = rows_to_keep st ++ kept_from (seen_matches st) rows
  /\ duplicates_removed (fold_left dedup_row rows st)
     = duplicates_removed st + duplicates_from (seen_matches st) rows.
Proof.
  revert st. induction rows as [|row rows IH]; intros st; simpl.
  - by rewrite app_nil_r, Nat.add_0_r.
  - destruct (IH (dedup_row st row)) as [-> ->]. unfold dedup_row.
    destruct (match_key row) as [key|]; [|done].
    destruct (decide (key ∈ seen_matches st)); simpl.
    + split; [done|lia].
    + by rewrite <- app_assoc.
Qed.

Lemma fresh_after_insert (key key' : str) (seen : gset str) :
  key' ∉ {[key]} ∪ seen -> key' <> key /\ key' ∉ seen.
Proof.
  intros Hout. split.
  - intros ->. by apply Hout, elem_of_union_l, elem_of_singleton.
  - intros Hin. by apply Hout, elem_of_union_r.
Qed.

Lemma fresh_insert (key key' : str) (seen : gset str) :
  key' <> key -> key' ∉ seen -> key' ∉ {[key]} ∪ seen.
Proof.
  intros Hne Hout [Hin|Hin]%elem_of_union; [|done].
  by apply elem_of_singleton in Hin.
Qed.

Lemma kept_keys seen rows :
  NoDup (omap match_key (kept_from seen rows))
  /\ (forall key, key ∈ omap match_key (kept_from seen rows) -> key ∉ seen)
  /\ Forall (fun row => is_Some (match_key row)) (kept_from seen rows).
Proof.
  revert seen. induction rows as [|row rows IH]; intros seen; simpl.
  - split; [constructor|]. split; [|constructor].
    intros key Hkey. by apply elem_of_nil in Hkey.
  - destruct (match_key row) as [key|] eqn:Hkey; [|apply IH].
    destruct (decide (key ∈ seen)) as [Hin|Hout]; [apply IH|].
    destruct (IH ({[key]} ∪ seen)) as (Hnodup & Hfresh & Hall).
    simpl. rewrite Hkey. split; [|split].
    + constructor; [|done]. intros Hk.
      by apply Hfresh, fresh_after_insert in Hk as [? _].
    + intros key' [->|Hk]%elem_of_cons; [done|].
      by apply Hfresh, fresh_after_insert in Hk as [_ ?].
    + constructor; [by rewrite Hkey|done].
Qed.

Lemma distinct_rows_are_kept seen rows :
  Forall (fun row => is_Some (match_key row)) rows ->
  NoDup (omap match_key rows) ->
  (forall key, key ∈ omap match_key rows -> key ∉ seen) ->
  kept_from seen rows = rows /\ duplicates_from seen rows = 0.
Proof.
  revert seen. induction rows as [|row rows IH]; intros seen Hall Hnodup Hfresh.
  - done.
  - apply Forall_cons in Hall as [[key Hkey] Hall].
    simpl in *. rewrite Hkey in *.
    apply NoDup_cons in Hnodup as [Hnew Hnodup].
    destruct (decide (key ∈ seen)) as [Hin|Hout].
    { exfalso. apply (Hfresh key); [by left|done]. }
    destruct (IH ({[key]} ∪ seen) Hall Hnodup) as [-> ->]; [|done].
    intros key' Hk. apply fresh_insert.
    * intros ->. done.
    * apply Hfresh. by right.
Qed.

Lemma no_duplicates_counted seen rows :
  duplicates_from seen rows = 0 ->
  NoDup (omap match_key rows)
  /\ (forall key, key ∈ omap match_key rows -> key ∉ seen).
Proof.
  revert seen. induction rows as [|row rows IH]; intros seen Hzero; simpl in *.
  - split; [constructor|]. intros key Hkey. by apply elem_of_nil in Hkey.
  - destruct (match_key row) as [key|] eqn:Hkey; [|by apply IH].
    destruct (decide (key ∈ seen)) as [Hin|Hout]; [done|].
    destruct (IH _ Hzero) as [Hnodup Hfresh]. split.
    + constructor; [|done]. intros Hk.
      by apply Hfresh, fresh_after_insert in Hk as [? _].
    + intros key' [->|Hk]%elem_of_cons; [done|].
      by apply Hfresh, fresh_after_insert in Hk as [_ ?].
Qed.

(** The row kept for a fingerprint is the first row that has it. *)
Lemma first_kept seen rows key :
  key ∉ seen ->
  first_with_key key (kept_from seen rows) = first_with_key key rows.
Proof.
  revert seen. induction rows as [|row rows IH]; intros seen Hout; simpl.
  - done.
  - destruct (match_key row) as [key'|] eqn:Hkey.
    + destruct (decide (key' ∈ seen)) as [Hin|Hout'].
      * rewrite bool_decide_eq_false_2 by (intros [= ->]; done).
        by apply IH.
      * simpl. rewrite Hkey.
        destruct (decide (key' = key)) as [->|Hne].
        -- by rewrite bool_decide_eq_true_2.
        -- rewrite bool_decide_eq_false_2 by congruence.
           apply IH. by apply fresh_insert.
    + rewrite bool_decide_eq_false_2 by done. by apply IH.
Qed.

End Dedup.

(** C9.  The cleanup pass is idempotent: a second run on the sheet that
    the first run leaves counts no duplicate, removes no row and leaves
    the sheet, hence its row count, as it is.  After a run the rows below
    the header have pairwise distinct fingerprints, and the row found
    for a fingerprint is the first row that had it before the run. *)
Theorem remove_duplicates_idempotent (all_values : list (list str)) :
  exists cleaned removed,
    Sheets.remove_duplicates (Some all_values) = Ok (Some cleaned, removed)
    /\ Sheets.remove_duplicates (Some cleaned) = Ok (Some cleaned, 0)
    /\ NoDup (omap Sheets.match_key (tail cleaned))
    /\ forall key,
         first_with_key key (tail cleaned)
         = first_with_key key (tail all_values).
Proof.
  destruct all_values as [|header [|row rest]].
  - exists [], 0. simpl. repeat split; constructor.
  - exists [header], 0. simpl. repeat split; constructor.
  - set (rows := row :: rest).
    unfold Sheets.remove_duplicates at 1.
    destruct (dedup_fold rows (Sheets.Dedup ∅ [header] 0)) as [Hkeep Hdups].
    cbn [Sheets.rows_to_keep Sheets.seen_matches Sheets.duplicates_removed]
      in Hkeep, Hdups.
    fold rows. rewrite Hkeep, Hdups. cbn [Nat.add app].
    destruct (kept_keys ∅ rows) as (Hnodup & _ & Hall).
    destruct (duplicates_from ∅ rows) as [|n] eqn:Hcount; cbn [Nat.ltb Nat.leb].
    + exists (header :: rows), 0. split; [done|].
      apply no_duplicates_counted in Hcount as Hdistinct.
      split; [|split; [apply Hdistinct|done]].
      unfold Sheets.remove_duplicates. fold rows.
      rewrite Hdups. done.
    + exists (header :: kept_from ∅ rows), (S n). split; [done|].
      split; [|split; [done|]].
      * destruct (kept_from ∅ rows) as [|kept_row kept] eqn:Hkept; [done|].
        unfold Sheets.remove_duplicates.
        destruct (dedup_fold (kept_row :: kept) (Sheets.Dedup ∅ [header] 0))
          as [_ Hdups2].
        cbn [Sheets.seen_matches Sheets.duplicates_removed] in Hdups2.
        rewrite Hdups2.
        destruct (distinct_rows_are_kept ∅ (kept_row :: kept) Hall Hnodup)
          as [_ ->]; [|done].
        intros key _. apply not_elem_of_empty.
      * intros key. cbn [tail]. apply first_kept, not_elem_of_empty.
Qed.

Section ShortRows.
Import Sheets.

(** On a connected sheet the pass raises nothing, whatever the rows. *)
Lemma remove_duplicates_returns all_values :
  exists r, remove_duplicates (Some all_values) = Ok r.
Proof.
  unfold remove_duplicates. destruct all_values as [|header [|row rest]];
    [by eexists|by eexists|].
  destruct (0 <? _); by eexists.
Qed.

(** A short row is no duplicate for [find_duplicate_matches]. *)
Lemma find_from_skips_short_row i row rows teams date :
  length row <= 2 ->
  find_from i (row :: rows) teams date = find_from (S i) rows teams date.
Proof.
  intros Hshort. simpl.
  destruct (Nat.ltb_spec 2 (length row)) as [Hlt|_]; [lia|done].
Qed.

End ShortRows.

(** * Further properties of the parser, the driver and the sheet manager *)

Section Soundness.
Import PyStr Re.

Lemma backtrack_result lo rest k r :
  backtrack lo rest k = Some r ->
  exists j m, j <= k /\ lo <= j /\ rest j = Some m /\ r = j + m.
Proof.
  induction k as [|k IH]; cbn [backtrack].
  - destruct (Nat.ltb_spec 0 lo) as [Hlt|Hge]; [done|].
    destruct (rest 0) as [m|] eqn:E; [|done].
    intros [= <-]. exists 0, m. repeat split; [lia|lia|done].
  - destruct (Nat.ltb_spec (S k) lo) as [Hlt|Hge]; [done|].
    destruct (rest (S k)) as [m|] eqn:E.
    + intros [= <-]. exists (S k), m. repeat split; [lia|lia|done].
    + intros H. apply IH in H as (j & m & Hj & Hlo & Hm & ->).
      exists j, m. repeat split; [lia|lia|done].
Qed.

Lemma span_bounds p limit s j :
  j <= span p limit s ->
  forallb p (firstn j s) = true
  /\ j <= length s
  /\ (forall b, limit = Some b -> j <= b).
Proof.
  revert limit j. induction s as [|c s IH]; intros limit j Hj; simpl in *.
  - assert (j = 0) as -> by lia. split; [reflexivity|split; [simpl; lia|intros; lia]].
  - destruct j as [|j]; [split; [reflexivity|split; [lia|intros; lia]]|].
    destruct (p c) eqn:Hc; [|lia].
    destruct limit as [[|n]|]; [lia| |].
    + destruct (IH (Some n) j) as (Hall & Hlen & Hlim); [lia|].
      simpl. rewrite Hc. split; [done|split; [lia|]].
      intros b [= <-]. specialize (Hlim n eq_refl). lia.
    + destruct (IH None j) as (Hall & Hlen & _); [lia|].
      simpl. rewrite Hc. split; [done|split; [lia|done]].
Qed.

Lemma firstn_plus {A} (l : list A) j m :
  firstn (j + m) l = firstn j l ++ firstn m (skipn j l).
Proof.
  revert l. induction j as [|j IH]; intros l; [done|].
  destruct l as [|x l]; simpl; [by rewrite firstn_nil|]. by rewrite IH.
Qed.

Lemma In_take {A} (x : A) n l : In x (firstn n l) -> In x l.
Proof. rewrite <- !list_elem_of_In. apply subseteq_take. Qed.

Lemma In_drop {A} (x : A) n l : In x (skipn n l) -> In x l.
Proof. rewrite <- !list_elem_of_In. apply subseteq_drop. Qed.

(** What the matcher accepts is described by the pattern. *)
Lemma match_here_sound r dollar s n :
  match_here r dollar s = Some n ->
  n <= length s
  /\ conforms r (firstn n s)
  /\ (dollar = true -> at_end (skipn n s) = true).
Proof.
  revert s n. induction r as [|a r IH]; intros s n; cbn [match_here conforms].
  - destruct dollar.
    + destruct (at_end s) eqn:Hend; [|done]. intros [= <-].
      repeat split; [lia|done].
    + intros [= <-]. repeat split; [lia|done].
  - intros (j & m & Hj & Hlo & Hrest & ->)%backtrack_result.
    apply span_bounds in Hj as (Hall & Hlen & Hhi).
    apply IH in Hrest as (Hm & Hconf & Hend).
    rewrite length_skipn in Hm.
    split; [lia|]. split.
    + exists (firstn j s), (firstn m (skipn j s)).
      rewrite length_firstn. repeat split; [apply firstn_plus|done|lia| |done].
      intros b Hb. specialize (Hhi b Hb). lia.
    + intros Hd. rewrite <- drop_drop. by apply Hend.
Qed.

Lemma search_from_some r i s res :
  search_from r i s = Some res ->
  exists k, fst res = i + k /\ k <= length s
            /\ re_match r (skipn k s) = Some (snd res).
Proof.
  revert i. induction s as [|c s IH]; intros i; cbn [search_from].
  - destruct (re_match r []) as [n|] eqn:Hm; [|done].
    intros [= <-]. exists 0. simpl. split; [lia|split; [lia|done]].
  - destruct (re_match r (c :: s)) as [n|] eqn:Hm.
    + intros [= <-]. exists 0. simpl. split; [lia|split; [lia|done]].
    + destruct (bol r); [done|].
      intros (k & Hk & Hlen & Hmatch)%IH.
      exists (S k). simpl. split; [lia|split; [lia|done]].
Qed.

(** A character that an atom needs and the string lacks: no match. *)
Lemma conforms_needs r t a :
  conforms r t -> In a r -> 1 <= lo a -> exists c, In c t /\ cls a c = true.
Proof.
  revert t. induction r as [|a' r IH]; intros t Hconf Hin Hlo; [done|].
  destruct Hconf as (u & v & -> & Hall & Hlen & _ & Hrest).
  destruct Hin as [->|Hin].
  - destruct u as [|c u]; [simpl in Hlen; lia|].
    exists c. simpl in Hall. apply andb_true_iff in Hall as [Hc _].
    split; [by left|done].
  - destruct (IH v Hrest Hin Hlo) as (c & Hc & Hcls).
    exists c. split; [apply in_or_app; by right|done].
Qed.

Lemma found_needs r s a :
  found r s = true -> In a (atoms r) -> 1 <= lo a ->
  exists c, In c s /\ cls a c = true.
Proof.
  unfold found, re_search. destruct (search_from r 0 s) as [res|] eqn:Hs; [|done].
  intros _ Hin Hlo.
  apply search_from_some in Hs as (k & _ & _ & Hm).
  apply match_here_sound in Hm as (_ & Hconf & _).
  destruct (conforms_needs _ _ a Hconf Hin Hlo) as (c & Hc & Hcls).
  exists c. split; [|done].
  by apply (In_drop _ k), (In_take _ (snd res)).
Qed.

End Soundness.

Section Shapes.
Import PyStr Re Parser.

Lemma digit_facts c :
  isdecimal c = true ->
  char_eqb c " " = false /\ char_eqb c "," = false
  /\ isspace c = false /\ isalpha c = false.
Proof.
  intros Hd. split; [|split; [|split]].
  - apply char_eqb_neq. intros ->. by vm_compute in Hd.
  - apply char_eqb_neq. intros ->. by vm_compute in Hd.
  - by apply decimal_not_space.
  - by apply decimal_not_alpha.
Qed.

Lemma set_single x c : set [x] c = true -> c = x.
Proof.
  unfold set. simpl. rewrite orb_false_r. apply char_eqb_eq.
Qed.

Lemma separator_facts c :
  set ",." c = true ->
  (c = ch "," \/ c = ch ".") /\ isdecimal c = false /\ isalpha c = false.
Proof.
  unfold set. simpl. rewrite orb_false_r.
  intros [->%char_eqb_eq| ->%char_eqb_eq]%orb_true_iff;
    (split; [auto|split; vm_compute; reflexivity]).
Qed.

(** A string that one atom of exactly one character describes. *)
Lemma conforms_one p r t :
  conforms (one p :: r) t ->
  exists c v, t = c :: v /\ p c = true /\ conforms r v.
Proof.
  intros (u & v & -> & Hall & Hlo & Hhi & Hrest). simpl in *.
  specialize (Hhi 1 eq_refl).
  destruct u as [|c [|d u]]; simpl in *; [lia| |lia].
  exists c, v. rewrite andb_true_r in Hall. done.
Qed.

Lemma conforms_star p r t :
  conforms (star p :: r) t ->
  exists u v, t = u ++ v /\ forallb p u = true /\ conforms r v.
Proof. intros (u & v & -> & Hall & _ & _ & Hrest). by exists u, v. Qed.

Lemma only_spaces_app s t :
  only_spaces (s ++ t) = only_spaces s && only_spaces t.
Proof. apply forallb_app. Qed.

Lemma only_spaces_take s n : only_spaces s = true -> only_spaces (firstn n s) = true.
Proof.
  intros H. rewrite <- (firstn_skipn n s), only_spaces_app in H.
  by apply andb_true_iff in H as [? _].
Qed.

Lemma only_spaces_drop s n : only_spaces s = true -> only_spaces (skipn n s) = true.
Proof.
  intros H. rewrite <- (firstn_skipn n s), only_spaces_app in H.
  by apply andb_true_iff in H as [_ ?].
Qed.

Lemma tidy_from_only_spaces s : tidy_from s = true -> only_spaces s = true.
Proof.
  induction s as [|c s IH]; [done|].
  simpl. intros [Hc Hs]%andb_true_iff. rewrite (IH Hs), andb_true_r.
  destruct (isspace c); [|done]. by apply andb_true_iff in Hc as [? _].
Qed.

Lemma tidy_only_spaces s : tidy s = true -> only_spaces s = true.
Proof.
  destruct s as [|c s]; [done|]. unfold tidy.
  intros [_ H]%andb_true_iff. by apply tidy_from_only_spaces.
Qed.

Lemma only_spaces_flat_map (p : cp -> bool) new s :
  only_spaces new = true -> only_spaces s = true ->
  only_spaces (flat_map (fun c => if p c then new else [c]) s) = true.
Proof.
  intros Hnew. induction s as [|c s IH]; [done|].
  simpl. intros [Hc Hs]%andb_true_iff. rewrite only_spaces_app, (IH Hs), andb_true_r.
  destruct (p c); [done|]. simpl. by rewrite Hc.
Qed.

Lemma only_spaces_replace old new s :
  only_spaces new = true -> only_spaces s = true ->
  only_spaces (replace old new s) = true.
Proof. apply (only_spaces_flat_map (fun c => char_eqb c old)). Qed.

(** Substituting for a class of single characters replaces each
    character of the class. *)
Lemma sub_one_class p repl s :
  re_sub (Regex false [one p] false) repl s
  = flat_map (fun c => if p c then repl else [c]) s.
Proof.
  unfold re_sub. induction s as [|c s IH]; [done|].
  cbn [sub_go flat_map]. unfold re_match.
  cbn [atoms eol match_here one lo cls hi span].
  destruct (p c) eqn:Hc.
  - assert (Hzero : span p (Some 0) s = 0)
      by (destruct s as [|d s]; [done|]; cbn [span]; by destruct (p d)).
    rewrite Hzero. cbn [backtrack Nat.ltb Nat.leb skipn Nat.add].
    by rewrite IH.
  - cbn [backtrack Nat.ltb Nat.leb]. by rewrite IH.
Qed.

Lemma normalize_only_spaces line :
  only_spaces line = true -> only_spaces (normalize line) = true.
Proof.
  intros H. unfold normalize, dash_re. rewrite sub_one_class.
  apply only_spaces_flat_map; [done|].
  repeat (apply only_spaces_replace; [done|]). done.
Qed.

Lemma replace_whitespace w :
  forallb isspace w = true -> only_spaces w = true -> replace " " [] w = [].
Proof.
  unfold replace. induction w as [|c w IH]; [done|].
  simpl. intros [Hc Hw]%andb_true_iff [Hs Hws]%andb_true_iff.
  rewrite Hc in Hs. simpl in Hs. rewrite Hs. simpl. by apply IH.
Qed.

Lemma replace_app old new s t :
  replace old new (s ++ t) = replace old new s ++ replace old new t.
Proof. apply flat_map_app. Qed.

Lemma replace_other old new c s :
  char_eqb c old = false -> replace old new (c :: s) = c :: replace old new s.
Proof. intros H. unfold replace. simpl. by rewrite H. Qed.

(** The substring found by [(\d\s*-\s*\d)], with its spaces removed. *)
Lemma group_canonical text m :
  only_spaces text = true ->
  re_search digit_dash_digit text = Some m ->
  canonical_score (replace " " [] (group text m)).
Proof.
  intros Hspaces Hsearch. unfold re_search in Hsearch.
  apply search_from_some in Hsearch as (k & Hk & _ & Hm).
  simpl in Hk. unfold group. rewrite Hk.
  assert (Hsub : only_spaces (firstn (snd m) (skipn k text)) = true)
    by (by apply only_spaces_take, only_spaces_drop).
  apply match_here_sound in Hm as (_ & Hconf & _).
  cbn [atoms digit_dash_digit] in Hconf.
  apply conforms_one in Hconf as (d1 & v1 & Ht & Hd1 & Hconf).
  apply conforms_star in Hconf as (w1 & v2 & -> & Hw1 & Hconf).
  apply conforms_one in Hconf as (h & v3 & -> & Hh & Hconf).
  apply conforms_star in Hconf as (w2 & v4 & -> & Hw2 & Hconf).
  apply conforms_one in Hconf as (d2 & v5 & -> & Hd2 & ->).
  assert (h = ch "-") as ->
    by (apply set_In in Hh; char_cases Hh; reflexivity).
  rewrite Ht in Hsub |- *.
  change (d1 :: w1 ++ ch "-" :: w2 ++ [d2])
    with ([d1] ++ w1 ++ [ch "-"] ++ w2 ++ [d2]) in Hsub |- *.
  rewrite !only_spaces_app, !andb_true_iff in Hsub.
  destruct Hsub as (_ & Hs1 & _ & Hs2 & _).
  rewrite !replace_app, (replace_whitespace w1 Hw1 Hs1),
    (replace_whitespace w2 Hw2 Hs2).
  destruct (digit_facts d1 Hd1) as (Hn1 & _).
  destruct (digit_facts d2 Hd2) as (Hn2 & _).
  rewrite (replace_other _ _ d1), (replace_other _ _ d2) by done.
  exists d1, d2. done.
Qed.

Lemma try_patterns_canonical patterns line score :
  only_spaces line = true ->
  try_patterns patterns line = Some score -> canonical_score score.
Proof.
  intros Hspaces. induction patterns as [|pattern rest IH]; [done|].
  cbn [try_patterns]. destruct (found pattern line); [|done].
  destruct (re_search digit_dash_digit (normalize line)) as [m|] eqn:Hm; [|done].
  intros [= <-]. eapply group_canonical; [|done].
  by apply normalize_only_spaces.
Qed.

Lemma find_hidden_score_canonical lines score :
  find_hidden_score lines = Some score -> canonical_score score.
Proof.
  induction lines as [|line lines IH]; [done|]. cbn [find_hidden_score].
  destruct (try_patterns potential_scores (clean_text line)) as [s|] eqn:Hs; [|done].
  intros [= <-]. eapply try_patterns_canonical; [|done].
  apply tidy_only_spaces, clean_text_tidy.
Qed.

End Shapes.

Section OddsShape.
Import PyStr Re Parser.

Lemma conforms_rep p a b r t :
  conforms (rep p a b :: r) t ->
  exists u v, t = u ++ v /\ forallb p u = true /\ a <= length u <= b
              /\ conforms r v.
Proof.
  intros (u & v & -> & Hall & Hlo & Hhi & Hrest). simpl in *.
  exists u, v. repeat split; try done. by apply Hhi.
Qed.

(** A string that [^\d{1,2}[,\.]\d{2}$] matches: the number, and what
    [$] lets follow it. *)
Lemma odds_re_shape s :
  matches odds_re s = true ->
  exists int_part sep d1 d2 rest,
    s = int_part ++ [sep; d1; d2] ++ rest
    /\ 1 <= length int_part <= 2
    /\ forallb isdecimal int_part = true
    /\ set ",." sep = true
    /\ isdecimal d1 = true /\ isdecimal d2 = true
    /\ at_end rest = true.
Proof.
  unfold matches, re_match.
  destruct (match_here (atoms odds_re) (eol odds_re) s) as [n|] eqn:Hm; [|done].
  intros _. apply match_here_sound in Hm as (_ & Hconf & Hend).
  specialize (Hend eq_refl). cbn [atoms odds_re] in Hconf.
  apply conforms_rep in Hconf as (ds & v1 & Ht & Hds & Hlen & Hconf).
  apply conforms_one in Hconf as (sep & v2 & -> & Hsep & Hconf).
  apply conforms_rep in Hconf as (dd & v3 & -> & Hdd & Hlen2 & ->).
  destruct dd as [|d1 [|d2 [|d3 dd]]]; simpl in Hlen2; try lia.
  simpl in Hdd. rewrite andb_true_r in Hdd.
  apply andb_true_iff in Hdd as [Hd1 Hd2].
  exists ds, sep, d1, d2, (skipn n s). repeat split; try done; try lia.
  rewrite <- (firstn_skipn n s) at 1. rewrite Ht, app_nil_r.
  by rewrite <- !app_assoc.
Qed.

Lemma at_end_cases rest : at_end rest = true -> rest = [] \/ rest = [ch "010"].
Proof.
  destruct rest as [|c [|d rest]]; simpl; [by left| |done].
  intros ->%char_eqb_eq. by right.
Qed.

Lemma only_spaces_at_end rest :
  only_spaces rest = true -> at_end rest = true -> rest = [].
Proof. intros Hs [->| ->]%at_end_cases; [done|]. by vm_compute in Hs. Qed.

Lemma ends_nonspace_at_end s rest :
  ends_nonspace (s ++ rest) = true -> at_end rest = true -> rest = [].
Proof.
  intros Hs [->| ->]%at_end_cases; [done|].
  by rewrite ends_nonspace_snoc in Hs.
Qed.

Lemma replace_digits old new ds :
  forallb isdecimal ds = true -> isdecimal old = false ->
  replace old new ds = ds.
Proof.
  intros Hds Hold. induction ds as [|d ds IH]; [done|].
  simpl in Hds. apply andb_true_iff in Hds as [Hd Hds].
  rewrite replace_other, IH; [done|done|].
  destruct (char_eqb_spec d old) as [->|]; [congruence|done].
Qed.

(** A matched odds string without trailing newline, with its comma
    turned into a period. *)
Lemma normalized_odds_decimal s :
  only_spaces s = true -> matches odds_re s = true ->
  decimal_odds (replace "," "." s).
Proof.
  intros Hs (ds & sep & d1 & d2 & rest & -> & Hlen & Hds & Hsep & Hd1 & Hd2 & Hend)
    %odds_re_shape.
  assert (rest = []) as ->.
  { rewrite !only_spaces_app in Hs.
    apply andb_true_iff in Hs as [_ [_ Hs]%andb_true_iff].
    by apply only_spaces_at_end. }
  rewrite app_nil_r, replace_app, (replace_digits _ _ ds Hds) by done.
  exists ds, d1, d2. repeat split; try done; try lia.
  f_equal.
  change [sep; d1; d2] with ([sep] ++ [d1; d2]).
  rewrite replace_app, (replace_digits _ _ [d1; d2]) by (simpl; by rewrite ?Hd1, ?Hd2).
  by destruct (separator_facts sep Hsep) as ([-> | ->] & _).
Qed.

Lemma to_int_from_bound acc ds :
  forallb isdecimal ds = true ->
  (fold_left (fun acc c => 10 * acc + digit_val c) ds acc
   < (acc + 1) * 10 ^ N.of_nat (length ds))%N.
Proof.
  revert acc. induction ds as [|d ds IH]; intros acc Hds.
  - simpl. lia.
  - simpl in Hds. apply andb_true_iff in Hds as [Hd Hds].
    cbn [fold_left length]. specialize (IH (10 * acc + digit_val d)%N Hds).
    pose proof (digit_val_bound d) as Hdv.
    rewrite Nat2N.inj_succ, N.pow_succ_r'.
    eapply N.lt_le_trans; [exact IH|]. nia.
Qed.

Lemma filter_digits_all ds : forallb isdecimal ds = true -> List.filter isdecimal ds = ds.
Proof.
  induction ds as [|d ds IH]; [done|]. simpl.
  intros [Hd Hds]%andb_true_iff. by rewrite Hd, IH.
Qed.

(** A matched odds string is below 100.00. *)
Lemma hundredths_bound s :
  matches odds_re s = true -> (hundredths s < 10000)%N.
Proof.
  intros (ds & sep & d1 & d2 & rest & -> & Hlen & Hds & Hsep & Hd1 & Hd2 & Hend)
    %odds_re_shape.
  unfold hundredths. rewrite !List.filter_app, (filter_digits_all ds Hds).
  destruct (separator_facts sep Hsep) as (_ & Hnd & _).
  assert (Hrest : List.filter isdecimal rest = [])
    by (apply at_end_cases in Hend as [-> | ->]; vm_compute; reflexivity).
  simpl. rewrite Hnd, Hd1, Hd2, Hrest.
  assert (Hall : forallb isdecimal (ds ++ [d1; d2]) = true)
    by (rewrite forallb_app, Hds; simpl; by rewrite Hd1, Hd2).
  pose proof (to_int_from_bound 0 _ Hall) as Hb.
  unfold to_int. eapply N.lt_le_trans; [exact Hb|].
  rewrite length_app. simpl length.
  destruct ds as [|a [|b [|c ds]]]; simpl in Hlen; try lia; simpl; lia.
Qed.

Lemma span_all p s : forallb p s = true -> span p None s = length s.
Proof.
  induction s as [|c s IH]; [done|]. simpl.
  intros [Hc Hs]%andb_true_iff. by rewrite Hc, IH.
Qed.

Lemma backtrack_first lo rest k m :
  lo <= k -> rest k = Some m -> backtrack lo rest k = Some (k + m).
Proof.
  intros Hlo Hrest. destruct k; cbn [backtrack].
  - assert (lo = 0) as -> by lia. simpl. by rewrite Hrest.
  - destruct (Nat.ltb_spec (S k) lo); [lia|]. by rewrite Hrest.
Qed.

(** [^[class]+$] matches every non-empty string of the class. *)
Lemma plus_class_complete p s :
  s <> [] -> forallb p s = true -> matches (Regex true [plus p] true) s = true.
Proof.
  intros Hne Hall. unfold matches, re_match.
  cbn [atoms eol match_here plus lo cls hi]. rewrite (span_all p s Hall).
  rewrite (backtrack_first 1 _ (length s) 0); [done| |].
  - destruct s; [done|simpl; lia].
  - by rewrite skipn_all.
Qed.

Lemma odds_chars s c :
  matches odds_re s = true -> In c s ->
  isdecimal c = true \/ set ",." c = true \/ c = ch "010".
Proof.
  intros (ds & sep & d1 & d2 & rest & -> & _ & Hds & Hsep & Hd1 & Hd2 & Hend)
    %odds_re_shape Hin.
  apply in_app_or in Hin as [Hin|Hin].
  { left. by apply (proj1 (forallb_forall _ _) Hds). }
  simpl in Hin. destruct Hin as [<-|[<-|[<-|Hin]]]; auto.
  right. right. by apply (at_end_chars rest).
Qed.

Lemma odds_char_class c :
  isdecimal c = true \/ set ",." c = true \/ c = ch "010" ->
  digits_punct_class c = true /\ isalpha c = false
  /\ set "-" c = false /\ set "(" c = false /\ set ":" c = false
  /\ set "H" c = false /\ set "F" c = false.
Proof.
  assert (Hset : forall members,
             isdecimal c = true -> existsb isdecimal members = false
             -> set members c = false).
  { intros members Hd Hnone. destruct (set members c) eqn:E; [|done].
    apply set_In in E.
    assert (existsb isdecimal members = true)
      by (apply existsb_exists; by exists c).
    congruence. }
  intros [Hd|[Hs| ->]].
  - split; [unfold digits_punct_class; by rewrite Hd|].
    split; [by apply decimal_not_alpha|].
    repeat split; by apply Hset.
  - apply set_In in Hs. char_cases Hs; vm_compute; by repeat split.
  - vm_compute. by repeat split.
Qed.

Lemma odds_is_digits_punct s :
  matches odds_re s = true -> matches digits_punct s = true.
Proof.
  intros Hs. apply plus_class_complete.
  - apply odds_re_shape in Hs as (ds & ? & ? & ? & ? & -> & ? & _).
    destruct ds; [simpl in *; lia|done].
  - apply forallb_forall. intros c Hc.
    by apply odds_char_class, (odds_chars s).
Qed.

Lemma odds_not_candidate s :
  matches odds_re s = true -> inline_team_filter s = false.
Proof.
  intros Hs. unfold inline_team_filter.
  rewrite (odds_is_digits_punct s Hs). simpl.
  by rewrite andb_false_r.
Qed.

Lemma odds_not_score_pattern s pattern a :
  matches odds_re s = true ->
  In a (atoms pattern) -> 1 <= lo a ->
  (forall c, isdecimal c = true \/ set ",." c = true \/ c = ch "010" ->
             cls a c = false) ->
  found pattern s = false.
Proof.
  intros Hs Hin Hlo Hcls. destruct (found pattern s) eqn:Hf; [|done].
  destruct (found_needs _ _ a Hf Hin Hlo) as (c & Hc & Hac).
  rewrite (Hcls c) in Hac; [done|]. by apply (odds_chars s).
Qed.

End OddsShape.

Section Words.
Import PyStr Re Parser.

Lemma split_go_whitespace cur w :
  forallb isspace w = true -> split_go cur w = split_go cur [].
Proof.
  revert cur. induction w as [|c w IH]; intros cur; [done|].
  simpl. intros [Hc Hw]%andb_true_iff. rewrite Hc.
  destruct cur; rewrite (IH [] Hw); done.
Qed.

Lemma split_go_trailing cur s w :
  forallb isspace w = true -> split_go cur (s ++ w) = split_go cur s.
Proof.
  intros Hw. revert cur. induction s as [|c s IH]; intros cur.
  - by apply split_go_whitespace.
  - simpl. destruct (isspace c); [|apply IH].
    destruct cur; by rewrite IH.
Qed.

Lemma split_lstrip s : split (lstrip s) = split s.
Proof.
  unfold split. induction s as [|c s IH]; [done|].
  simpl. destruct (isspace c) eqn:Hc; [done|]. simpl. by rewrite Hc.
Qed.

Lemma rstrip_suffix s :
  exists w, s = rstrip s ++ w /\ forallb isspace w = true.
Proof.
  destruct (lstrip_suffix (rev s)) as (w & Hs & Hw).
  exists (rev w). split.
  - unfold rstrip. rewrite <- rev_app_distr, <- Hs. symmetry. apply rev_involutive.
  - apply forallb_forall. intros c Hc%in_rev.
    by apply (proj1 (forallb_forall _ _) Hw).
Qed.

Lemma split_rstrip s : split (rstrip s) = split s.
Proof.
  destruct (rstrip_suffix s) as (w & Hs & Hw).
  rewrite Hs at 2. unfold split. by rewrite split_go_trailing.
Qed.

Lemma split_strip s : split (strip s) = split s.
Proof. unfold strip. by rewrite split_rstrip, split_lstrip. Qed.

Lemma split_go_nonempty cur s c :
  In c s -> isspace c = false -> split_go cur s <> [].
Proof.
  intros Hin Hc Hnil. pose proof (split_go_concat cur s) as Hcat.
  rewrite Hnil in Hcat. simpl in Hcat.
  assert (Hf : In c (List.filter (fun c => negb (isspace c)) s))
    by (apply filter_In; by rewrite Hc).
  destruct cur; [|done]. simpl in Hcat. by rewrite <- Hcat in Hf.
Qed.

Lemma ends_nonspace_has s :
  s <> [] -> ends_nonspace s = true -> exists c, In c s /\ isspace c = false.
Proof.
  induction s as [|c s IH]; [done|]. intros _.
  intros [[-> Hc]|[Hne Hends]]%ends_nonspace_cons.
  - exists c. split; [by left|done].
  - destruct (IH Hne Hends) as (d & Hd & Hsp). exists d. split; [by right|done].
Qed.

Lemma join_cons sep x xs :
  xs <> [] -> join sep (x :: xs) = x ++ sep ++ join sep xs.
Proof. by destruct xs. Qed.

Lemma join_split_squeeze s :
  ends_nonspace s = true ->
  join " " (split_go [] s) = squeeze true s
  /\ (forall cur, cur <> [] -> join " " (split_go cur s) = cur ++ squeeze false s).
Proof.
  induction s as [|c s IH].
  - intros _. split; [done|]. intros cur Hcur. simpl.
    destruct cur; [done|]. by rewrite app_nil_r.
  - intros Hs. apply ends_nonspace_cons in Hs as Hcases.
    cbn [split_go squeeze app]. destruct (isspace c) eqn:Hc.
    + destruct Hcases as [[_ ?]|[Hne Hends]]; [congruence|].
      destruct (IH Hends) as [IHrun IHcur]. split; [done|].
      intros cur Hcur. destruct cur as [|a cur]; [done|].
      destruct (ends_nonspace_has s Hne Hends) as (d & Hd & Hsp).
      rewrite join_cons by (by apply (split_go_nonempty [] s d)).
      rewrite IHrun. done.
    + assert (Hends : ends_nonspace s = true)
        by (destruct Hcases as [[-> _]|[_ ?]]; done).
      destruct (IH Hends) as [_ IHcur]. split.
      * by rewrite (IHcur [c]).
      * intros cur Hcur. rewrite IHcur by (by destruct cur).
        by rewrite <- app_assoc.
Qed.

Lemma squeeze_start s :
  s = [] \/ starts_nonspace s = true -> squeeze false s = squeeze true s.
Proof.
  intros [->|Hs]; [done|]. destruct s as [|c s]; [done|].
  simpl in *. apply negb_true_iff in Hs. by rewrite Hs.
Qed.

Lemma strip_starts s : strip s = [] \/ starts_nonspace (strip s) = true.
Proof.
  unfold strip. destruct (lstrip_starts s) as [->|Hs]; [by left|].
  right. by apply rstrip_starts.
Qed.

Lemma lstrip_fixed s : s = [] \/ starts_nonspace s = true -> lstrip s = s.
Proof.
  intros [->|Hs]; [done|]. destruct s as [|c s]; [done|].
  simpl in *. apply negb_true_iff in Hs. by rewrite Hs.
Qed.

Lemma rstrip_fixed s : ends_nonspace s = true -> rstrip s = s.
Proof.
  unfold rstrip. destruct s as [|d t _] using rev_ind; [done|].
  rewrite ends_nonspace_snoc. intros Hd%negb_true_iff.
  rewrite rev_app_distr. simpl. rewrite Hd. simpl.
  by rewrite rev_involutive.
Qed.

Lemma strip_idempotent s : strip (strip s) = strip s.
Proof.
  unfold strip at 1. rewrite (lstrip_fixed (strip s)) by apply strip_starts.
  apply rstrip_fixed. apply rstrip_ends.
Qed.

Lemma lstrip_leading w s : forallb isspace w = true -> lstrip (w ++ s) = lstrip s.
Proof.
  induction w as [|c w IH]; [done|]. simpl.
  intros [Hc Hw]%andb_true_iff. rewrite Hc. by apply IH.
Qed.

Lemma rstrip_trailing s w : forallb isspace w = true -> rstrip (s ++ w) = rstrip s.
Proof.
  intros Hw. unfold rstrip. rewrite rev_app_distr, lstrip_leading; [done|].
  apply forallb_forall. intros c Hc%in_rev.
  by apply (proj1 (forallb_forall _ _) Hw).
Qed.

Lemma lstrip_app s w :
  forallb isspace w = true ->
  lstrip (s ++ w) = match lstrip s with [] => [] | _ => lstrip s ++ w end.
Proof.
  intros Hw. induction s as [|c s IH]; simpl.
  - rewrite <- (app_nil_r w), lstrip_leading by done. done.
  - destruct (isspace c); [done|done].
Qed.

Lemma strip_surrounded w1 s w2 :
  forallb isspace w1 = true -> forallb isspace w2 = true ->
  strip (w1 ++ s ++ w2) = strip s.
Proof.
  intros H1 H2. unfold strip. rewrite lstrip_leading, lstrip_app by done.
  destruct (lstrip s) as [|c t] eqn:Hl; [done|].
  by rewrite rstrip_trailing.
Qed.

End Words.

(** X1.  [clean_text] returns the words of the text joined by single
    spaces: [re.sub(r'\s+', ' ', text.strip())] is
    [' '.join(text.split())]. *)
Theorem clean_text_joins_words text :
  Parser.clean_text text = PyStr.join " " (PyStr.split text).
Proof.
  rewrite clean_text_squeeze, squeeze_start by apply strip_starts.
  rewrite <- (split_strip text). symmetry.
  apply join_split_squeeze. unfold PyStr.strip. apply rstrip_ends.
Qed.

(** X2.  A cleaned line has no whitespace at either end, its whitespace
    consists of single spaces between other characters, and cleaning it
    again changes nothing. *)
Theorem clean_text_normal_form text :
  PyStr.strip (Parser.clean_text text) = Parser.clean_text text
  /\ tidy_from (Parser.clean_text text) = true
  /\ Parser.clean_text (Parser.clean_text text) = Parser.clean_text text.
Proof.
  pose proof (clean_text_tidy text) as Htidy.
  split; [by apply strip_fixed|]. split; [|apply clean_text_idempotent].
  destruct (Parser.clean_text text) as [|c s]; [done|].
  by apply andb_true_iff in Htidy as [_ ?].
Qed.

(** X3.  The three line tests ignore whitespace around the line. *)
Theorem line_tests_ignore_surrounding_whitespace w1 line w2 :
  forallb PyStr.isspace w1 = true -> forallb PyStr.isspace w2 = true ->
  Parser.is_team_match (w1 ++ line ++ w2) = Parser.is_team_match line
  /\ Parser.is_odds_value (w1 ++ line ++ w2) = Parser.is_odds_value line
  /\ Parser.is_score (w1 ++ line ++ w2) = Parser.is_score line.
Proof.
  intros H1 H2.
  unfold Parser.is_team_match, Parser.is_odds_value, Parser.is_score.
  by rewrite !(strip_surrounded w1 line w2 H1 H2).
Qed.

Lemma line_tests_ignore_surrounding_whitespace_witness :
  Parser.is_team_match (lit "  " ++ lit "Fenerbahce" ++ lit " ")
  = Parser.is_team_match (lit "Fenerbahce").
Proof.
  refine (proj1 (line_tests_ignore_surrounding_whitespace
                   (lit "  ") (lit "Fenerbahce") (lit " ") _ _));
    vm_compute; reflexivity.
Defined.

Section Scores.
Import PyStr Re Py Parser.

(** One step of the matcher on a class whose run is taken whole. *)
Lemma match_here_step a r dollar s k m :
  span (cls a) (hi a) s = k -> lo a <= k ->
  match_here r dollar (skipn k s) = Some m ->
  match_here (a :: r) dollar s = Some (k + m).
Proof.
  intros Hspan Hlo Hrest. cbn [match_here]. rewrite Hspan.
  by apply backtrack_first.
Qed.

Lemma canonical_is_score s : canonical_score s -> is_score s = true.
Proof.
  intros (d1 & d2 & Hd1 & Hd2 & ->).
  destruct (digit_facts d1 Hd1) as (_ & _ & Hs1 & _).
  destruct (digit_facts d2 Hd2) as (_ & _ & Hs2 & _).
  assert (Hh1 : isspace (ch "-") = false) by (vm_compute; reflexivity).
  assert (Hh2 : isdecimal (ch "-") = false) by (vm_compute; reflexivity).
  assert (Hh3 : set "-" (ch "-") = true) by (vm_compute; reflexivity).
  assert (Hh4 : set "-" d2 = false).
  { destruct (set "-" d2) eqn:E; [|done].
    apply set_In in E. char_cases E. by vm_compute in Hd2. }
  unfold is_score.
  rewrite strip_fixed
    by (cbn [tidy starts_nonspace tidy_from]; by rewrite Hs1, Hs2, Hh1).
  cbn [score_patterns existsb]. apply orb_true_iff. left.
  unfold found, re_search. cbn [search_from]. unfold re_match.
  cbn [atoms eol].
  rewrite (match_here_step _ _ _ _ 1 2); [done| |cbn [lo plus]; lia|].
  { cbn [span cls plus hi]. by rewrite Hd1, Hh2. }
  cbn [skipn].
  rewrite (match_here_step _ _ _ _ 0 2); [done| |cbn [lo star]; lia|].
  { cbn [span cls star hi]. by rewrite Hh1. }
  cbn [skipn].
  rewrite (match_here_step _ _ _ _ 1 1); [done| |cbn [lo one]; lia|].
  { cbn [span cls one hi]. rewrite Hh3. by rewrite Hh4. }
  cbn [skipn].
  rewrite (match_here_step _ _ _ _ 0 1); [done| |cbn [lo star]; lia|].
  { cbn [span cls star hi]. by rewrite Hs2. }
  cbn [skipn].
  rewrite (match_here_step _ _ _ _ 1 0); [done| |cbn [lo plus]; lia|].
  { cbn [span cls plus hi]. by rewrite Hd2. }
  done.
Qed.

Lemma find_hidden_score_app lines1 lines2 :
  find_hidden_score (lines1 ++ lines2)
  = match find_hidden_score lines1 with
    | Some score => Some score
    | None => find_hidden_score lines2
    end.
Proof.
  induction lines1 as [|line lines1 IH]; [done|].
  cbn [app find_hidden_score].
  by destruct (try_patterns potential_scores (clean_text line)).
Qed.

Lemma resolve_ft_score_canonical h :
  (forall s, h = Some s -> canonical_score s) ->
  exists s, resolve_ft_score h = PyStr s /\ canonical_score s.
Proof.
  intros Hh. destruct h as [s|].
  - destruct (Hh s eq_refl) as (d1 & d2 & Hd1 & Hd2 & ->).
    exists [d1; ch "-"; d2]. split; [done|]. by exists d1, d2.
  - exists (lit "0-0"). split; [done|].
    by exists (ch "0"), (ch "0").
Qed.

End Scores.

(** X4.  A score that [find_hidden_score] returns is a decimal digit, a
    hyphen and a decimal digit (digits of any script, as [\d] matches
    them), and [is_score] accepts it. *)
Theorem recovered_score_is_canonical lines score :
  Parser.find_hidden_score lines = Some score ->
  canonical_score score /\ Parser.is_score score = true.
Proof.
  intros Hscore%find_hidden_score_canonical.
  split; [done|]. by apply canonical_is_score.
Qed.

Lemma recovered_score_is_canonical_witness :
  canonical_score (lit "٣-٤") /\ Parser.is_score (lit "٣-٤") = true.
Proof.
  apply (recovered_score_is_canonical [lit "abc"; lit "٣ - ٤ I-O"; lit "2-l"]).
  vm_compute. reflexivity.
Defined.

(** X5.  Whatever the capture, the full-time score of the extracted
    record is a decimal digit, a hyphen and a decimal digit. *)
Theorem extracted_ft_score_is_canonical lines :
  exists score,
    Parser.extract_all_data lines !! "ft_score" = Some (PyStr score)
    /\ canonical_score score.
Proof.
  rewrite extracted_ft_score.
  destruct (resolve_ft_score_canonical
              (Parser.find_hidden_score
                 (Parser.all_text (Parser.scan_lines lines))))
    as (score & -> & Hscore).
  - intros s. apply find_hidden_score_canonical.
  - by exists score.
Qed.

(** X6.  The first line that yields a score decides: the lines after it
    are not looked at, the lines before it do not matter. *)
Theorem first_recovered_score_wins lines1 lines2 :
  Parser.find_hidden_score (lines1 ++ lines2)
  = match Parser.find_hidden_score lines1 with
    | Some score => Some score
    | None => Parser.find_hidden_score lines2
    end.
Proof. apply find_hidden_score_app. Qed.

Section OddsValues.
Import PyStr Re Py Parser.

Lemma collected_odds_decimal lines o :
  In o (odds (scan_lines lines)) -> decimal_odds (replace "," "." o).
Proof.
  rewrite scan_odds. intros [Hin Hm]%filter_In.
  apply normalized_odds_decimal; [|done].
  unfold cleaned_lines in Hin. apply filter_In in Hin as [Hin _].
  apply in_map_iff in Hin as (raw & <- & _).
  apply tidy_only_spaces, clean_text_tidy.
Qed.

Lemma padded_odds_cases (l : list str) o :
  In o (firstn 15 (pad_loop 15 l)) -> In o l \/ o = lit "0".
Proof.
  intros Hin%In_take. rewrite pad_loop_spec in Hin by lia.
  apply in_app_or in Hin as [Hin|Hin]; [by left|].
  right. by apply repeat_spec in Hin.
Qed.

End OddsValues.

(** X7.  Every odds slot of a row assembled from a capture holds either
    the sentinel "0" or a decimal number with a period: one or two
    digits, the period, two digits. *)
Theorem odds_slots_are_decimal now lines row cell :
  Parser.create_flexible_row now (Parser.extract_all_data lines) = Ok row ->
  In cell (odds_slots row) ->
  cell = PyStr "0" \/ exists s, cell = PyStr s /\ decimal_odds s.
Proof.
  intros Hrow Hcell.
  apply create_flexible_row_ok in Hrow
    as (d & items & ti & ht & ft & n & Hd & Hitems & _ & _ & _ & _ & ->).
  rewrite extracted_odds in Hd. injection Hd as <-.
  simpl in Hitems. injection Hitems as <-.
  rewrite odds_slots_of_row in Hcell by apply firstn_pad_length.
  apply in_map_iff in Hcell as (o & <- & Ho).
  apply padded_odds_cases in Ho as [Ho| ->]; [|by left].
  right. apply in_map_iff in Ho as (raw & <- & Hraw).
  eexists. split; [done|]. by apply (collected_odds_decimal lines).
Qed.

Lemma odds_slots_are_decimal_witness :
  PyStr "1.85" = PyStr "0"
  \/ exists s, PyStr "1.85" = PyStr s /\ decimal_odds s.
Proof.
  apply (odds_slots_are_decimal Examples.noon Examples.derby Examples.derby_row).
  - vm_compute. reflexivity.
  - vm_compute. tauto.
Defined.

(** X8.  A string that the odds pattern matches is below 100.00, so the
    upper bound of the range test of [is_odds_value] never rejects: the
    test accepts a line exactly when the pattern matches and the value
    is at least 1.01. *)
Theorem is_odds_value_lower_bound_only line :
  Parser.is_odds_value line
  = Re.matches Parser.odds_re (PyStr.strip line)
    && (101 <=? Parser.hundredths (PyStr.strip line))%N.
Proof.
  unfold Parser.is_odds_value.
  destruct (Re.matches Parser.odds_re (PyStr.strip line)) eqn:Hm; [|done].
  apply hundredths_bound in Hm.
  assert (Hle : (Parser.hundredths (PyStr.strip line) <=? 10000)%N = true)
    by (apply N.leb_le; lia).
  by rewrite Hle, andb_true_r.
Qed.

Section Exclusive.
Import PyStr Re Py Parser.

Lemma odds_no_score_pattern s :
  matches odds_re s = true ->
  existsb (fun pattern => found pattern s) score_patterns = false.
Proof.
  intros Hs. unfold score_patterns. cbn [existsb].
  rewrite (odds_not_score_pattern s _ (one (set "-")) Hs);
    [|simpl; tauto|simpl; lia|
     intros c Hc; apply odds_char_class in Hc; cbn [cls one]; tauto].
  rewrite (odds_not_score_pattern s _ (one (set "(")) Hs);
    [|simpl; tauto|simpl; lia|
     intros c Hc; apply odds_char_class in Hc; cbn [cls one]; tauto].
  rewrite (odds_not_score_pattern s _ (one (set ":")) Hs);
    [|simpl; tauto|simpl; lia|
     intros c Hc; apply odds_char_class in Hc; cbn [cls one]; tauto].
  rewrite (odds_not_score_pattern s _ (one (set "H")) Hs);
    [|simpl; tauto|simpl; lia|
     intros c Hc; apply odds_char_class in Hc; cbn [cls one]; tauto].
  rewrite (odds_not_score_pattern s _ (one (set "F")) Hs);
    [|simpl; tauto|simpl; lia|
     intros c Hc; apply odds_char_class in Hc; cbn [cls one]; tauto].
  done.
Qed.

End Exclusive.

(** X9.  A line that [is_odds_value] accepts is neither a team name for
    [is_team_match] nor a score for [is_score]. *)
Theorem odds_value_is_no_team_and_no_score line :
  Parser.is_odds_value line = true ->
  Parser.is_team_match line = false /\ Parser.is_score line = false.
Proof.
  unfold Parser.is_odds_value, Parser.is_team_match, Parser.is_score.
  destruct (Re.matches Parser.odds_re (PyStr.strip line)) eqn:Hm; [|done].
  intros _. split.
  - rewrite (odds_is_digits_punct _ Hm). by destruct (_ <? 3).
  - by apply odds_no_score_pattern.
Qed.

Lemma odds_value_is_no_team_and_no_score_witness :
  Parser.is_team_match (lit "1,85") = false
  /\ Parser.is_score (lit "1,85") = false.
Proof.
  apply (odds_value_is_no_team_and_no_score (lit "1,85")).
  vm_compute. reflexivity.
Defined.

(** X10.  No line of a capture is collected both as an odds value and as
    a team candidate. *)
Theorem odds_and_team_candidates_are_disjoint lines line :
  In line (Parser.odds (Parser.scan_lines lines)) ->
  ~ In line (Parser.team_candidates (Parser.scan_lines lines)).
Proof.
  rewrite scan_odds, scan_team_candidates.
  intros [_ Hodds]%filter_In [_ Hcand]%filter_In.
  by rewrite (odds_not_candidate _ Hodds) in Hcand.
Qed.

Lemma odds_and_team_candidates_are_disjoint_witness :
  ~ In (lit "3,20") (Parser.team_candidates (Parser.scan_lines Examples.derby)).
Proof.
  apply odds_and_team_candidates_are_disjoint.
  vm_compute. tauto.
Defined.

Section Steps.
Import PyStr Py Parser Driver.

Lemma write_row_extends {cell} (t : cell) ok rows values :
  exists b added,
    Sheets.write_row t ok (Some rows) values = Ok (b, Some (rows ++ added))
    /\ (ok = false -> added = []).
Proof.
  unfold Sheets.write_row. destruct ok.
  - eexists _, [_]. split; [done|done].
  - exists false, []. by rewrite app_nil_r.
Qed.

Lemma ensure_headers_extends now ok rows hw :
  exists added,
    ensure_headers now ok (Manager (Some rows) hw)
    = Manager (Some (rows ++ added)) true
    /\ (ok = false -> added = []).
Proof.
  unfold ensure_headers. cbn [headers_written worksheet]. destruct hw.
  - exists []. by rewrite app_nil_r.
  - destruct (write_row_extends (PyStr (stamp now)) ok rows
                [PyStr "=== FLEXIBLE TURKISH PARSER ==="])
      as (b1 & a1 & -> & H1).
    cbn [mbind result_bind].
    destruct (write_row_extends (PyStr (stamp now)) ok (rows ++ a1) headers)
      as (b2 & a2 & -> & H2).
    cbn [mbind result_bind]. exists (a1 ++ a2).
    rewrite app_assoc. split; [done|].
    intros Hok. by rewrite (H1 Hok), (H2 Hok).
Qed.

(** On a connected sheet [write_data] reports success whether the
    append went through or not. *)
Lemma write_data_connected now ok rows hw data_row :
  exists added,
    write_data now ok (Manager (Some rows) hw) data_row
    = (true, Manager (Some (rows ++ added)) true)
    /\ (ok = false -> added = []).
Proof.
  unfold write_data.
  destruct (ensure_headers_extends now ok rows hw) as (a1 & -> & H1).
  cbn [worksheet headers_written].
  destruct (write_row_extends (PyStr (stamp now)) ok (rows ++ a1) data_row)
    as (b & a2 & -> & H2).
  exists (a1 ++ a2). rewrite app_assoc. split; [done|].
  intros Hok. by rewrite (H1 Hok), (H2 Hok).
Qed.

Lemma write_data_disconnected now ok hw data_row :
  write_data now ok (Manager None hw) data_row = (false, Manager None hw).
Proof. unfold write_data, ensure_headers. by destruct hw. Qed.

Lemma candidates_need_texts inp :
  team_candidates (scan_lines (ocr_lines inp)) <> [] -> texts inp <> [].
Proof.
  intros Hc Ht. apply Hc. unfold ocr_lines. by rewrite Ht.
Qed.

(** What a step does with a capture that has a team candidate and at
    least three odds. *)
Lemma process_forwards st inp :
  let sc := scan_lines (ocr_lines inp) in
  team_candidates sc <> [] -> 3 <= length (odds sc) ->
  exists row,
    create_flexible_row (now inp) (extract_all_data (ocr_lines inp)) = Ok row
    /\ fingerprint inp
       = Some (data_id (teams_value (team_candidates sc))
                 (resolve_ft_score (find_hidden_score (all_text sc)))
                 (odds sc) (now inp))
    /\ process st inp
       = let '(success, m) :=
           write_data (now inp) (append_ok inp) (sheets st) row in
         if success
         then (State ({[data_id (teams_value (team_candidates sc))
                          (resolve_ft_score (find_hidden_score (all_text sc)))
                          (odds sc) (now inp)]}
                      ∪ processed_matches st) m, Forwarded row true)
         else (State (processed_matches st) m, Forwarded row false).
Proof.
  intros sc Hcands Hodds. subst sc.
  destruct (assembled_row_exists (now inp) (ocr_lines inp) Hcands) as (row & Hrow).
  exists row. split; [done|]. split.
  - unfold fingerprint. fold (ocr_lines inp).
    by rewrite extracted_teams, extracted_ft_score, extracted_odds.
  - unfold process.
    rewrite process_try_unfold by (by apply candidates_need_texts).
    cbv zeta. rewrite (teams_value_truthy _ Hcands). cbn [orb].
    rewrite Hrow. cbn [mbind result_bind].
    apply Nat.leb_le in Hodds. rewrite Hodds.
    by destruct (write_data _ _ _ _) as [[] m].
Qed.

Lemma process_not_forwarded st inp :
  (forall row ok, snd (process st inp) <> Forwarded row ok) ->
  fst (process st inp) = st.
Proof.
  intros Hnot. unfold process in *.
  destruct (texts inp) as [|t ts] eqn:Htexts.
  { unfold process_try. by rewrite Htexts. }
  rewrite process_try_unfold in * by (rewrite Htexts; done).
  destruct (_ || _); [|done].
  destruct (create_flexible_row _ _) as [row|e]; [|done].
  cbn [mbind result_bind] in *.
  destruct (3 <=? _); [|done].
  destruct (write_data _ _ _ _) as [[] m]; cbn [snd] in Hnot.
  - by destruct (Hnot row true).
  - by destruct (Hnot row false).
Qed.

Lemma process_monotone st inp :
  processed_matches st ⊆ processed_matches (fst (process st inp))
  /\ forall rows,
       worksheet (sheets st) = Some rows ->
       exists added,
         worksheet (sheets (fst (process st inp))) = Some (rows ++ added).
Proof.
  assert (Hsame : fst (process st inp) = st ->
    processed_matches st ⊆ processed_matches (fst (process st inp))
    /\ forall rows, worksheet (sheets st) = Some rows ->
         exists added,
           worksheet (sheets (fst (process st inp))) = Some (rows ++ added)).
  { intros ->. split; [done|]. intros rows ->. exists []. by rewrite app_nil_r. }
  unfold process in *.
  destruct (texts inp) as [|t ts] eqn:Htexts.
  { apply Hsame. unfold process_try. by rewrite Htexts. }
  rewrite process_try_unfold in * by (rewrite Htexts; done).
  destruct (_ || _); [|by apply Hsame].
  destruct (create_flexible_row _ _) as [row|e]; [|by apply Hsame].
  cbn [mbind result_bind] in *.
  destruct (3 <=? _); [|by apply Hsame].
  clear Hsame. destruct st as [seen [[rows|] hw]]; cbn [sheets processed_matches].
  - destruct (write_data_connected (now inp) (append_ok inp) rows hw row)
      as (added & -> & _).
    cbn [fst processed_matches sheets worksheet]. split.
    + apply union_subseteq_r.
    + intros rows' [= <-]. by exists added.
  - rewrite write_data_disconnected. cbn [fst processed_matches sheets worksheet].
    split; [done|]. intros rows' [=].
Qed.

End Steps.

(** X11.  A step forwards a row exactly when the capture has a team
    candidate and at least three odds values. *)
Theorem step_forwards_iff st inp :
  let sc := Parser.scan_lines (ocr_lines inp) in
  (exists row ok, snd (Driver.process st inp) = Driver.Forwarded row ok)
  <-> Parser.team_candidates sc <> [] /\ 3 <= length (Parser.odds sc).
Proof.
  intros sc. split.
  - intros (row & ok & Hstep).
    destruct (Driver.process st inp) as [st' o] eqn:Hp. simpl in Hstep. subst o.
    apply process_forwarded in Hp as (_ & Hodds & Hteams).
    split; [|done]. fold sc in Hteams. intros Hnil.
    by rewrite Hnil in Hteams.
  - intros [Hcands Hodds].
    destruct (process_forwards st inp Hcands Hodds) as (row & _ & _ & ->).
    destruct (Driver.write_data _ _ _ _) as [[] m]; by eexists _, _.
Qed.

(** X12.  A step that forwards nothing leaves the seen-set and the sheet
    manager as they were. *)
Theorem step_without_row_changes_nothing st inp :
  (forall row ok, snd (Driver.process st inp) <> Driver.Forwarded row ok) ->
  fst (Driver.process st inp) = st.
Proof. apply process_not_forwarded. Qed.

Lemma step_without_row_changes_nothing_witness :
  fst (Driver.process Examples.fresh
         (Driver.Input Examples.two_odds Examples.noon true))
  = Examples.fresh.
Proof.
  apply step_without_row_changes_nothing.
  intros row ok. vm_compute. discriminate.
Defined.

(** X13.  Over a run of any number of steps the seen-set only grows and
    a connected sheet only gets rows appended: no step removes a
    fingerprint or touches a row already in the sheet. *)
Theorem run_only_appends st inputs :
  Driver.processed_matches st ⊆ Driver.processed_matches (run st inputs)
  /\ forall rows,
       Driver.worksheet (Driver.sheets st) = Some rows ->
       exists added,
         Driver.worksheet (Driver.sheets (run st inputs)) = Some (rows ++ added).
Proof.
  revert st. induction inputs as [|inp inputs IH]; intros st.
  - cbn [run fold_left]. split; [done|].
    intros rows ->. exists []. by rewrite app_nil_r.
  - cbn [run fold_left]. fold (run (fst (Driver.process st inp)) inputs).
    destruct (process_monotone st inp) as [Hseen Hrows].
    destruct (IH (fst (Driver.process st inp))) as [IHseen IHrows].
    split; [by etrans|].
    intros rows Hst. destruct (Hrows rows Hst) as (a1 & H1).
    destruct (IHrows _ H1) as (a2 & ->).
    exists (a1 ++ a2). by rewrite app_assoc.
Qed.

(** X14.  On a connected sheet whose appends fail, a step with a
    forwardable capture still reports success and records the
    fingerprint, although no row reaches the sheet; the headers are
    marked as written. *)
Theorem failed_append_is_reported_as_success seen rows hw inp :
  let sc := Parser.scan_lines (ocr_lines inp) in
  Driver.append_ok inp = false ->
  Parser.team_candidates sc <> [] -> 3 <= length (Parser.odds sc) ->
  exists row id,
    Driver.fingerprint inp = Some id
    /\ Driver.process (Driver.State seen (Driver.Manager (Some rows) hw)) inp
       = (Driver.State ({[id]} ∪ seen) (Driver.Manager (Some rows) true),
          Driver.Forwarded row true).
Proof.
  intros sc Hfail Hcands Hodds.
  destruct (process_forwards (Driver.State seen (Driver.Manager (Some rows) hw))
              inp Hcands Hodds) as (row & _ & Hid & ->).
  eexists row, _. split; [exact Hid|].
  cbn [Driver.sheets Driver.processed_matches].
  destruct (write_data_connected (Driver.now inp) (Driver.append_ok inp)
              rows hw row) as (added & -> & Hadded).
  by rewrite (Hadded Hfail), app_nil_r.
Qed.

(** The capture [Examples.half_time_label] has three odds and no team
    candidate: nothing is forwarded, the step ends in the error of the
    missing key. *)
Lemma label_and_odds_not_forwarded :
  Driver.process Examples.fresh
    (Driver.Input Examples.half_time_label Examples.noon true)
  = (Examples.fresh, Driver.ProcessingError (KeyError "categories")).
Proof. vm_compute. reflexivity. Qed.

Lemma step_forwards_iff_witness :
  exists row ok,
    snd (Driver.process Examples.fresh
           (Driver.Input Examples.derby Examples.noon true))
    = Driver.Forwarded row ok.
Proof.
  apply (proj2 (step_forwards_iff Examples.fresh
                  (Driver.Input Examples.derby Examples.noon true))).
  split; [vm_compute; discriminate|vm_compute; lia].
Defined.

Lemma run_only_appends_witness :
  exists added,
    Driver.worksheet
      (Driver.sheets
         (run Examples.fresh
            [Driver.Input Examples.derby Examples.noon true;
             Driver.Input Examples.two_odds Examples.noon true]))
    = Some ([] ++ added).
Proof.
  apply (proj2 (run_only_appends Examples.fresh _) []). reflexivity.
Defined.

Lemma failed_append_is_reported_as_success_witness :
  exists row id,
    Driver.fingerprint (Driver.Input Examples.derby Examples.noon false)
    = Some id
    /\ Driver.process Examples.fresh
         (Driver.Input Examples.derby Examples.noon false)
       = (Driver.State ({[id]} ∪ ∅) (Driver.Manager (Some []) true),
          Driver.Forwarded row true).
Proof.
  apply (failed_append_is_reported_as_success ∅ [] false
           (Driver.Input Examples.derby Examples.noon false)).
  - reflexivity.
  - vm_compute. discriminate.
  - vm_compute. lia.
Defined.

Section RowErrors.
Import PyStr Py Parser.

Lemma getitem_cases (d : gmap string pyval) k :
  (exists v, getitem d k = Ok v) \/ getitem d k = Raise (KeyError k).
Proof. unfold getitem. destruct (d !! k); [left; by eexists|by right]. Qed.

Lemma iter_cases v : (exists l, iter v = Ok l) \/ iter v = Raise TypeError.
Proof. destruct v; [by right|left; by eexists|left; by eexists]. Qed.

Lemma len_of_iter v l : iter v = Ok l -> exists n, len v = Ok n.
Proof. destruct v; [done|by eexists|by eexists]. Qed.

Lemma resolve_teams_info_errors now data e :
  resolve_teams_info now data = Raise e -> row_error e.
Proof.
  unfold resolve_teams_info, row_error.
  destruct (getitem_cases data "teams") as [[teams ->]| ->];
    cbn [mbind result_bind]; [|intros [= <-]; right; eexists; split; [done|simpl; tauto]].
  destruct (truthy teams); [done|].
  destruct (getitem_cases data "categories") as [[cats ->]| ->];
    cbn [mbind result_bind]; [|intros [= <-]; right; eexists; split; [done|simpl; tauto]].
  destruct (truthy cats).
  { destruct (iter_cases cats) as [[l ->]| ->]; cbn [mbind result_bind];
      [done|intros [= <-]; by left]. }
  destruct (getitem_cases data "betting_sites") as [[sites ->]| ->];
    cbn [mbind result_bind]; [|intros [= <-]; right; eexists; split; [done|simpl; tauto]].
  destruct (truthy sites); [|done].
  destruct (iter_cases sites) as [[l ->]| ->]; cbn [mbind result_bind];
    [done|intros [= <-]; by left].
Qed.

Lemma create_flexible_row_errors now data e :
  create_flexible_row now data = Raise e -> row_error e.
Proof.
  unfold create_flexible_row.
  destruct (getitem_cases data "odds") as [[detected Hd]|Hd]; rewrite Hd;
    cbn [mbind result_bind];
    [|intros [= <-]; right; eexists; split; [done|simpl; tauto]].
  destruct (iter_cases detected) as [[items Hitems]| ->]; [rewrite Hitems|];
    cbn [mbind result_bind]; [|intros [= <-]; by left].
  destruct (resolve_teams_info now data) as [ti|e'] eqn:Hti;
    cbn [mbind result_bind];
    [|intros [= <-]; by apply (resolve_teams_info_errors now data)].
  destruct (getitem_cases data "ht_score") as [[ht ->]| ->];
    cbn [mbind result_bind];
    [|intros [= <-]; right; eexists; split; [done|simpl; tauto]].
  destruct (getitem_cases data "ft_score") as [[ft ->]| ->];
    cbn [mbind result_bind];
    [|intros [= <-]; right; eexists; split; [done|simpl; tauto]].
  rewrite slots_of_padded. cbn [mbind result_bind].
  destruct (len_of_iter _ _ Hitems) as (n & ->). done.
Qed.

End RowErrors.

(** X15.  On a dictionary whose values are [None], strings or lists of
    strings, as [extract_all_data] builds them, the only exceptions
    [create_flexible_row] raises are [KeyError] for one of the six keys
    it reads and [TypeError] for a value that cannot be iterated; thanks
    to the padding, no index into the odds list is ever out of range. *)
Theorem create_flexible_row_raises_no_index_error now data e :
  Parser.create_flexible_row now data = Raise e ->
  e <> IndexError
  /\ (e = TypeError
      \/ exists k,
           e = KeyError k
           /\ In k ["odds"; "teams"; "categories"; "betting_sites";
                    "ht_score"; "ft_score"]).
Proof.
  intros He%create_flexible_row_errors. split; [|exact He].
  by destruct He as [->|(k & -> & _)].
Qed.

Lemma create_flexible_row_raises_no_index_error_witness :
  KeyError "categories" <> IndexError.
Proof.
  apply (create_flexible_row_raises_no_index_error Examples.noon
           (Parser.extract_all_data Examples.three_odds)).
  vm_compute. reflexivity.
Defined.

Section Cleanup.
Import Sheets.

Lemma match_key_short row : match_key row = None <-> is_short row = true.
Proof.
  unfold is_short. destruct row as [|a [|b [|c row]]]; simpl; split; done.
Qed.

Lemma kept_from_sublist seen rows : sublist (kept_from seen rows) rows.
Proof.
  revert seen. induction rows as [|row rows IH]; intros seen; simpl.
  - constructor.
  - destruct (match_key row) as [key|]; [|by constructor].
    destruct (decide (key ∈ seen)); by constructor.
Qed.

Lemma kept_from_count seen rows :
  length rows
  = length (kept_from seen rows) + duplicates_from seen rows
    + length (List.filter is_short rows).
Proof.
  revert seen. induction rows as [|row rows IH]; intros seen; [done|].
  simpl. destruct (match_key row) as [key|] eqn:Hkey.
  - assert (Hs : is_short row = false).
    { destruct (is_short row) eqn:E; [|done].
      apply match_key_short in E. congruence. }
    rewrite Hs. destruct (decide (key ∈ seen)); simpl.
    + rewrite (IH seen). lia.
    + rewrite (IH ({[key]} ∪ seen)). lia.
  - apply match_key_short in Hkey. rewrite Hkey. simpl.
    rewrite (IH seen). lia.
Qed.

Lemma remove_duplicates_cases all_values cleaned removed :
  remove_duplicates (Some all_values) = Ok (Some cleaned, removed) ->
  (removed = 0 /\ cleaned = all_values)
  \/ (exists header rows,
        all_values = header :: rows
        /\ cleaned = header :: kept_from ∅ rows
        /\ removed = duplicates_from ∅ rows /\ 0 < removed).
Proof.
  unfold remove_duplicates.
  destruct all_values as [|header [|row rest]];
    [intros [= <- <-]; by left|intros [= <- <-]; by left|].
  set (rows := row :: rest).
  destruct (dedup_fold rows (Dedup ∅ [header] 0)) as [Hkeep Hdups].
  cbn [rows_to_keep seen_matches duplicates_removed Nat.add] in Hkeep, Hdups.
  rewrite Hkeep, Hdups.
  destruct (Nat.ltb_spec 0 (duplicates_from ∅ rows)) as [Hpos|Hzero].
  - intros [= <- <-]. right. by exists header, rows.
  - intros [= <- <-]. by left.
Qed.

Lemma find_from_spec start rows teams date i :
  In i (find_from start rows teams date)
  <-> exists k row,
        i = start + k /\ rows !! k = Some row
        /\ 2 < length row /\ row !! 2 = Some teams
        /\ (forall d, date = Some d -> row !! 1 = Some d).
Proof.
  revert start. induction rows as [|row rows IH]; intros start.
  - simpl. split; [done|]. by intros (k & row & _ & Hk & _).
  - cbn [find_from]. rewrite in_app_iff, IH. split.
    + intros [Hhit|(k & r & -> & Hk & Hr)].
      * destruct (_ && _) eqn:Hcond; [|done].
        destruct Hhit as [<-|[]].
        apply andb_true_iff in Hcond as [[Hlen Hteams]%andb_true_iff Hdate].
        exists 0, row. rewrite Nat.add_0_r.
        apply Nat.ltb_lt in Hlen. apply bool_decide_eq_true in Hteams.
        repeat split; try done.
        intros d ->. apply andb_true_iff in Hdate as [_ Hd].
        by apply bool_decide_eq_true in Hd.
      * exists (S k), r. repeat split; try done; try lia; tauto.
    + intros (k & r & -> & Hk & Hlen & Hteams & Hdate).
      destruct k as [|k].
      * left. simpl in Hk. injection Hk as <-.
        apply Nat.ltb_lt in Hlen as Hlen'. rewrite Hlen'.
        rewrite (bool_decide_eq_true_2 _ Hteams). cbn [andb].
        assert (Hd : match date with
                     | Some d => (1 <? length row) && bool_decide (row !! 1 = Some d)
                     | None => true
                     end = true).
        { destruct date as [d|]; [|done].
          rewrite (bool_decide_eq_true_2 _ (Hdate d eq_refl)), andb_true_r.
          apply Nat.ltb_lt. lia. }
        rewrite Hd. rewrite Nat.add_0_r. by left.
      * right. exists k, r. repeat split; try done; lia.
Qed.

End Cleanup.

(** X16.  The cleanup pass invents and reorders nothing: the rows it
    leaves are a sublist of the rows it found, under the same header.
    When it rewrites the sheet, the rows it found are the rows left, the
    duplicates counted, and the rows of fewer than three columns, which
    are dropped without being counted. *)
Theorem remove_duplicates_accounts_for_rows all_values cleaned removed :
  Sheets.remove_duplicates (Some all_values) = Ok (Some cleaned, removed) ->
  sublist cleaned all_values
  /\ head cleaned = head all_values
  /\ (removed = 0 -> cleaned = all_values)
  /\ (0 < removed ->
      length all_values
      = length cleaned + removed
        + length (List.filter (fun row => length row <? 3) (tail all_values))).
Proof.
  intros [[-> ->]|(header & rows & -> & -> & -> & Hpos)]%remove_duplicates_cases.
  - repeat split; try done. lia.
  - split; [constructor; apply kept_from_sublist|].
    split; [done|]. split; [lia|]. intros _.
    cbn [length tail]. rewrite (kept_from_count ∅ rows) at 1.
    unfold is_short. lia.
Qed.

Lemma remove_duplicates_accounts_for_rows_witness :
  length Examples.sheet_with_short_row
  = length [Examples.header_row; Examples.match_row] + 1
    + length (List.filter (fun row => length row <? 3)
                (tail Examples.sheet_with_short_row)).
Proof.
  refine (proj2 (proj2 (proj2
    (remove_duplicates_accounts_for_rows Examples.sheet_with_short_row
       [Examples.header_row; Examples.match_row] 1 _))) _).
  - vm_compute. reflexivity.
  - lia.
Defined.

Section ReadBack.
Import Sheets.













End ReadBack.



(** X17.  [find_duplicate_matches] returns exactly the sheet row numbers
    (counted from 1, the header being row 1) of the rows below the
    header that have more than two columns, the given teams in the
    third column and, when a date is given, that date in the second. *)
Theorem find_duplicate_matches_spec all_values teams date i :
  In i (Sheets.find_duplicate_matches (Some all_values) teams date)
  <-> exists row,
        2 <= i /\ all_values !! (i - 1) = Some row
        /\ 2 < length row /\ row !! 2 = Some teams
        /\ (forall d, date = Some d -> row !! 1 = Some d).
Proof.
  unfold Sheets.find_duplicate_matches. rewrite find_from_spec. split.
  - intros (k & row & -> & Hk & Hrest). exists row.
    split; [lia|]. split; [|done].
    replace (2 + k - 1) with (S k) by lia.
    destruct all_values; [done|done].
  - intros (row & Hi & Hrow & Hrest). exists (i - 2), row.
    split; [lia|]. split; [|done].
    replace (i - 1) with (S (i - 2)) in Hrow by lia.
    destruct all_values; [done|done].
Qed.

Section Batching.
Import Sheets.
Context {cell : Type}.

Lemma range_go_batches (rows : list (list cell)) size fuel i :
  0 < size -> length rows - i <= fuel ->
  concat (map (fun i => firstn size (skipn i rows))
              (range_go fuel i (length rows) size))
  = skipn i rows.
Proof.
  intros Hsize. revert i. induction fuel as [|fuel IH]; intros i Hfuel.
  - simpl. rewrite skipn_all2; [done|lia].
  - cbn [range_go]. destruct (Nat.ltb_spec i (length rows)) as [Hlt|Hge].
    + cbn [map concat]. rewrite IH by lia.
      rewrite <- drop_drop. apply firstn_skipn.
    + simpl. rewrite skipn_all2; [done|lia].
Qed.

Lemma append_batches_prefix (append_ok : nat -> bool) k sheet
    (batches : list (list (list cell))) :
  exists j,
    j <= length batches
    /\ snd (append_batches append_ok k sheet batches)
       = sheet ++ concat (firstn j batches)
    /\ (fst (append_batches append_ok k sheet batches) = true ->
        j = length batches)
    /\ ((forall n, append_ok n = true) -> j = length batches
        /\ fst (append_batches append_ok k sheet batches) = true).
Proof.
  revert k sheet. induction batches as [|batch batches IH]; intros k sheet.
  - exists 0. simpl. by rewrite app_nil_r.
  - cbn [append_batches]. destruct (append_ok k) eqn:Hk.
    + destruct (IH (S k) (sheet ++ batch)) as (j & Hj & Hsnd & Hfst & Hall).
      exists (S j). cbn [length firstn concat].
      split; [lia|]. split; [by rewrite Hsnd, app_assoc|].
      split; [intros H; by rewrite (Hfst H)|].
      intros Hok. destruct (Hall Hok) as [-> ?]. done.
    + exists 0. simpl. rewrite app_nil_r. split; [lia|]. split; [done|].
      split; [done|]. intros Hok. by rewrite Hok in Hk.
Qed.

Lemma concat_firstn_prefix (batches : list (list (list cell))) j :
  exists m, concat (firstn j batches) = firstn m (concat batches).
Proof.
  revert j. induction batches as [|batch batches IH]; intros j.
  - exists 0. by destruct j.
  - destruct j as [|j]; [by exists 0|].
    destruct (IH j) as (m & Hm). exists (length batch + m).
    cbn [firstn concat]. rewrite Hm.
    by rewrite firstn_app_2.
Qed.

End Batching.

(** X18.  [write_rows_batch] on a connected sheet, with a positive batch
    size: the sheet afterwards is the sheet before followed by a prefix
    of the rows given (each with the timestamp added if it has fewer
    than 10 cells), in their order; when the call returns [True], and in
    particular when every append succeeds, all of them are there. *)
Theorem write_rows_batch_appends_in_order {cell : Type}
    batch_size (current_time : cell) append_ok sheet rows :
  0 < batch_size ->
  let processed := map (Sheets.with_timestamp current_time) rows in
  exists ok m,
    Sheets.write_rows_batch batch_size current_time append_ok (Some sheet) rows
    = Ok (ok, Some (sheet ++ firstn m processed))
    /\ (ok = true -> firstn m processed = processed)
    /\ ((forall n, append_ok n = true) ->
        ok = true /\ firstn m processed = processed).
Proof.
  intros Hsize processed. unfold Sheets.write_rows_batch.
  destruct rows as [|row rows].
  - exists true, 0. simpl. by rewrite app_nil_r.
  - set (all := row :: rows) in *. fold processed.
    destruct (Nat.eqb_spec batch_size 0) as [->|_]; [lia|].
    set (batches := map _ (Sheets.range _ _)).
    assert (Hcat : concat batches = processed).
    { unfold batches, Sheets.range.
      rewrite range_go_batches by lia. done. }
    destruct (append_batches_prefix append_ok 0 sheet batches)
      as (j & Hj & Hsnd & Hfst & Hall).
    destruct (Sheets.append_batches append_ok 0 sheet batches) as [ok sheet'].
    cbn [fst snd] in *. subst sheet'.
    destruct (concat_firstn_prefix batches j) as (m & Hm).
    rewrite Hm, Hcat. exists ok, m. split; [done|].
    assert (Hfull : j = length batches -> firstn m processed = processed).
    { intros ->. rewrite firstn_all, Hcat in Hm. by symmetry. }
    split; [intros Hok; by apply Hfull, Hfst|].
    intros Hok. destruct (Hall Hok) as [Hlen ->]. split; [done|by apply Hfull].
Qed.

Lemma write_rows_batch_appends_in_order_witness :
  exists ok m,
    Sheets.write_rows_batch 2 (lit "12:00")  (fun _ => true)
      (Some [Examples.header_row])
      [Examples.match_row; Examples.short_row; Examples.match_row]
    = Ok (ok, Some ([Examples.header_row]
                    ++ firstn m
                         (map (Sheets.with_timestamp (lit "12:00"))
                            [Examples.match_row; Examples.short_row;
                             Examples.match_row])))
    /\ ok = true.
Proof.
  destruct (write_rows_batch_appends_in_order 2 (lit "12:00") (fun _ => true)
              [Examples.header_row]
              [Examples.match_row; Examples.short_row; Examples.match_row])
    as (ok & m & Hw & _ & Hall); [lia|].
  exists ok, m. split; [exact Hw|]. by apply Hall.
Defined.

Section MultiWord.
Import PyStr Re Parser.

Lemma short_string_one_word s : length s < 3 -> length (split s) <= 1.
Proof.
  unfold split.
  destruct s as [|a [|b [|c s]]]; simpl; intros Hlen; try lia;
    repeat (destruct (isspace _)); simpl; lia.
Qed.

End MultiWord.

(** X19.  For a line of two to five words that contains a letter and
    none of the denylisted terms: if the letters are at least 60% of the
    characters other than spaces and periods, the team rule accepts it.
    A line of more than five words is rejected. *)
Theorem multi_word_team_rule line :
  let text := PyStr.strip line in
  let words := PyStr.split text in
  (2 <= length words <= 5 ->
   Parser.has_skip_term text = false ->
   0 < PyStr.count PyStr.isalpha text ->
   6 * length (PyStr.replace "." [] (PyStr.replace " " [] text))
   <= 10 * PyStr.count PyStr.isalpha text ->
   Parser.is_team_match line = true)
  /\ (5 < length words -> Parser.is_team_match line = false).
Proof.
  intros text words. unfold Parser.is_team_match. fold text. fold words. split.
  - intros Hwords Hskip Hletters Hratio.
    assert (H3 : (length text <? 3) = false).
    { apply Nat.ltb_ge. destruct (Nat.lt_ge_cases (length text) 3) as [Hlt|]; [|done].
      apply short_string_one_word in Hlt. fold words in Hlt. lia. }
    destruct (count_positive PyStr.isalpha text Hletters) as (c & Hin & Halpha).
    rewrite H3, (alpha_line_not_digits_punct _ c Hin Halpha), Hskip.
    assert (Hany : existsb PyStr.isalpha text = true)
      by (apply existsb_exists; by exists c).
    rewrite Hany. cbn [negb].
    destruct (PyStr.mem (PyStr.upper text) Parser.common_words) eqn:Hcommon.
    { apply common_words_length in Hcommon.
      pose proof (upper_length text).
      apply Nat.ltb_ge in H3. lia. }
    unfold Parser.team_words.
    destruct words as [|w1 [|w2 ws]]; simpl in Hwords; try lia.
    assert (Hrange : (2 <=? length (w1 :: w2 :: ws))
                     && (length (w1 :: w2 :: ws) <=? 5) = true).
    { apply andb_true_iff. split; apply Nat.leb_le; simpl; lia. }
    rewrite Hrange. by apply Nat.leb_le.
  - intros Hmany. unfold Parser.team_words.
    destruct words as [|w1 [|w2 ws]]; simpl in Hmany; try lia.
    assert (Hrange : (2 <=? length (w1 :: w2 :: ws))
                     && (length (w1 :: w2 :: ws) <=? 5) = false).
    { apply andb_false_iff. right. apply Nat.leb_gt. simpl. lia. }
    rewrite Hrange. by repeat case_match.
Qed.

Lemma multi_word_team_rule_witness :
  Parser.is_team_match (lit "Real Madrid") = true
  /\ Parser.is_team_match (lit "a b c d e f") = false.
Proof.
  split.
  - refine (proj1 (multi_word_team_rule (lit "Real Madrid")) _ _ _ _).
    + vm_compute. lia.
    + vm_compute. reflexivity.
    + vm_compute. lia.
    + vm_compute. lia.
  - refine (proj2 (multi_word_team_rule (lit "a b c d e f")) _).
    vm_compute. lia.
Defined.

(** The denylist applies to lines of several words as well. *)
Lemma denylisted_words_are_rejected :
  Parser.is_team_match (lit "Anlatım Özeti") = false.
Proof. vm_compute. reflexivity. Qed.

(** X20.  [create_flexible_row] succeeds on the record that
    [extract_all_data] builds exactly when the capture has a team
    candidate. *)
Theorem assembly_succeeds_iff_team_candidate now lines :
  (exists row,
     Parser.create_flexible_row now (Parser.extract_all_data lines) = Ok row)
  <-> Parser.team_candidates (Parser.scan_lines lines) <> [].
Proof.
  split; [|apply assembled_row_exists].
  intros (row & Hrow) Hnil.
  unfold Parser.create_flexible_row, Parser.resolve_teams_info, Py.getitem in Hrow.
  rewrite extracted_odds, extracted_teams, extracted_categories, Hnil in Hrow.
  discriminate Hrow.
Qed.

Lemma assembly_succeeds_iff_team_candidate_witness :
  exists row,
    Parser.create_flexible_row Examples.noon
      (Parser.extract_all_data Examples.derby) = Ok row.
Proof.
  apply (proj2 (assembly_succeeds_iff_team_candidate Examples.noon Examples.derby)).
  vm_compute. discriminate.
Defined.
